(** * Budget_Convertion: the conversion pipeline of [app.py]

    A shallow embedding of [extract_year_from_value], [extract_year] and
    [convert_budget], with the part of Python's [str] and [re] and of pandas
    that they use, and the properties of the specification checked against
    them.

    Conventions.
    - A Python [str] is the list of its code points ([pystr]).  The literals
      of the source are written as Rocq strings and decoded from UTF-8 by
      [u].
    - A regular expression is a term of [regex]; [rmatch] is a backtracking
      matcher with the priorities of [re] (leftmost alternative first, greedy
      repetition), [search] is [re.search].
    - A cell of the sheet is a [cell]; a DataFrame is column-major, as in
      pandas: a row count and a list of labelled columns.  A label is a
      text, or the missing value where the header cell is blank.
    - An exception is a value of [exn]; a function that can raise returns a
      [result]. *)

From Stdlib Require Import String Ascii.
From Stdlib Require Import NArith ZArith Bool Arith Lia List.
Import ListNotations.
Local Open Scope list_scope.

Set Implicit Arguments.

(* ===================================================================== *)
(** * Python strings *)
(* ===================================================================== *)

Module PyStr.

Definition pystr := list N.

(** UTF-8 decoding of a Rocq string literal into code points: only a way to
    write the literals of the source. *)
Fixpoint bytes_of (s : string) : list N :=
  match s with
  | EmptyString => []
  | String a s' => N_of_ascii a :: bytes_of s'
  end.

Fixpoint utf8_decode (bs : list N) : pystr :=
  match bs with
  | [] => []
  | b :: rest =>
      if (b <? 128)%N then b :: utf8_decode rest
      else if (b <? 224)%N then
        match rest with
        | b1 :: r => ((b - 192) * 64 + (b1 - 128))%N :: utf8_decode r
        | _ => []
        end
      else if (b <? 240)%N then
        match rest with
        | b1 :: b2 :: r =>
            ((b - 224) * 4096 + (b1 - 128) * 64 + (b2 - 128))%N :: utf8_decode r
        | _ => []
        end
      else
        match rest with
        | b1 :: b2 :: b3 :: r =>
            ((b - 240) * 262144 + (b1 - 128) * 4096 + (b2 - 128) * 64 + (b3 - 128))%N
              :: utf8_decode r
        | _ => []
        end
  end.

Definition u (s : string) : pystr := utf8_decode (bytes_of s).
Arguments u s%_string.

Definition pystr_eqb (a b : pystr) : bool :=
  if list_eq_dec N.eq_dec a b then true else false.

(** [str.isspace] on one character, which is also the class [\s] of [re] on
    a [str] pattern: CPython's [_PyUnicode_IsWhitespace]. *)
Definition isspace (c : N) : bool :=
  ((9 <=? c) && (c <=? 13) || (28 <=? c) && (c <=? 32)
   || (c =? 133) || (c =? 160) || (c =? 5760)
   || (8192 <=? c) && (c <=? 8202)
   || (c =? 8232) || (c =? 8233) || (c =? 8239) || (c =? 8287)
   || (c =? 12288))%N.

(** The decimal digits (category Nd), the class [\d] of [re] on a [str]
    pattern: each entry of [decimal_blocks] starts a block of ten digits
    0..9; the mathematical digits U+1D7CE..U+1D7FF are five blocks in a row.
    The table is that of Unicode 15.0 (CPython 3.12). *)
Definition decimal_blocks : list N :=
  [ 0x30; 0x660; 0x6F0; 0x7C0; 0x966; 0x9E6; 0xA66; 0xAE6; 0xB66; 0xBE6;
    0xC66; 0xCE6; 0xD66; 0xDE6; 0xE50; 0xED0; 0xF20; 0x1040; 0x1090; 0x17E0;
    0x1810; 0x1946; 0x19D0; 0x1A80; 0x1A90; 0x1B50; 0x1BB0; 0x1C40; 0x1C50;
    0xA620; 0xA8D0; 0xA900; 0xA9D0; 0xA9F0; 0xAA50; 0xABF0; 0xFF10;
    0x104A0; 0x10D30; 0x11066; 0x110F0; 0x11136; 0x111D0; 0x112F0; 0x11450;
    0x114D0; 0x11650; 0x116C0; 0x11730; 0x118E0; 0x11950; 0x11C50; 0x11D50;
    0x11DA0; 0x11F50; 0x16A60; 0x16AC0; 0x16B50;
    0x1D7CE; 0x1D7D8; 0x1D7E2; 0x1D7EC; 0x1D7F6;
    0x1E140; 0x1E2F0; 0x1E4F0; 0x1E950; 0x1FBF0 ]%N.

Definition isdecimal (c : N) : bool :=
  existsb (fun lo => (lo <=? c) && (c <? lo + 10))%N decimal_blocks.

(** [s.replace(a, b)] for one-character [a] and [b]. *)
Definition replace_char (a b : N) (s : pystr) : pystr :=
  map (fun c => if (c =? a)%N then b else c) s.

Fixpoint lstrip (s : pystr) : pystr :=
  match s with
  | [] => []
  | c :: s' => if isspace c then lstrip s' else s
  end.

Definition rstrip (s : pystr) : pystr := rev (lstrip (rev s)).

(** [s.strip()] *)
Definition strip (s : pystr) : pystr := rstrip (lstrip s).

(** [s.split()]: the maximal runs of characters that are not whitespace. *)
Fixpoint split (s : pystr) : list pystr :=
  match s with
  | [] => []
  | c :: s' =>
      if isspace c then split s'
      else match s' with
           | [] => [[c]]
           | d :: _ =>
               if isspace d then [c] :: split s'
               else match split s' with
                    | t :: ts => (c :: t) :: ts
                    | [] => [[c]]
                    end
           end
  end.

(** [sep.join(l)] *)
Fixpoint join (sep : pystr) (l : list pystr) : pystr :=
  match l with
  | [] => []
  | [t] => t
  | t :: l' => t ++ sep ++ join sep l'
  end.

(** [str(n)] for an [int]. *)
Definition digit_char (d : N) : N := (48 + d)%N.

Fixpoint str_of_pos (fuel : nat) (n : N) (acc : pystr) : pystr :=
  match fuel with
  | O => acc
  | S fuel' =>
      let acc' := digit_char (n mod 10) :: acc in
      if (n / 10 =? 0)%N then acc' else str_of_pos fuel' (n / 10) acc'
  end.

Definition str_of_N (n : N) : pystr := str_of_pos (S (N.to_nat (N.log2 n))) n [].

Definition str_of_int (z : Z) : pystr :=
  match z with
  | Zneg p => 45%N :: str_of_N (Npos p)
  | _ => str_of_N (Z.to_N z)
  end.

End PyStr.
Import PyStr.

(* ===================================================================== *)
(** * Regular expressions of [re] *)
(* ===================================================================== *)

Module Re.

(** The constructs the patterns of the source use.  [Star p] is the greedy
    repetition of a one-character class (all the repetitions of the source
    are of that kind); [Opt r] is the greedy [r?]; [Grp i r] is the capture
    group number [i]; [Bol] and [Eol] are [^] and [$] without flags. *)
Inductive regex : Type :=
| Eps
| Chr (p : N -> bool)
| Seq (r1 r2 : regex)
| Alt (r1 r2 : regex)
| Star (p : N -> bool)
| Opt (r : regex)
| Grp (i : nat) (r : regex)
| Bol
| Eol.

(** The groups captured so far, most recent first. *)
Definition caps := list (nat * pystr).

(** A continuation receives the position reached, the rest of the subject,
    and the captures. *)
Definition cont := nat -> pystr -> caps -> option caps.

Fixpoint star (p : N -> bool) (pos : nat) (s : pystr) (c : caps) (k : cont)
  : option caps :=
  match s with
  | ch :: s' =>
      if p ch then
        match star p (S pos) s' c k with
        | Some res => Some res
        | None => k pos s c
        end
      else k pos s c
  | [] => k pos s c
  end.

Fixpoint rmatch (r : regex) (pos : nat) (s : pystr) (c : caps) (k : cont)
  : option caps :=
  match r with
  | Eps => k pos s c
  | Chr p =>
      match s with
      | ch :: s' => if p ch then k (S pos) s' c else None
      | [] => None
      end
  | Seq r1 r2 => rmatch r1 pos s c (fun pos' s' c' => rmatch r2 pos' s' c' k)
  | Alt r1 r2 =>
      match rmatch r1 pos s c k with
      | Some res => Some res
      | None => rmatch r2 pos s c k
      end
  | Star p => star p pos s c k
  | Opt r' =>
      match rmatch r' pos s c k with
      | Some res => Some res
      | None => k pos s c
      end
  | Grp i r' =>
      rmatch r' pos s c
        (fun pos' s' c' => k pos' s' ((i, firstn (pos' - pos) s) :: c'))
  | Bol => if Nat.eqb pos 0 then k pos s c else None
  | Eol =>
      match s with
      | [] => k pos s c
      | [nl] => if (nl =? 10)%N then k pos s c else None
      | _ => None
      end
  end.

Definition accept : cont := fun _ _ c => Some c.

(** [re.search]: the first position, from the left, where the pattern
    matches; group 0 is the whole match. *)
Fixpoint search_from (r : regex) (pos : nat) (s : pystr) : option caps :=
  match rmatch (Grp 0 r) pos s [] accept with
  | Some c => Some c
  | None =>
      match s with
      | [] => None
      | _ :: s' => search_from r (S pos) s'
      end
  end.

Definition search (r : regex) (s : pystr) : option caps := search_from r 0 s.

(** [m.group(i)]: [None] when the group took no part in the match. *)
Fixpoint group (i : nat) (c : caps) : option pystr :=
  match c with
  | [] => None
  | (j, w) :: c' => if Nat.eqb i j then Some w else group i c'
  end.

(** Character classes and shorthands. *)
Definition lit (a : N) : N -> bool := fun c => (c =? a)%N.
Definition dot : N -> bool := fun c => negb (c =? 10)%N.
Definition Plus (p : N -> bool) : regex := Seq (Chr p) (Star p).

Fixpoint Lit (w : pystr) : regex :=
  match w with
  | [] => Eps
  | a :: w' => Seq (Chr (lit a)) (Lit w')
  end.

(** ** What a pattern matches

    [den r pos s pos' s']: [r] matches a prefix of [s], the subject from
    position [pos] on, and leaves [s'], the subject from [pos'] on. *)
Fixpoint den (r : regex) (pos : nat) (s : pystr) (pos' : nat) (s' : pystr)
  : Prop :=
  match r with
  | Eps => pos' = pos /\ s' = s
  | Chr p => exists ch, s = ch :: s' /\ p ch = true /\ pos' = S pos
  | Seq r1 r2 => exists p1 s1, den r1 pos s p1 s1 /\ den r2 p1 s1 pos' s'
  | Alt r1 r2 => den r1 pos s pos' s' \/ den r2 pos s pos' s'
  | Star p => exists w, s = w ++ s' /\ forallb p w = true /\ pos' = pos + length w
  | Opt r' => den r' pos s pos' s' \/ (pos' = pos /\ s' = s)
  | Grp _ r' => den r' pos s pos' s'
  | Bol => pos = 0 /\ pos' = pos /\ s' = s
  | Eol => (s = [] \/ s = [10%N]) /\ pos' = pos /\ s' = s
  end.

(** The groups that take part in every match of a pattern. *)
Fixpoint must (r : regex) : list nat :=
  match r with
  | Seq r1 r2 => must r1 ++ must r2
  | Grp i r' => i :: must r'
  | _ => []
  end.

Definition defined (i : nat) (c : caps) : Prop := exists w, group i c = Some w.

End Re.
Import Re.


(* ===================================================================== *)
(** * The program *)
(* ===================================================================== *)

Module Budget.

(** ** Values *)

(** What a cell of the sheet holds, as far as the program looks at it: whether
    it is missing, its attribute [year] when it has one, and [str(v)]. *)
Inductive cell : Type :=
| CNone                               (* None *)
| CNaN                                (* float NaN: a blank cell; also pd.NA *)
| CStr (s : pystr)                    (* a str *)
| CInt (z : Z)                        (* an int *)
| COther (text : pystr)               (* a float that is not NaN, a bool, a
                                         time: no attribute [year]; [text]
                                         is [str(v)] *)
| CDate (year : Z) (text : pystr).    (* datetime-like: [v.year] and [str(v)] *)

Definition str_of_cell (v : cell) : pystr :=
  match v with
  | CNone => u "None"
  | CNaN => u "nan"
  | CStr s => s
  | CInt z => str_of_int z
  | COther t => t
  | CDate _ t => t
  end.

(** [pd.isna] on a scalar *)
Definition isna (v : cell) : bool :=
  match v with
  | CNone | CNaN => true
  | _ => false
  end.

(** An element of a Series of dtype "string": [None] is pd.NA. *)
Definition cell_of_opt (o : option pystr) : cell :=
  match o with
  | Some s => CStr s
  | None => CNaN
  end.

(** ** Exceptions *)

Inductive exn : Type :=
| IndexError
| KeyError (msg : pystr)
| AttributeError.

Inductive result (A : Type) : Type :=
| Ok (a : A)
| Raise (e : exn).
Arguments Ok {A} a.
Arguments Raise {A} e.

Definition bind {A B} (m : result A) (f : A -> result B) : result B :=
  match m with
  | Ok a => f a
  | Raise e => Raise e
  end.

Notation "x <- m ;; k" := (bind m (fun x => k))
  (at level 61, m at next level, right associativity).

Definition is_ok {A} (m : result A) : bool :=
  match m with
  | Ok _ => true
  | Raise _ => false
  end.

(** ** Constants *)

Definition RENAME_MAP : list (pystr * pystr) :=
  [ (u "รหัสบัญชีงบประมาณ", u "Budget_Account");
    (u "งบประมาณ", u "Budget");
    (u "PR/กันงบ", u "PR/Reserved_Budget");
    (u "ตั้งหนี้/จ่าย", u "Accured/Paid");
    (u "คงเหลือ", u "Remaining_Balance");
    (u "ใช้ไป%", u "Spent%") ].

(** [(19|20)\d{2}] *)
Definition year_pat : regex :=
  Seq (Grp 1 (Alt (Lit (u "19")) (Lit (u "20"))))
      (Seq (Chr isdecimal) (Chr isdecimal)).

(** The pieces of the two group patterns. *)
Definition code_re : regex :=                       (* G\d{3} *)
  Seq (Chr (lit 71)) (Seq (Chr isdecimal) (Seq (Chr isdecimal) (Chr isdecimal))).
Definition suffix_char (c : N) : bool := negb (c =? 58)%N && negb (isspace c).
Definition suffix_re : regex :=                     (* _[^:\s]+ *)
  Seq (Chr (lit 95)) (Plus suffix_char).
Definition tail_re : regex :=                       (* \s*:\s*(.+)$ *)
  Seq (Star isspace)
      (Seq (Chr (lit 58)) (Seq (Star isspace) (Seq (Grp 2 (Plus dot)) Eol))).

(** [^((?:G\d{3})(?:_[^:\s]+)?)\s*:\s*(.+)$] when the suffix is kept, and
    [^(G\d{3})(?:_[^:\s]+)?\s*:\s*(.+)$] when it is not. *)
Definition group_pat (keep_suffix_in_budget_code : bool) : regex :=
  if keep_suffix_in_budget_code
  then Seq Bol (Seq (Grp 1 (Seq code_re (Opt suffix_re))) tail_re)
  else Seq Bol (Seq (Grp 1 code_re) (Seq (Opt suffix_re) tail_re)).

(** ** The year *)

Definition year_attr (v : cell) : option Z :=
  match v with
  | CDate y _ => Some y
  | _ => None
  end.

(** The [try] block of [extract_year_from_value]: [Some] when it returns. *)
Definition year_of_attr (v : cell) : option pystr :=
  match year_attr v with
  | Some y =>
      if ((1900 <=? y) && (y <=? 2100))%Z then Some (str_of_int y) else None
  | None => None
  end.

Definition extract_year_from_value (v : cell) : pystr :=
  if isna v then []
  else
    match year_of_attr v with
    | Some y => y
    | None =>
        let s := str_of_cell v in
        match search year_pat s with
        | Some m => match group 0 m with Some w => w | None => [] end
        | None => []
        end
    end.

(** The sheet as [read_excel(header=None)] gives it: a grid of cells held by
    columns, every column with [raw_nrows] cells. *)
Record RawSheet : Type := mkRaw {
  raw_nrows : nat;
  raw_cols : list (list cell)
}.

Definition raw_wf (raw : RawSheet) : Prop :=
  Forall (fun col => length col = raw_nrows raw) (raw_cols raw).

(** [raw.shape] *)
Definition shape (raw : RawSheet) : nat * nat :=
  (raw_nrows raw, length (raw_cols raw)).

(** [raw.iloc[r, c]] *)
Definition iloc (raw : RawSheet) (r c : nat) : result cell :=
  match nth_error (raw_cols raw) c with
  | Some col =>
      if r <? raw_nrows raw then
        match nth_error col r with
        | Some v => Ok v
        | None => Raise IndexError
        end
      else Raise IndexError
  | None => Raise IndexError
  end.

(** A Python string is true when it is not empty. *)
Definition truthy (s : pystr) : bool :=
  match s with
  | [] => false
  | _ => true
  end.

(** The inner loop [for c in range(cmax)] at row [r]: [Some y] when it
    returns [y], [None] when it runs to its end. *)
Fixpoint scan_cols (raw : RawSheet) (r : nat) (cs : list nat)
  : result (option pystr) :=
  match cs with
  | [] => Ok None
  | c :: cs' =>
      v <- iloc raw r c ;;
      let y := extract_year_from_value v in
      if truthy y then Ok (Some y) else scan_cols raw r cs'
  end.

(** The outer loop [for r in range(rmax)], and the final return of the empty
    string. *)
Fixpoint scan_rows (raw : RawSheet) (cmax : nat) (rs : list nat)
  : result pystr :=
  match rs with
  | [] => Ok []
  | r :: rs' =>
      o <- scan_cols raw r (seq 0 cmax) ;;
      match o with
      | Some y => Ok y
      | None => scan_rows raw cmax rs'
      end
  end.

Definition extract_year (raw : RawSheet) : result pystr :=
  let y :=
    match iloc raw 5 0 with
    | Ok v => extract_year_from_value v
    | Raise _ => []                      (* except Exception: pass *)
    end in
  if truthy y then Ok y
  else
    let rmax := Nat.min 25 (fst (shape raw)) in
    let cmax := Nat.min 6 (snd (shape raw)) in
    scan_rows raw cmax (seq 0 rmax).

(** ** Series and frames *)

(** The rows a boolean mask keeps. *)
Fixpoint select {A} (mask : list bool) (l : list A) : list A :=
  match mask, l with
  | b :: mask', x :: l' => if b then x :: select mask' l' else select mask' l'
  | _, _ => []
  end.

Definition count_true (mask : list bool) : nat := length (filter (fun b => b) mask).

(** [raw.drop(index=labels, errors="ignore").reset_index(drop=True)] on a
    frame whose index is 0..n-1: the labels that are not in the index are
    ignored. *)
Definition keep_mask (labels : list nat) (n : nat) : list bool :=
  map (fun i => negb (existsb (Nat.eqb i) labels)) (seq 0 n).

Definition drop_index (labels : list nat) (raw : RawSheet) : RawSheet :=
  let mask := keep_mask labels (raw_nrows raw) in
  {| raw_nrows := count_true mask;
     raw_cols := map (select mask) (raw_cols raw) |}.

(** A column label: a text, or the missing value that a blank header cell
    leaves as the label of its column. *)
Definition label : Type := option pystr.

(** Whether a label is the text [name]; the missing label is no text. *)
Definition is_label (name : pystr) (l : label) : bool :=
  match l with
  | Some s => pystr_eqb name s
  | None => false
  end.

(** A frame: columns may share a label. *)
Record DataFrame : Type := mkDF {
  nrows : nat;
  cols : list (label * list cell)
}.

Definition columns (df : DataFrame) : list label := map fst (cols df).

(** [name in df.columns] *)
Definition has_column (name : pystr) (df : DataFrame) : bool :=
  existsb (is_label name) (columns df).

(** [df[name] = vals]: every column labelled [name] is replaced; when there
    is none, a new last column is added. *)
Definition set_column (name : pystr) (vals : list cell) (df : DataFrame)
  : DataFrame :=
  {| nrows := nrows df;
     cols :=
       if has_column name df
       then map (fun nc => if is_label name (fst nc) then (fst nc, vals) else nc)
                (cols df)
       else cols df ++ [(Some name, vals)] |}.

(** [df[name]] used as a Series: [KeyError] without such a column; with
    several, the selection is a DataFrame, and the accessor [.str] (like
    [.where]) that the program applies to it raises [AttributeError]. *)
Definition getitem (name : pystr) (df : DataFrame) : result (list cell) :=
  match filter (fun nc => is_label name (fst nc)) (cols df) with
  | [] => Raise (KeyError name)
  | [nc] => Ok (snd nc)
  | _ => Raise AttributeError
  end.

(** [df.rename(columns=RENAME_MAP)] *)
Fixpoint dict_get (d : list (pystr * pystr)) (k : pystr) : option pystr :=
  match d with
  | [] => None
  | (k', v) :: d' => if pystr_eqb k k' then Some v else dict_get d' k
  end.

Definition rename_label (d : list (pystr * pystr)) (name : pystr) : pystr :=
  match dict_get d name with
  | Some v => v
  | None => name
  end.

Definition rename (d : list (pystr * pystr)) (df : DataFrame) : DataFrame :=
  {| nrows := nrows df;
     cols := map (fun nc => (option_map (rename_label d) (fst nc), snd nc))
                 (cols df) |}.

(** [df.drop(columns=[name])] *)
Definition remove_columns (name : pystr) (df : DataFrame) : DataFrame :=
  {| nrows := nrows df;
     cols := filter (fun nc => negb (is_label name (fst nc))) (cols df) |}.

Definition drop_column (name : pystr) (df : DataFrame) : result DataFrame :=
  if has_column name df then Ok (remove_columns name df)
  else Raise (KeyError name).

(** [df[[c for c in desired if c in df.columns]]] *)
Definition project (desired : list pystr) (df : DataFrame) : DataFrame :=
  {| nrows := nrows df;
     cols :=
       flat_map (fun name => filter (fun nc => is_label name (fst nc)) (cols df))
                (filter (fun name => has_column name df) desired) |}.

(** [df.dropna(subset=[name]).reset_index(drop=True)] *)
Definition select_rows (mask : list bool) (df : DataFrame) : DataFrame :=
  {| nrows := count_true mask;
     cols := map (fun nc => (fst nc, select mask (snd nc))) (cols df) |}.

Definition dropna (name : pystr) (df : DataFrame) : result DataFrame :=
  col <- getitem name df ;;
  Ok (select_rows (map (fun v => negb (isna v)) col) df).

(** ** Series of dtype "string" *)

Definition sseries := list (option pystr).

(** [.astype("string")] on one element *)
Definition astype_string (v : cell) : option pystr :=
  if isna v then None else Some (str_of_cell v).

(** [s.str.extract(pat)] for a pattern with the groups 1 and 2: the two
    columns of the result. *)
Definition extract1 (pat : regex) (x : option pystr)
  : option pystr * option pystr :=
  match x with
  | None => (None, None)
  | Some t =>
      match search pat t with
      | Some m => (group 1 m, group 2 m)
      | None => (None, None)
      end
  end.

Definition extract (pat : regex) (s : sseries) : sseries * sseries :=
  (map (fun x => fst (extract1 pat x)) s, map (fun x => snd (extract1 pat x)) s).

(** [s.notna()] *)
Definition notna (s : sseries) : list bool :=
  map (fun x => match x with Some _ => true | None => false end) s.

(** [s.where(mask)] *)
Fixpoint where_ (s : sseries) (mask : list bool) : sseries :=
  match s, mask with
  | x :: s', b :: mask' => (if b then x else None) :: where_ s' mask'
  | _, _ => []
  end.

(** [s.ffill()]: [last] is the latest value seen that is not NA. *)
Fixpoint ffill_from (last : option pystr) (s : sseries) : sseries :=
  match s with
  | [] => []
  | Some v :: s' => Some v :: ffill_from (Some v) s'
  | None :: s' => last :: ffill_from last s'
  end.

Definition ffill (s : sseries) : sseries := ffill_from None s.

(** ** The conversion *)

Definition Budget_Account := u "Budget_Account".
Definition Budget_Code := u "Budget_Code".
Definition Budget_Type := u "Budget_Type".
Definition Expense_Code := u "Expense_Code".
Definition Expense_Detail := u "Expense_Detail".
Definition Year := u "Year".

Definition missing_column_msg : pystr :=
  u "Could not find 'รหัสบัญชีงบประมาณ' / Budget_Account column after header set.".

Definition desired : list pystr :=
  [ Year; Budget_Code; Budget_Type; Expense_Code; Expense_Detail;
    u "Budget"; u "PR/Reserved_Budget"; u "Accured/Paid";
    u "Remaining_Balance"; u "Spent%" ].

(** [.astype(str).str.strip()] on one cell of the header row: a missing
    value stays missing and is the label of its column; any other value
    gives its text, trimmed. *)
Definition header_label (v : cell) : label :=
  if isna v then None else Some (strip (str_of_cell v)).

(** Lines 72-77 and 80: the leading rows are dropped, the first row left
    becomes the header.  [df.iloc[0]] raises [IndexError] on a frame without
    rows. *)
Definition set_header (raw : RawSheet) : result DataFrame :=
  let df := drop_index (seq 0 9) raw in
  let df := drop_index [1] df in
  match raw_nrows df with
  | O => Raise IndexError
  | S n =>
      let header := map (fun col => header_label (hd CNaN col)) (raw_cols df) in
      let data := map (@tl cell) (raw_cols df) in
      let header := map (option_map strip) header in
      Ok {| nrows := n; cols := combine header data |}
  end.

(** Lines 72-89: the Header Normalizer, up to the check of the required
    column. *)
Definition normalize_header (raw : RawSheet) (year : pystr) : result DataFrame :=
  df <- set_header raw ;;
  let df := set_column Year (repeat (CStr year) (nrows df)) df in
  Ok (rename RENAME_MAP df).

Definition require_account (df : DataFrame) : result DataFrame :=
  if has_column Budget_Account df then Ok df
  else Raise (KeyError missing_column_msg).

(** Lines 92-96: the normalized text of one account cell. *)
Definition normalize (v : cell) : option pystr :=
  option_map (fun t => strip (replace_char 160 32 t)) (astype_string v).

(** One element of [is_group]: whether the normalized text [t] is a group
    marker. *)
Definition is_marker (keep_suffix_in_budget_code : bool) (t : pystr) : bool :=
  match fst (extract1 (group_pat keep_suffix_in_budget_code) (Some t)) with
  | Some _ => true
  | None => false
  end.

(** One element of [is_group] for an account cell [v]. *)
Definition row_is_group (keep_suffix_in_budget_code : bool) (v : cell) : bool :=
  match normalize v with
  | Some t => is_marker keep_suffix_in_budget_code t
  | None => false
  end.

(** Lines 91-118: the Row Classifier. *)
Definition classify_and_fill (keep_suffix_in_budget_code : bool) (df : DataFrame)
  : result DataFrame :=
  col <- getitem Budget_Account df ;;
  let s := map normalize col in
  let m := extract (group_pat keep_suffix_in_budget_code) s in
  let is_group := notna (fst m) in
  let df := set_column Budget_Code
              (map cell_of_opt (ffill (where_ (fst m) is_group))) df in
  let df := set_column Budget_Type
              (map cell_of_opt (ffill (where_ (snd m) is_group))) df in
  let df := set_column Budget_Account
              (map cell_of_opt (where_ s (map negb is_group))) df in
  dropna Budget_Account df.

(** Lines 121-123 on one element: [ba.str.split().str[0]] is NA when there
    is no token; [ba.str.split().str[1:].str.join(" ")]. *)
Definition expense_code (x : option pystr) : option pystr :=
  match x with
  | Some t => hd_error (split t)
  | None => None
  end.

Definition expense_detail (x : option pystr) : option pystr :=
  option_map (fun t => join (u " ") (tl (split t))) x.

(** Lines 121-132: the Field Splitter and the final choice of columns. *)
Definition split_fields (df : DataFrame) : result DataFrame :=
  col <- getitem Budget_Account df ;;
  let ba := map (fun v => option_map strip (astype_string v)) col in
  let df := set_column Expense_Code
              (map (fun x => cell_of_opt (expense_code x)) ba) df in
  let df := set_column Expense_Detail
              (map (fun x => cell_of_opt (expense_detail x)) ba) df in
  df <- drop_column Budget_Account df ;;
  Ok (project desired df).

(** [raw] is the frame that [read_excel_any(uploaded_file)] returns. *)
Definition convert_budget (raw : RawSheet) (keep_suffix_in_budget_code : bool)
  : result DataFrame :=
  year <- extract_year raw ;;
  df <- normalize_header raw year ;;
  df <- require_account df ;;
  df <- classify_and_fill keep_suffix_in_budget_code df ;;
  split_fields df.

(** The rows of a frame, each the list of its cells in column order. *)
Definition row_at (df : DataFrame) (i : nat) : list cell :=
  map (fun nc => nth i (snd nc) CNaN) (cols df).

Definition rows (df : DataFrame) : list (list cell) :=
  map (row_at df) (seq 0 (nrows df)).

End Budget.
Import Budget.

(* ===================================================================== *)
(** * The specification's notions *)
(* ===================================================================== *)

Module Spec.

(** The text before the first run of whitespace, and the text from that run
    on. *)
Fixpoint before_ws (s : pystr) : pystr :=
  match s with
  | [] => []
  | c :: s' => if isspace c then [] else c :: before_ws s'
  end.

Fixpoint after_ws (s : pystr) : pystr :=
  match s with
  | [] => []
  | c :: s' => if isspace c then s else after_ws s'
  end.

(** The shape [^(CODE)(SUFFIX)?\s*:\s*(TEXT)$] of a group marker, for a
    given reading of CODE.  SUFFIX is an underscore and one or more
    characters that are neither a colon nor whitespace; TEXT is one or more
    characters other than a line feed. *)
Definition is_suffix (w : pystr) : Prop :=
  exists t, w = 95%N :: t /\ t <> [] /\ forallb suffix_char t = true.

Definition is_text (w : pystr) : Prop :=
  w <> [] /\ forallb dot w = true.

Definition marker_shape (is_code : pystr -> Prop) (t : pystr) : Prop :=
  exists code sfx w1 w2 text,
    t = code ++ sfx ++ w1 ++ [58%N] ++ w2 ++ text /\
    is_code code /\ (sfx = [] \/ is_suffix sfx) /\
    forallb isspace w1 = true /\ forallb isspace w2 = true /\
    is_text text.

(** CODE as the program has it: the letter G and three digits. *)
Definition is_g_code (w : pystr) : Prop :=
  exists d1 d2 d3, w = [71%N; d1; d2; d3] /\
    isdecimal d1 = true /\ isdecimal d2 = true /\ isdecimal d3 = true.

(** CODE as the specification words it: an uppercase letter and three
    digits. *)
Definition is_upper (c : N) : bool := ((65 <=? c) && (c <=? 90))%N.

Definition is_letter_code (w : pystr) : Prop :=
  exists l d1 d2 d3, w = [l; d1; d2; d3] /\ is_upper l = true /\
    isdecimal d1 = true /\ isdecimal d2 = true /\ isdecimal d3 = true.

(** A string that matches [(19|20)\d\d] as a whole. *)
Definition year_shape (y : pystr) : Prop :=
  exists a b c d, y = [a; b; c; d] /\
    ((a = 49%N /\ b = 57%N) \/ (a = 50%N /\ b = 48%N)) /\
    isdecimal c = true /\ isdecimal d = true.

Definition year_shapeb (y : pystr) : bool :=
  match y with
  | [a; b; c; d] =>
      (((a =? 49) && (b =? 57)) || ((a =? 50) && (b =? 48)))%N
      && isdecimal c && isdecimal d
  | _ => false
  end.

(** The Year Extractor as the specification words it: the cell at row 5,
    column 0 when it yields a year, else the first cell of the region of the
    first 25 rows and 6 columns, in row-major order, that yields one, else
    the empty string. *)
Definition cell_at (raw : RawSheet) (r c : nat) : option cell :=
  match nth_error (raw_cols raw) c with
  | Some col => nth_error col r
  | None => None
  end.

Definition yields_year (v : cell) : bool := truthy (extract_year_from_value v).

Definition region (raw : RawSheet) : list cell :=
  flat_map
    (fun r => flat_map (fun c => match cell_at raw r c with
                                 | Some v => [v]
                                 | None => []
                                 end)
                       (seq 0 (Nat.min 6 (length (raw_cols raw)))))
    (seq 0 (Nat.min 25 (raw_nrows raw))).

Definition first_year (cells : list cell) : pystr :=
  match find yields_year cells with
  | Some v => extract_year_from_value v
  | None => []
  end.

Definition extract_year_spec (raw : RawSheet) : pystr :=
  match cell_at raw 5 0 with
  | Some v =>
      if yields_year v then extract_year_from_value v
      else first_year (region raw)
  | None => first_year (region raw)
  end.

(** The Row Classifier and the Field Splitter as the sequential fold of the
    specification: the rows are read in order with the current
    [(Budget_Code, Budget_Type)]; a marker replaces it and gives no row, a
    missing account gives no row, any other row is emitted with the current
    pair. *)
Record out_row : Type := mkRow {
  r_budget_code : option pystr;
  r_budget_type : option pystr;
  r_expense_code : option pystr;
  r_expense_detail : option pystr
}.

Definition data_row (ctx : option pystr * option pystr) (t : pystr) : out_row :=
  {| r_budget_code := fst ctx;
     r_budget_type := snd ctx;
     r_expense_code := expense_code (Some (strip t));
     r_expense_detail := expense_detail (Some (strip t)) |}.

Fixpoint fold_rows (keep : bool) (ctx : option pystr * option pystr)
  (col : list cell) : list out_row :=
  match col with
  | [] => []
  | v :: col' =>
      match normalize v with
      | None => fold_rows keep ctx col'
      | Some t =>
          match search (group_pat keep) t with
          | Some m =>
              match group 1 m with
              | Some code =>
                  fold_rows keep
                    (Some code,
                     match group 2 m with Some ty => Some ty | None => snd ctx end)
                    col'
              | None => data_row ctx t :: fold_rows keep ctx col'
              end
          | None => data_row ctx t :: fold_rows keep ctx col'
          end
      end
  end.

(** The frame after header normalization and renaming. *)
Definition header_of (raw : RawSheet) : result DataFrame :=
  bind (extract_year raw) (normalize_header raw).

(** Whether a result is the labelled error of the missing account column. *)
Definition raises_missing_column {A} (r : result A) : bool :=
  match r with
  | Raise (KeyError msg) => pystr_eqb msg missing_column_msg
  | _ => false
  end.

(** The values a Year may take by the specification, and the one more it
    takes in the program. *)
Definition year_ok (y : pystr) : Prop := y = [] \/ year_shape y.
Definition year_ok_or_2100 (y : pystr) : Prop := year_ok y \/ y = u "2100".

(** An Expense_Code that is a token (not empty, no whitespace) or missing. *)
Definition token_or_na (x : cell) : Prop :=
  x = CNaN \/
  exists t, x = CStr t /\ t <> [] /\ forallb (fun c => negb (isspace c)) t = true.

(** The normalized texts of the cells that are not missing. *)
Definition data_texts (col : list cell) : list pystr :=
  flat_map (fun v => match normalize v with
                     | Some t => [t]
                     | None => []
                     end) col.

End Spec.
Import Spec.

(* ===================================================================== *)
(** * Frames, column by column *)
(* ===================================================================== *)

Module Frames.

(** The columns of a frame that carry a label. *)
Definition labelled (name : pystr) (df : DataFrame) : list (list cell) :=
  map snd (filter (fun nc => is_label name (fst nc)) (cols df)).

(** Every column labelled [name], and there is one, holds [vals]. *)
Definition col_is (name : pystr) (vals : list cell) (df : DataFrame) : Prop :=
  labelled name df <> [] /\ Forall (eq vals) (labelled name df).

End Frames.
Import Frames.

Module Columns.

(** The Series that [classify_and_fill] computes from the account column. *)
Definition col_s (col : list cell) : sseries := map normalize col.

Definition col_m (keep : bool) (col : list cell) : sseries * sseries :=
  extract (group_pat keep) (col_s col).

Definition col_is_group (keep : bool) (col : list cell) : list bool :=
  notna (fst (col_m keep col)).

Definition col_code (keep : bool) (last : option pystr) (col : list cell) : sseries :=
  ffill_from last (where_ (fst (col_m keep col)) (col_is_group keep col)).

Definition col_type (keep : bool) (last : option pystr) (col : list cell) : sseries :=
  ffill_from last (where_ (snd (col_m keep col)) (col_is_group keep col)).

Definition col_account (keep : bool) (col : list cell) : list cell :=
  map cell_of_opt (where_ (col_s col) (map negb (col_is_group keep col))).

Definition col_mask (keep : bool) (col : list cell) : list bool :=
  map (fun v => negb (isna v)) (col_account keep col).

Definition ba_of (v : cell) : option pystr := option_map strip (astype_string v).

(** One step of each Series, by the case of the row. *)
Inductive row_case (keep : bool) (v : cell) : Type :=
| RowNA : normalize v = None -> row_case keep v
| RowData t : normalize v = Some t ->
    fst (extract1 (group_pat keep) (Some t)) = None -> row_case keep v
| RowMarker t code : normalize v = Some t ->
    fst (extract1 (group_pat keep) (Some t)) = Some code -> row_case keep v.

Definition row_case_of keep v : row_case keep v.
Proof.
  destruct (normalize v) as [t|] eqn:E.
  - destruct (fst (extract1 (group_pat keep) (Some t))) as [code|] eqn:F.
    + exact (@RowMarker keep v t code E F).
    + exact (@RowData keep v t E F).
  - exact (@RowNA keep v E).
Defined.

(** The frame the Row Classifier returns. *)
Definition classified (keep : bool) (col : list cell) (df : DataFrame) : DataFrame :=
  select_rows (col_mask keep col)
    (set_column Budget_Account (col_account keep col)
       (set_column Budget_Type (map cell_of_opt (col_type keep None col))
          (set_column Budget_Code (map cell_of_opt (col_code keep None col)) df))).

(** The frame the Field Splitter returns. *)
Definition splitted (df : DataFrame) (col : list cell) : DataFrame :=
  project desired
    (remove_columns Budget_Account
       (set_column Expense_Detail
          (map (fun x => cell_of_opt (expense_detail x)) (map ba_of col))
          (set_column Expense_Code
             (map (fun x => cell_of_opt (expense_code x)) (map ba_of col)) df))).

(** The table of a conversion: the frame after the Header Normalizer has
    one account column [col]; the result has the rows of the sequential
    fold over [col], in its four derived columns. *)
Record table_of (keep : bool) (col : list cell) (out : DataFrame) : Prop := {
  t_nrows : nrows out = length (fold_rows keep (None, None) col);
  t_code : col_is Budget_Code
             (map (fun r => cell_of_opt (r_budget_code r))
                  (fold_rows keep (None, None) col)) out;
  t_type : col_is Budget_Type
             (map (fun r => cell_of_opt (r_budget_type r))
                  (fold_rows keep (None, None) col)) out;
  t_expense_code : col_is Expense_Code
             (map (fun r => cell_of_opt (r_expense_code r))
                  (fold_rows keep (None, None) col)) out;
  t_expense_detail : col_is Expense_Detail
             (map (fun r => cell_of_opt (r_expense_detail r))
                  (fold_rows keep (None, None) col)) out
}.

Definition cells_of (raw : RawSheet) (r : nat) (cs : list nat) : list cell :=
  flat_map (fun c => match cell_at raw r c with
                     | Some v => [v]
                     | None => []
                     end) cs.

End Columns.
Import Columns.

(* ===================================================================== *)
(** * Sheets and frames of the examples *)
(* ===================================================================== *)

Module Examples.

(** A sheet of one column. *)
Definition sheet1 (l : list cell) : RawSheet :=
  {| raw_nrows := length l; raw_cols := [l] |}.

Definition c1_accounts : list cell :=
  map CStr [u "G501: Group A"; u "511 item one"; u "512 item two";
            u "G502: Group B"; u "521 item three"].

Definition c1_frame : DataFrame :=
  {| nrows := 5;
     cols := [ (Some Budget_Account, c1_accounts);
               (Some (u "Budget"), [CNaN; CInt 100; CInt 200; CNaN; CInt 300]) ] |}.

Definition c1_sheet : RawSheet :=
  sheet1 (repeat CNaN 9 ++
          [CStr (u " รหัสบัญชีงบประมาณ "); CNaN] ++ c1_accounts).

Definition c2_text : pystr := u "A501: Group X".

Definition c3_sheet_missing : RawSheet :=
  sheet1 (repeat CNaN 9 ++ [CStr (u "Account"); CNaN; CStr (u "511 item one")]).

Definition c4_sheet : RawSheet :=
  sheet1 (repeat CNaN 9 ++
          [CStr (u "รหัสบัญชีงบประมาณ"); CNaN;
           CStr (u "G501: Group A"); CStr (u "   "); CNaN; CStr (u "511 item one")]).

Definition c5_sheet : RawSheet :=
  sheet1 ([CNaN; CNaN; CNaN; CNaN; CNaN;
           CDate 2100 (u "2100-01-01 00:00:00"); CNaN; CNaN; CNaN;
           CStr (u "รหัสบัญชีงบประมาณ"); CNaN; CStr (u "511 item one")]).


Definition c7_sheet : RawSheet := sheet1 [CStr (u "Report"); CNaN; CStr (u "2025")].

Definition c9_sheet : RawSheet :=
  sheet1 (repeat CNaN 9 ++
          [CStr (u "รหัสบัญชีงบประมาณ"); CNaN;
           CStr (u "501 early item"); CNaN; CStr (u "G501: Group A");
           CStr (u "511 item one")]).

Definition c9_out : DataFrame :=
  {| nrows := 2;
     cols := [ (Some Year, [CStr []; CStr []]);
               (Some Budget_Code, [CNaN; CStr (u "G501")]);
               (Some Budget_Type, [CNaN; CStr (u "Group A")]);
               (Some Expense_Code, [CStr (u "501"); CStr (u "511")]);
               (Some Expense_Detail, [CStr (u "early item"); CStr (u "item one")]) ] |}.

(** A marker, then a code and a colon with nothing after it, without and
    with whitespace before the colon, then a data row. *)
Definition c10_accounts : list cell :=
  map CStr [u "G500: Old"; u "G501:"; u "G501 : "; u "511 x"].

Definition c10_frame : DataFrame :=
  {| nrows := 4; cols := [ (Some Budget_Account, c10_accounts) ] |}.

Definition c10_sheet : RawSheet :=
  sheet1 (repeat CNaN 9 ++ [CStr (u "รหัสบัญชีงบประมาณ"); CNaN] ++ c10_accounts).

(** A sheet whose header row has a blank cell and a number. *)
Definition blank_header_sheet : RawSheet :=
  {| raw_nrows := 12;
     raw_cols :=
       [ repeat CNaN 9 ++ [CStr (u " รหัสบัญชีงบประมาณ "); CNaN; CStr (u "511 item one")];
         repeat CNaN 9 ++ [CNaN; CNaN; CInt 5];
         repeat CNaN 9 ++ [CInt 7; CNaN; CInt 6] ] |}.

(** A sheet of four columns: the year in the cell at row 5, column 0; the
    header at row 9, the stray row at row 10. *)
Definition budget_sheet : RawSheet :=
  {| raw_nrows := 15;
     raw_cols :=
       [ repeat CNaN 5 ++ [CStr (u "ปีงบประมาณ 2025")] ++ repeat CNaN 3 ++
         [CStr (u "รหัสบัญชีงบประมาณ "); CNaN;
          CStr (u "G501 : Group A"); CStr (u "511 item one");
          CStr (u "G502_1: Group B"); CStr (u "521  item  three")];
         repeat CNaN 9 ++
         [CStr (u "งบประมาณ"); CNaN; CInt 300; CInt 100; CInt 50; CInt 50];
         repeat CNaN 9 ++
         [CStr (u "note"); CNaN; CNaN; CStr (u "a"); CNaN; CStr (u "b")];
         repeat CNaN 9 ++
         [CStr (u " คงเหลือ"); CNaN; CInt 30; CInt 10; CInt 5; COther (u "5.5")] ] |}.

End Examples.
Import Examples.

(* ===================================================================== *)
(** * The reader, and views of sheets and frames *)
(* ===================================================================== *)

Module Reader.

(** [s.startswith(pre)] and [s.endswith(suf)] *)
Fixpoint startswith (s pre : pystr) : bool :=
  match pre, s with
  | [], _ => true
  | p :: pre', c :: s' => (c =? p)%N && startswith s' pre'
  | _ :: _, [] => false
  end.

Definition endswith (s suf : pystr) : bool := startswith (rev s) (rev suf).

(** The engines of [pd.read_excel] that the program names. *)
Inductive engine : Type :=
| xlrd
| openpyxl.

(** Lines 60-64: the engine that [read_excel_any] reads the file with;
    [name] is the name of the file in lower case,
    [uploaded_file.name.lower()]. *)
Definition read_excel_any_engine (name : pystr) : engine :=
  if endswith name (u ".xls") && negb (endswith name (u ".xlsx"))
  then xlrd else openpyxl.

End Reader.
Import Reader.

Module Views.

(** Where a greedy repetition stops: at the end of the subject or before a
    character outside the class. *)
Definition stops (p : N -> bool) (s : pystr) : Prop :=
  match s with
  | [] => True
  | x :: _ => p x = false
  end.

(** A row with its Budget_Code cut to the code without suffix. *)
Definition short_code (r : out_row) : out_row :=
  mkRow (option_map (firstn 4) (r_budget_code r)) (r_budget_type r)
        (r_expense_code r) (r_expense_detail r).

(** Two frames with the same columns under every label but Budget_Code. *)
Definition agree (df1 df2 : DataFrame) : Prop :=
  forall name, name <> Budget_Code -> labelled name df1 = labelled name df2.

(** The rows a frame keeps: those whose account cell is not missing and is
    no marker. *)
Definition kept_mask (keep : bool) (col : list cell) : list bool :=
  map (fun v => negb (isna v) && negb (row_is_group keep v)) col.

(** The labels of [desired] that the program does not compute. *)
Definition copied : list pystr :=
  [ Year; u "Budget"; u "PR/Reserved_Budget"; u "Accured/Paid";
    u "Remaining_Balance"; u "Spent%" ].

Definition derived : list pystr :=
  [ Budget_Code; Budget_Type; Expense_Code; Expense_Detail ].

(** How many columns of the result carry the label [d], for a frame [df]
    given to the Row Classifier. *)
Definition width (df : DataFrame) (d : pystr) : nat :=
  if existsb (pystr_eqb d) derived
  then Nat.max 1 (length (labelled d df))
  else length (labelled d df).

(** The frame that the Header Normalizer reads off a sheet of ten rows or
    more: the header is row 9, the data are the rows from 11 on. *)
Definition header_frame (raw : RawSheet) : DataFrame :=
  {| nrows := raw_nrows raw - 11;
     cols := map (fun col => (header_label (nth 9 col CNaN), skipn 11 col))
                 (raw_cols raw) |}.

(** A header text that names the account column, before renaming. *)
Definition is_account_header (h : pystr) : bool :=
  pystr_eqb h (u "รหัสบัญชีงบประมาณ") || pystr_eqb h Budget_Account.

(** A label that the renaming turns into Budget_Account; the missing label
    is none. *)
Definition is_account_label (l : label) : bool :=
  match l with
  | Some h => is_account_header h
  | None => false
  end.

(** The columns of a sheet whose header cell, trimmed, names the account
    column. *)
Definition account_columns (raw : RawSheet) : list (list cell) :=
  filter (fun col => is_account_header (strip (str_of_cell (nth 9 col CNaN))))
         (raw_cols raw).

(** A column without its second cell. *)
Definition drop_second (l : list cell) : list cell :=
  match l with
  | x :: _ :: r => x :: r
  | _ => l
  end.

(** Every column of a frame has as many cells as the frame has rows. *)
Definition df_wf (df : DataFrame) : Prop :=
  Forall (fun nc => length (snd nc) = nrows df) (cols df).

(** The first window of four characters, from the left, that reads as a
    year. *)
Fixpoint leftmost_year (s : pystr) : pystr :=
  match s with
  | [] => []
  | c :: s' =>
      if year_shapeb (firstn 4 (c :: s')) then firstn 4 (c :: s')
      else leftmost_year s'
  end.

(** The top-left corner of a sheet: at most 25 rows and 6 columns. *)
Definition crop (raw : RawSheet) : RawSheet :=
  {| raw_nrows := Nat.min 25 (raw_nrows raw);
     raw_cols := map (firstn 25) (firstn 6 (raw_cols raw)) |}.

(** A token: not empty and without whitespace. *)
Definition is_token (t : pystr) : Prop :=
  t <> [] /\ forallb (fun c => negb (isspace c)) t = true.

End Views.
Import Views.

(* ===================================================================== *)
(** * Facts about strings *)
(* ===================================================================== *)

Module PyStrFacts.

Lemma pystr_eqb_eq a b : pystr_eqb a b = true <-> a = b.
Proof.
  unfold pystr_eqb. destruct (list_eq_dec N.eq_dec a b); split; congruence.
Qed.

Lemma pystr_eqb_refl a : pystr_eqb a a = true.
Proof. now apply pystr_eqb_eq. Qed.

Example split_ex : split (u " 511  item one ") = [u "511"; u "item"; u "one"].
Proof. reflexivity. Qed.

Example str_of_int_ex :
  str_of_int 2100 = u "2100" /\ str_of_int 0 = u "0" /\ str_of_int (-15) = u "-15".
Proof. repeat split; reflexivity. Qed.

Lemma pystr_eqb_neq a b : a <> b -> pystr_eqb a b = false.
Proof.
  intros H. destruct (pystr_eqb a b) eqn:E; [|reflexivity].
  apply pystr_eqb_eq in E. contradiction.
Qed.

(** *** Character classes *)

Lemma isdecimal_bounds c :
  isdecimal c = true -> (48 <= c)%N /\ c <> 58%N /\ c <> 95%N /\ isspace c = false.
Proof.
  unfold isdecimal. rewrite existsb_exists. intros (lo & Hin & Hc).
  apply andb_true_iff in Hc as [H1 H2].
  apply N.leb_le in H1. apply N.ltb_lt in H2.
  assert (Hs : forall x, (48 <= x)%N -> x <> 58%N -> x <> 95%N ->
                 ~ (x = 133 \/ x = 160 \/ x = 5760 \/ (8192 <= x <= 8202)
                    \/ x = 8232 \/ x = 8233 \/ x = 8239 \/ x = 8287 \/ x = 12288)%N ->
                 (48 <= x)%N /\ x <> 58%N /\ x <> 95%N /\ isspace x = false).
  { intros x Hx H58 H95 Hn. repeat split; auto. unfold isspace.
    repeat match goal with
           | |- (_ || _)%bool = false => apply orb_false_iff; split
           | |- (_ && _)%bool = false => apply andb_false_iff
           end;
      try (right; apply N.leb_gt; lia);
      try (apply N.eqb_neq; lia).
    destruct (N.leb_spec 8192 x); [|now left].
    right. apply N.leb_gt. lia. }
  unfold decimal_blocks in Hin. simpl in Hin.
  repeat (destruct Hin as [<- | Hin]; [apply Hs; lia|]).
  contradiction.
Qed.

Lemma isspace_not_colon c : isspace c = true -> c <> 58%N.
Proof. intros H ->. discriminate. Qed.

Lemma isspace_nl : isspace 10 = true.
Proof. reflexivity. Qed.

(** *** strip *)

Lemma lstrip_spec s :
  exists ws, s = ws ++ lstrip s /\ forallb isspace ws = true.
Proof.
  induction s as [|c s (ws & IH & Hws)]; simpl.
  - exists []. auto.
  - destruct (isspace c) eqn:E.
    + exists (c :: ws). simpl. rewrite E, Hws. split; [f_equal; exact IH | reflexivity].
    + exists []. auto.
Qed.

Lemma lstrip_head s c w : lstrip s = c :: w -> isspace c = false.
Proof.
  induction s as [|d s IH]; simpl; [discriminate|].
  destruct (isspace d) eqn:E; auto.
  intros H. inversion H; subst. exact E.
Qed.

Lemma lstrip_nonspace c w : isspace c = false -> lstrip (c :: w) = c :: w.
Proof. intros H. simpl. now rewrite H. Qed.

Lemma rstrip_last s w c : rstrip s = w ++ [c] -> isspace c = false.
Proof.
  unfold rstrip. intros H.
  apply (f_equal (@rev N)) in H. rewrite rev_involutive, rev_app_distr in H.
  simpl in H. eapply lstrip_head; eauto.
Qed.

Lemma strip_last s w c : strip s = w ++ [c] -> isspace c = false.
Proof. unfold strip. apply rstrip_last. Qed.

Lemma rstrip_spec s :
  exists ws, s = rstrip s ++ ws /\ forallb isspace ws = true.
Proof.
  unfold rstrip. destruct (lstrip_spec (rev s)) as (ws & H & Hws).
  exists (rev ws). split.
  - apply (f_equal (@rev N)) in H. rewrite rev_involutive, rev_app_distr in H.
    exact H.
  - rewrite forallb_forall in *. intros x Hx. apply Hws. now apply in_rev.
Qed.

Lemma strip_head s c w : strip s = c :: w -> isspace c = false.
Proof.
  unfold strip. intros H.
  destruct (rstrip_spec (lstrip s)) as (ws & E & Hws).
  rewrite H in E. simpl in E. eapply lstrip_head; eauto.
Qed.

Lemma strip_all_space s : forallb isspace s = true -> strip s = [].
Proof.
  intros H. unfold strip.
  assert (E : lstrip s = []).
  { induction s as [|c s IH]; simpl in *; auto.
    apply andb_true_iff in H as [-> H]. auto. }
  rewrite E. reflexivity.
Qed.

(** *** split *)

Lemma split_before_after : forall s c,
  isspace c = false ->
  split (c :: s) = (c :: before_ws s) :: split (after_ws s).
Proof.
  induction s as [|d s IH]; intros c Hc.
  - simpl. now rewrite Hc.
  - change (split (c :: d :: s))
      with (if isspace c then split (d :: s)
            else if isspace d then [c] :: split (d :: s)
                 else match split (d :: s) with
                      | t :: ts => (c :: t) :: ts
                      | [] => [[c]]
                      end).
    rewrite Hc. cbn [before_ws after_ws].
    destruct (isspace d) eqn:Hd; [reflexivity|].
    rewrite (IH d Hd). reflexivity.
Qed.

Lemma split_space c s : isspace c = true -> split (c :: s) = split s.
Proof. intros H. simpl. now rewrite H. Qed.

Lemma split_all_space s : forallb isspace s = true -> split s = [].
Proof.
  induction s as [|c s IH]; simpl; auto.
  intros H. apply andb_true_iff in H as [-> H]. auto.
Qed.

Lemma split_nil_all_space s : split s = [] -> forallb isspace s = true.
Proof.
  induction s as [|c s IH]; auto.
  destruct (isspace c) eqn:Hc.
  - rewrite split_space by exact Hc. intros H. simpl. rewrite Hc. auto.
  - rewrite split_before_after by exact Hc. discriminate.
Qed.

Lemma before_ws_nonspace s : forallb (fun c => negb (isspace c)) (before_ws s) = true.
Proof.
  induction s as [|c s IH]; simpl; auto.
  destruct (isspace c) eqn:E; simpl; auto. now rewrite E.
Qed.

Lemma before_ws_all s :
  forallb (fun c => negb (isspace c)) s = true -> before_ws s = s /\ after_ws s = [].
Proof.
  induction s as [|c s IH]; simpl; auto.
  intros H. apply andb_true_iff in H as [Hc H].
  apply negb_true_iff in Hc. rewrite Hc. destruct (IH H) as [-> ->]. auto.
Qed.

Lemma before_ws_app a b :
  forallb (fun c => negb (isspace c)) a = true ->
  before_ws (a ++ b) = a ++ before_ws b.
Proof.
  induction a as [|c a IH]; simpl; auto.
  intros H. apply andb_true_iff in H as [Hc H].
  apply negb_true_iff in Hc. rewrite Hc. now rewrite IH.
Qed.

(** The tokens are not empty and hold no whitespace. *)
Lemma split_tokens s :
  Forall (fun t => t <> [] /\ forallb (fun c => negb (isspace c)) t = true) (split s).
Proof.
  remember (length s) as n eqn:Hn. revert s Hn.
  induction n as [n IH] using lt_wf_ind. intros s Hn.
  destruct s as [|c s]; [constructor|].
  destruct (isspace c) eqn:Hc.
  - rewrite split_space by exact Hc. apply (IH (length s)); simpl in *; lia.
  - rewrite split_before_after by exact Hc. constructor.
    + split; [discriminate|]. simpl. rewrite Hc. apply before_ws_nonspace.
    + apply (IH (length (after_ws s))); auto.
      subst n. simpl. clear. induction s as [|d s IHs]; simpl; [lia|].
      destruct (isspace d); simpl; lia.
Qed.

End PyStrFacts.
Import PyStrFacts.

(* ===================================================================== *)
(** * Facts about the matcher *)
(* ===================================================================== *)

Module ReFacts.

Lemma defined_cons i j w c : defined i c -> defined i ((j, w) :: c).
Proof.
  intros [x Hx]. unfold defined. simpl.
  destruct (Nat.eqb i j); eauto.
Qed.

Lemma defined_here i w c : defined i ((i, w) :: c).
Proof. exists w. simpl. now rewrite Nat.eqb_refl. Qed.

(** A match consumes a prefix of the subject. *)
Lemma den_consumes r : forall pos s pos' s',
  den r pos s pos' s' -> exists w, s = w ++ s' /\ pos' = pos + length w.
Proof.
  induction r; simpl; intros pos s pos' s' H.
  - destruct H as [-> ->]. exists []. split; [reflexivity | simpl; lia].
  - destruct H as (ch & -> & _ & ->). exists [ch]. split; [reflexivity | simpl; lia].
  - destruct H as (p1 & s1 & H1 & H2).
    apply IHr1 in H1 as (w1 & -> & ->). apply IHr2 in H2 as (w2 & -> & ->).
    exists (w1 ++ w2). rewrite <- app_assoc, length_app. split; [reflexivity | lia].
  - destruct H as [H | H]; eauto.
  - destruct H as (w & -> & _ & ->). eauto.
  - destruct H as [H | [-> ->]]; eauto.
    exists []. split; [reflexivity | simpl; lia].
  - eauto.
  - destruct H as (_ & -> & ->). exists []. split; [reflexivity | simpl; lia].
  - destruct H as (_ & -> & ->). exists []. split; [reflexivity | simpl; lia].
Qed.

(** Soundness of the matcher: a result comes from a match of the pattern
    followed by a success of the continuation, on captures that define
    every group defined before and every group of [must r]. *)
Lemma star_sound p : forall s pos c k res,
  star p pos s c k = Some res ->
  exists w s', s = w ++ s' /\ forallb p w = true /\
               k (pos + length w) s' c = Some res.
Proof.
  induction s as [|ch s IH]; simpl; intros pos c k res H.
  - exists [], []. simpl. rewrite Nat.add_0_r. auto.
  - destruct (p ch) eqn:Hp.
    + destruct (star p (S pos) s c k) eqn:Hs.
      * inversion H; subst. apply IH in Hs as (w & s' & -> & Hw & Hk).
        exists (ch :: w), s'. simpl. rewrite Hp, Hw.
        replace (pos + S (length w)) with (S pos + length w) by lia. auto.
      * exists [], (ch :: s). simpl. rewrite Nat.add_0_r. auto.
    + exists [], (ch :: s). simpl. rewrite Nat.add_0_r. auto.
Qed.

Lemma rmatch_sound r : forall pos s c k res,
  rmatch r pos s c k = Some res ->
  exists pos' s' c',
    den r pos s pos' s' /\ k pos' s' c' = Some res /\
    (forall i, defined i c -> defined i c') /\
    (forall i, In i (must r) -> defined i c').
Proof.
  induction r; simpl; intros pos s c k res H.
  - exists pos, s, c. intuition.
  - destruct s as [|ch s]; [discriminate|].
    destruct (p ch) eqn:Hp; [|discriminate].
    exists (S pos), s, c. intuition eauto.
  - apply IHr1 in H as (p1 & s1 & c1 & H1 & H & Hd1 & Hm1).
    apply IHr2 in H as (p2 & s2 & c2 & H2 & H & Hd2 & Hm2).
    exists p2, s2, c2. repeat split; eauto.
    intros i Hi. apply in_app_or in Hi as [Hi | Hi]; auto.
  - destruct (rmatch r1 pos s c k) eqn:E1.
    + inversion H; subst. apply IHr1 in E1 as (p1 & s1 & c1 & H1 & Hk & Hd & _).
      exists p1, s1, c1. intuition.
    + apply IHr2 in H as (p1 & s1 & c1 & H1 & Hk & Hd & _).
      exists p1, s1, c1. intuition.
  - apply star_sound in H as (w & s' & -> & Hw & Hk).
    exists (pos + length w), s', c. intuition eauto.
  - destruct (rmatch r pos s c k) eqn:E1.
    + inversion H; subst. apply IHr in E1 as (p1 & s1 & c1 & H1 & Hk & Hd & _).
      exists p1, s1, c1. intuition.
    + exists pos, s, c. intuition.
  - apply IHr in H as (p1 & s1 & c1 & H1 & Hk & Hd & Hm).
    exists p1, s1, ((i, firstn (p1 - pos) s) :: c1). repeat split; auto.
    + intros j Hj. apply defined_cons. auto.
    + intros j [<- | Hj]; [apply defined_here | apply defined_cons; auto].
  - destruct (Nat.eqb pos 0) eqn:E; [|discriminate].
    apply Nat.eqb_eq in E. exists pos, s, c. intuition.
  - destruct s as [|nl [|x s]]; try discriminate.
    + exists pos, [], c. intuition.
    + destruct (N.eqb_spec nl 10); [subst|discriminate].
      exists pos, [10%N], c. intuition.
Qed.

(** Completeness: where the pattern matches and the continuation succeeds
    on that match whatever the captures, the matcher finds a result. *)
Lemma star_complete p : forall w s' pos c k,
  forallb p w = true ->
  (forall c', k (pos + length w) s' c' <> None) ->
  star p pos (w ++ s') c k <> None.
Proof.
  induction w as [|ch w IH]; simpl; intros s' pos c k Hw Hk.
  - rewrite Nat.add_0_r in Hk. destruct s' as [|x s']; simpl; auto.
    destruct (p x); auto.
    destruct (star p (S pos) s' c k); [discriminate | auto].
  - apply andb_true_iff in Hw as [Hp Hw]. rewrite Hp.
    specialize (IH s' (S pos) c k Hw).
    destruct (star p (S pos) (w ++ s') c k); [discriminate|].
    exfalso. apply IH; auto.
    intros c'. replace (S pos + length w) with (pos + S (length w)) by lia. auto.
Qed.

Lemma rmatch_complete r : forall pos s pos' s' k,
  den r pos s pos' s' ->
  (forall c', k pos' s' c' <> None) ->
  forall c, rmatch r pos s c k <> None.
Proof.
  induction r; simpl; intros pos s pos' s' k H Hk c.
  - destruct H as [-> ->]. auto.
  - destruct H as (ch & -> & Hp & ->). rewrite Hp. auto.
  - destruct H as (p1 & s1 & H1 & H2).
    eapply IHr1; [exact H1|]. intros c'. eapply IHr2; eauto.
  - destruct (rmatch r1 pos s c k) eqn:E1; [discriminate|].
    destruct H as [H | H].
    + exfalso. eapply IHr1; eauto.
    + eapply IHr2; eauto.
  - destruct H as (w & -> & Hw & ->). apply star_complete; auto.
  - destruct (rmatch r pos s c k) eqn:E1; [discriminate|].
    destruct H as [H | [-> ->]]; auto.
    exfalso. eapply IHr; eauto.
  - eapply IHr; [exact H|]. intros c'. apply Hk.
  - destruct H as (-> & -> & ->). simpl. auto.
  - destruct H as (Hs & -> & ->). destruct Hs as [-> | ->]; simpl; auto.
Qed.

(** [re.search]: a result is a match at some position of the subject, and
    group 0 is the text matched. *)
Lemma search_from_sound r : forall s pos m,
  search_from r pos s = Some m ->
  exists pre w s',
    s = pre ++ w ++ s' /\
    den r (pos + length pre) (w ++ s') (pos + length pre + length w) s' /\
    group 0 m = Some w /\
    (forall i, In i (must r) -> defined i m).
Proof.
  induction s as [|ch s IH]; intros pos m H; simpl in H.
  - destruct (rmatch r pos [] [] _) eqn:E; [|discriminate].
    inversion H; subst. apply rmatch_sound in E as (p1 & s1 & c1 & Hd & Hk & _ & Hm).
    inversion Hk; subst. pose proof (den_consumes _ _ _ _ _ Hd) as (w & Hw & ->).
    exists [], w, s1. simpl. rewrite Nat.add_0_r. repeat split; auto.
    + rewrite <- Hw. auto.
    + replace (pos + length w - pos) with (length w) by lia.
      rewrite Hw, firstn_app, Nat.sub_diag, firstn_all. simpl. now rewrite app_nil_r.
    + intros i Hi. apply defined_cons. auto.
  - destruct (rmatch r pos (ch :: s) [] _) eqn:E.
    + inversion H; subst. apply rmatch_sound in E as (p1 & s1 & c1 & Hd & Hk & _ & Hm).
      inversion Hk; subst. pose proof (den_consumes _ _ _ _ _ Hd) as (w & Hw & ->).
      exists [], w, s1. simpl. rewrite Nat.add_0_r. repeat split; auto.
      * rewrite <- Hw. auto.
      * replace (pos + length w - pos) with (length w) by lia.
        rewrite Hw, firstn_app, Nat.sub_diag, firstn_all. simpl. now rewrite app_nil_r.
      * intros i Hi. apply defined_cons. auto.
    + apply IH in H as (pre & w & s' & -> & Hd & Hg & Hm).
      exists (ch :: pre), w, s'. simpl.
      replace (pos + S (length pre)) with (S pos + length pre) by lia. auto.
Qed.

Lemma search_complete_at_start r s pos' s' :
  den r 0 s pos' s' -> search r s <> None.
Proof.
  intros H. unfold search.
  assert (E : rmatch (Grp 0 r) 0 s [] accept <> None).
  { simpl. eapply rmatch_complete; eauto. intros c'. discriminate. }
  destruct s; simpl in *; destruct (rmatch r 0 _ [] _); congruence.
Qed.

End ReFacts.
Import ReFacts.

(* ===================================================================== *)
(** * Facts about the group patterns *)
(* ===================================================================== *)

Module MarkerFacts.

Ltac break :=
  repeat match goal with
         | H : exists _, _ |- _ => destruct H
         | H : _ /\ _ |- _ => destruct H
         end.

Lemma lit_true a c : lit a c = true -> c = a.
Proof. unfold lit. apply N.eqb_eq. Qed.

Lemma den_code_inv pos s pos' s' :
  den code_re pos s pos' s' ->
  exists code, is_g_code code /\ s = code ++ s' /\ pos' = pos + 4.
Proof.
  unfold code_re. cbn [den]. intros H. break. subst.
  match goal with H : lit _ _ = true |- _ => apply lit_true in H; subst end.
  match goal with
  | |- exists code, _ /\ (_ :: ?a :: ?b :: ?c :: _) = _ /\ _ =>
      exists [71%N; a; b; c]; split; [exists a, b, c; auto|]
  end.
  split; [reflexivity | lia].
Qed.

Lemma den_code_intro pos code s' :
  is_g_code code -> den code_re pos (code ++ s') (pos + 4) s'.
Proof.
  intros (d1 & d2 & d3 & -> & H1 & H2 & H3).
  unfold code_re. cbn [den app].
  exists (S pos), (d1 :: d2 :: d3 :: s'). split.
  { exists 71%N. repeat split. }
  exists (S (S pos)), (d2 :: d3 :: s'). split.
  { exists d1. repeat split; auto. }
  exists (S (S (S pos))), (d3 :: s'). split.
  { exists d2. repeat split; auto. }
  exists d3. repeat split; auto. lia.
Qed.

Lemma den_suffix_inv pos s pos' s' :
  den (Opt suffix_re) pos s pos' s' ->
  exists sfx, (sfx = [] \/ is_suffix sfx) /\ s = sfx ++ s' /\ pos' = pos + length sfx.
Proof.
  unfold suffix_re, Plus. cbn [den]. intros [H | [-> ->]].
  - break. subst.
    match goal with H : lit _ _ = true |- _ => apply lit_true in H; subst end.
    match goal with
    | Hc : suffix_char ?c = true, Hw : forallb suffix_char ?w = true |- _ =>
        exists (95%N :: c :: w); split; [right; exists (c :: w) |]
    end.
    + repeat split; [discriminate|]. simpl.
      apply andb_true_iff. split; assumption.
    + split; [reflexivity | simpl; lia].
  - exists []. split; [now left|]. split; [reflexivity | simpl; lia].
Qed.

Lemma den_suffix_intro pos sfx s' :
  sfx = [] \/ is_suffix sfx ->
  den (Opt suffix_re) pos (sfx ++ s') (pos + length sfx) s'.
Proof.
  unfold suffix_re, Plus. cbn [den]. intros [-> | (t & -> & Ht & Hall)].
  - right. simpl. split; [lia | reflexivity].
  - left. destruct t as [|c t]; [contradiction|].
    simpl in Hall. apply andb_true_iff in Hall as [Hc Hall].
    exists (S pos), (c :: t ++ s'). split.
    { exists 95%N. repeat split. }
    exists (S (S pos)), (t ++ s'). split.
    { exists c. repeat split; auto. }
    exists t. repeat split; auto. simpl. lia.
Qed.

Lemma den_tail_inv pos s pos' s' :
  den tail_re pos s pos' s' ->
  exists w1 w2 text,
    s = w1 ++ [58%N] ++ w2 ++ text ++ s' /\
    forallb isspace w1 = true /\ forallb isspace w2 = true /\ is_text text /\
    (s' = [] \/ s' = [10%N]).
Proof.
  unfold tail_re, Plus. cbn [den]. intros H. break. subst.
  match goal with H : lit _ _ = true |- _ => apply lit_true in H; subst end.
  match goal with
  | H1 : forallb isspace ?w1 = true, H2 : forallb isspace ?w2 = true,
    Hc : dot ?c = true, Ht : forallb dot ?t = true |- _ =>
      exists w1, w2, (c :: t)
  end.
  repeat split; auto.
  - discriminate.
  - simpl. apply andb_true_iff. split; assumption.
Qed.

Lemma den_tail_intro pos w1 w2 text :
  forallb isspace w1 = true -> forallb isspace w2 = true -> is_text text ->
  exists pos', den tail_re pos (w1 ++ [58%N] ++ w2 ++ text) pos' [].
Proof.
  intros H1 H2 [Hne Ht]. destruct text as [|c t]; [contradiction|].
  simpl in Ht. apply andb_true_iff in Ht as [Hc Ht].
  unfold tail_re, Plus. cbn [den].
  eexists. exists (pos + length w1), ([58%N] ++ w2 ++ c :: t). split.
  { exists w1. repeat split; auto. }
  eexists _, (w2 ++ c :: t). split.
  { exists 58%N. repeat split. }
  eexists _, (c :: t). split.
  { exists w2. repeat split; auto. }
  eexists _, []. split.
  - eexists _, t. split.
    + exists c. repeat split; auto.
    + exists t. rewrite app_nil_r. repeat split; auto.
  - repeat split; auto.
Qed.

(** What the two group patterns match: the same strings. *)
Lemma den_group_pat_inv keep pos t pos' s' :
  den (group_pat keep) pos t pos' s' ->
  pos = 0 /\
  exists code sfx w1 w2 text,
    t = code ++ sfx ++ w1 ++ [58%N] ++ w2 ++ text ++ s' /\
    is_g_code code /\ (sfx = [] \/ is_suffix sfx) /\
    forallb isspace w1 = true /\ forallb isspace w2 = true /\ is_text text /\
    (s' = [] \/ s' = [10%N]).
Proof.
  assert (K : forall p1 s1 p2 s2 p3,
             den code_re 0 t p1 s1 -> den (Opt suffix_re) p1 s1 p2 s2 ->
             den tail_re p2 s2 p3 s' ->
             exists code sfx w1 w2 text,
               t = code ++ sfx ++ w1 ++ [58%N] ++ w2 ++ text ++ s' /\
               is_g_code code /\ (sfx = [] \/ is_suffix sfx) /\
               forallb isspace w1 = true /\ forallb isspace w2 = true /\
               is_text text /\ (s' = [] \/ s' = [10%N])).
  { intros p1 s1 p2 s2 p3 Hc Hs Ht.
    apply den_code_inv in Hc as (code & Hc & -> & _).
    apply den_suffix_inv in Hs as (sfx & Hs & -> & _).
    apply den_tail_inv in Ht as (w1 & w2 & text & -> & H1 & H2 & Htx & Hs').
    exists code, sfx, w1, w2, text. auto 10. }
  destruct keep; unfold group_pat; cbn [den]; intros H.
  - destruct H as (p0 & s0 & (-> & -> & ->) & p2 & s2 & (p1 & s1 & Hc & Hs) & Ht).
    split; [reflexivity|]. eapply K; eauto.
  - destruct H as (p0 & s0 & (-> & -> & ->) & p1 & s1 & Hc & p2 & s2 & Hs & Ht).
    split; [reflexivity|]. eapply K; eauto.
Qed.

Lemma den_group_pat_intro keep t :
  marker_shape is_g_code t -> exists pos', den (group_pat keep) 0 t pos' [].
Proof.
  intros (code & sfx & w1 & w2 & text & -> & Hc & Hs & H1 & H2 & Ht).
  destruct (@den_tail_intro (4 + length sfx) _ _ _ H1 H2 Ht) as (pos' & Htail).
  exists pos'. destruct keep; unfold group_pat; cbn [den].
  - exists 0, (code ++ sfx ++ w1 ++ [58%N] ++ w2 ++ text). split; [auto|].
    exists (4 + length sfx), (w1 ++ [58%N] ++ w2 ++ text). split; [|exact Htail].
    exists 4, (sfx ++ w1 ++ [58%N] ++ w2 ++ text). split.
    + apply (@den_code_intro 0). exact Hc.
    + apply (@den_suffix_intro 4). exact Hs.
  - exists 0, (code ++ sfx ++ w1 ++ [58%N] ++ w2 ++ text). split; [auto|].
    exists 4, (sfx ++ w1 ++ [58%N] ++ w2 ++ text). split.
    + apply (@den_code_intro 0). exact Hc.
    + exists (4 + length sfx), (w1 ++ [58%N] ++ w2 ++ text). split; [|exact Htail].
      apply (@den_suffix_intro 4). exact Hs.
Qed.

Lemma must_group_pat keep : In 1 (must (group_pat keep)) /\ In 2 (must (group_pat keep)).
Proof. destruct keep; simpl; auto 10. Qed.

(** A match of a group pattern defines the groups 1 and 2. *)
Lemma search_group_pat_groups keep t m :
  search (group_pat keep) t = Some m ->
  exists code ty, group 1 m = Some code /\ group 2 m = Some ty.
Proof.
  intros H. apply search_from_sound in H as (pre & w & s' & _ & _ & _ & Hm).
  destruct (must_group_pat keep) as [M1 M2].
  destruct (Hm 1 M1) as [code Hc]. destruct (Hm 2 M2) as [ty Hty]. eauto.
Qed.

Lemma is_marker_search keep t :
  is_marker keep t = true <-> exists m, search (group_pat keep) t = Some m.
Proof.
  unfold is_marker, extract1. split.
  - destruct (search (group_pat keep) t); eauto. discriminate.
  - intros [m H]. rewrite H.
    destruct (search_group_pat_groups _ _ H) as (code & ty & -> & _). reflexivity.
Qed.

(** A text that does not end with whitespace is a marker exactly when it has
    the shape of a marker with the letter G. *)
Lemma is_marker_iff keep t :
  (forall w c, t = w ++ [c] -> isspace c = false) ->
  is_marker keep t = true <-> marker_shape is_g_code t.
Proof.
  intros Hend. rewrite is_marker_search. split.
  - intros [m H].
    apply search_from_sound in H as (pre & w & s' & Ht & Hd & _ & _).
    apply den_group_pat_inv in Hd as (Hpos & code & sfx & w1 & w2 & text & Hw & Hrest).
    destruct pre; [|simpl in Hpos; discriminate]. simpl in Ht.
    destruct Hrest as (Hc & Hs & H1 & H2 & Htx & Hs').
    destruct Hs' as [-> | ->].
    + rewrite !app_nil_r in Hw. rewrite app_nil_r in Ht. subst.
      exists code, sfx, w1, w2, text. auto 10.
    + exfalso. subst t. rewrite Hw in Hend.
      specialize (Hend (code ++ sfx ++ w1 ++ [58%N] ++ w2 ++ text) 10%N).
      rewrite <- !app_assoc in Hend. specialize (Hend eq_refl). discriminate.
  - intros Hshape. destruct (den_group_pat_intro keep Hshape) as (pos' & Hd).
    apply search_complete_at_start in Hd.
    destruct (search (group_pat keep) t); eauto. contradiction.
Qed.

End MarkerFacts.
Import MarkerFacts.

(* ===================================================================== *)
(** * Facts about frames *)
(* ===================================================================== *)

Module FrameFacts.

Lemma getitem_labelled name df col :
  getitem name df = Ok col <-> labelled name df = [col].
Proof.
  unfold getitem, labelled.
  destruct (filter _ (cols df)) as [|nc [|nc' l]]; simpl; split; intros H;
    try discriminate; inversion H; reflexivity.
Qed.

Lemma is_label_eq name l : is_label name l = true <-> l = Some name.
Proof.
  destruct l as [s|]; simpl.
  - rewrite pystr_eqb_eq. split; [intros ->; reflexivity | congruence].
  - split; discriminate.
Qed.

Lemma is_label_other name name' l :
  name <> name' -> is_label name' l = true -> is_label name l = false.
Proof.
  intros Hne H. apply is_label_eq in H. subst l. simpl. now apply pystr_eqb_neq.
Qed.

Lemma has_column_labelled name df :
  has_column name df = true <-> labelled name df <> [].
Proof.
  unfold has_column, labelled, columns.
  induction (cols df) as [|nc l IH]; simpl.
  - split; [discriminate | congruence].
  - destruct (is_label name (fst nc)); simpl.
    + split; [discriminate | reflexivity].
    + exact IH.
Qed.

Lemma getitem_has_column name df col :
  getitem name df = Ok col -> has_column name df = true.
Proof.
  intros H. apply has_column_labelled. apply getitem_labelled in H.
  rewrite H. discriminate.
Qed.

Lemma col_is_getitem name df col : getitem name df = Ok col -> col_is name col df.
Proof.
  intros H. apply getitem_labelled in H. unfold col_is. rewrite H.
  split; [discriminate | repeat constructor].
Qed.

Lemma labelled_set_same name vals df :
  labelled name (set_column name vals df)
  = if has_column name df then map (fun _ => vals) (labelled name df) else [vals].
Proof.
  unfold set_column, labelled. cbn [cols].
  destruct (has_column name df) eqn:E.
  - clear E. induction (cols df) as [|nc l IH]; simpl; auto.
    destruct (is_label name (fst nc)) eqn:En; simpl; rewrite En; simpl; congruence.
  - rewrite filter_app, map_app. simpl. rewrite pystr_eqb_refl. simpl.
    replace (filter _ (cols df)) with (@nil (label * list cell)); [reflexivity|].
    symmetry. destruct (filter _ (cols df)) eqn:F; auto.
    assert (has_column name df = true).
    { apply has_column_labelled. unfold labelled. rewrite F. discriminate. }
    congruence.
Qed.

Lemma labelled_set_other name name' vals df :
  name <> name' ->
  labelled name (set_column name' vals df) = labelled name df.
Proof.
  intros Hne. unfold set_column, labelled. cbn [cols].
  assert (Hf : pystr_eqb name name' = false) by now apply pystr_eqb_neq.
  destruct (has_column name' df).
  - induction (cols df) as [|nc l IH]; simpl; auto.
    destruct (is_label name' (fst nc)) eqn:En; simpl.
    + rewrite (@is_label_other name name' _ Hne En). exact IH.
    + destruct (is_label name (fst nc)); simpl; congruence.
  - rewrite filter_app, map_app. simpl. rewrite Hf. simpl. apply app_nil_r.
Qed.

Lemma col_is_set name vals df : col_is name vals (set_column name vals df).
Proof.
  unfold col_is. rewrite labelled_set_same.
  destruct (has_column name df) eqn:E.
  - apply has_column_labelled in E. split.
    + destruct (labelled name df); [contradiction | discriminate].
    + apply Forall_forall. intros x Hx. apply in_map_iff in Hx as (? & <- & _). reflexivity.
  - split; [discriminate | repeat constructor].
Qed.

Lemma col_is_set_other name name' vals vals' df :
  name <> name' -> col_is name vals df -> col_is name vals (set_column name' vals' df).
Proof. intros Hne H. unfold col_is. now rewrite labelled_set_other. Qed.

Lemma getitem_set_same name vals df col :
  getitem name df = Ok col -> getitem name (set_column name vals df) = Ok vals.
Proof.
  intros H. apply getitem_labelled. rewrite labelled_set_same.
  rewrite (getitem_has_column _ _ H). apply getitem_labelled in H. now rewrite H.
Qed.

Lemma getitem_alt name df :
  getitem name df =
  match labelled name df with
  | [] => Raise (KeyError name)
  | [c] => Ok c
  | _ => Raise AttributeError
  end.
Proof.
  unfold getitem, labelled.
  destruct (filter _ (cols df)) as [|a [|b l]]; reflexivity.
Qed.

Lemma getitem_set_other name name' vals df :
  name <> name' -> getitem name (set_column name' vals df) = getitem name df.
Proof.
  intros Hne. rewrite !getitem_alt. now rewrite labelled_set_other.
Qed.

Lemma labelled_select mask df name :
  labelled name (select_rows mask df) = map (select mask) (labelled name df).
Proof.
  unfold labelled, select_rows. cbn [cols].
  induction (cols df) as [|nc l IH]; simpl; auto.
  destruct (is_label name (fst nc)); simpl; congruence.
Qed.

Lemma labelled_drop_other name name' df :
  name <> name' ->
  labelled name (remove_columns name' df) = labelled name df.
Proof.
  intros Hne. unfold labelled, remove_columns. cbn [cols].
  induction (cols df) as [|nc l IH]; simpl; auto.
  destruct (is_label name' (fst nc)) eqn:E; simpl.
  - rewrite (@is_label_other name name' _ Hne E). exact IH.
  - destruct (is_label name (fst nc)); simpl; congruence.
Qed.

Lemma filter_label_twice name d (l : list (label * list cell)) :
  filter (fun nc => is_label name (fst nc)) (filter (fun nc => is_label d (fst nc)) l)
  = if pystr_eqb name d then filter (fun nc => is_label name (fst nc)) l else [].
Proof.
  induction l as [|nc l IH]; simpl.
  - now destruct (pystr_eqb name d).
  - destruct (is_label d (fst nc)) eqn:Ed; simpl.
    + rewrite IH. destruct (pystr_eqb name d) eqn:En.
      * reflexivity.
      * replace (is_label name (fst nc)) with false; [reflexivity|].
        symmetry. apply is_label_eq in Ed. rewrite Ed. exact En.
    + rewrite IH. destruct (pystr_eqb name d) eqn:En; auto.
      apply pystr_eqb_eq in En. subst d. now rewrite Ed.
Qed.

(** The choice of columns keeps, for a label that is chosen once, the
    columns that carry it. *)
Lemma labelled_project name ds df :
  labelled name (project ds df)
  = flat_map (fun d => if pystr_eqb name d then labelled name df else []) ds.
Proof.
  unfold project, labelled. cbn [cols].
  induction ds as [|d ds IH]; simpl; auto.
  destruct (has_column d df) eqn:E; simpl.
  - rewrite filter_app, map_app, IH, filter_label_twice.
    destruct (pystr_eqb name d); reflexivity.
  - rewrite IH. destruct (pystr_eqb name d) eqn:En; auto.
    apply pystr_eqb_eq in En. subst d.
    destruct (filter _ (cols df)) eqn:F; auto.
    assert (has_column name df = true).
    { apply has_column_labelled. unfold labelled. rewrite F. discriminate. }
    congruence.
Qed.

Ltac names_neq := let H := fresh in intro H; vm_compute in H; discriminate.

Lemma labelled_project_desired name df :
  In name [Year; Budget_Code; Budget_Type; Expense_Code; Expense_Detail] ->
  labelled name (project desired df) = labelled name df.
Proof.
  intros H. rewrite labelled_project.
  simpl in H. repeat (destruct H as [<- | H]; [vm_compute flat_map; apply app_nil_r|]).
  contradiction.
Qed.

End FrameFacts.
Import FrameFacts.

(* ===================================================================== *)
(** * The Row Classifier and the Field Splitter, column by column *)
(* ===================================================================== *)

Module PipelineFacts.

Ltac unfold_cols :=
  unfold col_mask, col_account, col_code, col_type, col_is_group, col_m, col_s,
    extract, notna in *;
  cbn [map fst snd where_ ffill_from select negb isna cell_of_opt fold_rows
       length filter count_true] in *.

Lemma fold_rows_na keep ctx v col :
  normalize v = None -> fold_rows keep ctx (v :: col) = fold_rows keep ctx col.
Proof. intros H. simpl. now rewrite H. Qed.

Lemma fold_rows_data keep ctx v t col :
  normalize v = Some t -> fst (extract1 (group_pat keep) (Some t)) = None ->
  fold_rows keep ctx (v :: col) = data_row ctx t :: fold_rows keep ctx col.
Proof.
  intros H F. simpl. rewrite H. unfold extract1 in F.
  destruct (search (group_pat keep) t); [|reflexivity].
  simpl in F. now rewrite F.
Qed.

Lemma fold_rows_marker keep ctx v t code col :
  normalize v = Some t -> fst (extract1 (group_pat keep) (Some t)) = Some code ->
  fold_rows keep ctx (v :: col)
  = fold_rows keep
      (Some code,
       match snd (extract1 (group_pat keep) (Some t)) with
       | Some ty => Some ty
       | None => snd ctx
       end) col.
Proof.
  intros H F. simpl. rewrite H. unfold extract1 in *.
  destruct (search (group_pat keep) t); [|discriminate].
  simpl in *. now rewrite F.
Qed.

Lemma mask_count keep : forall col ctx,
  count_true (col_mask keep col) = length (fold_rows keep ctx col).
Proof.
  induction col as [|v col IH]; intros ctx; [reflexivity|].
  destruct (row_case_of keep v) as [E | t E F | t code E F].
  - rewrite (@fold_rows_na keep ctx v col E). rewrite <- (IH ctx).
    unfold_cols. rewrite E. reflexivity.
  - rewrite (@fold_rows_data keep ctx v t col E F). simpl. rewrite <- (IH ctx).
    unfold_cols. rewrite E, F. reflexivity.
  - rewrite (@fold_rows_marker keep ctx v t code col E F). rewrite <- IH.
    unfold_cols. rewrite E, F. reflexivity.
Qed.

Lemma code_rows keep : forall col ctx,
  select (col_mask keep col) (map cell_of_opt (col_code keep (fst ctx) col))
  = map (fun r => cell_of_opt (r_budget_code r)) (fold_rows keep ctx col).
Proof.
  induction col as [|v col IH]; intros ctx; [reflexivity|].
  destruct (row_case_of keep v) as [E | t E F | t code E F].
  - rewrite (@fold_rows_na keep ctx v col E). rewrite <- (IH ctx).
    unfold_cols. rewrite E. reflexivity.
  - rewrite (@fold_rows_data keep ctx v t col E F). simpl. rewrite <- (IH ctx).
    unfold_cols. rewrite E, F. reflexivity.
  - rewrite (@fold_rows_marker keep ctx v t code col E F). rewrite <- IH.
    unfold_cols. rewrite E, F. reflexivity.
Qed.

Lemma type_rows keep : forall col ctx,
  select (col_mask keep col) (map cell_of_opt (col_type keep (snd ctx) col))
  = map (fun r => cell_of_opt (r_budget_type r)) (fold_rows keep ctx col).
Proof.
  induction col as [|v col IH]; intros ctx; [reflexivity|].
  destruct (row_case_of keep v) as [E | t E F | t code E F].
  - rewrite (@fold_rows_na keep ctx v col E). rewrite <- (IH ctx).
    unfold_cols. rewrite E. reflexivity.
  - rewrite (@fold_rows_data keep ctx v t col E F). simpl. rewrite <- (IH ctx).
    unfold_cols. rewrite E, F. reflexivity.
  - rewrite (@fold_rows_marker keep ctx v t code col E F). rewrite <- IH.
    unfold_cols. rewrite E, F.
    destruct (snd (extract1 (group_pat keep) (Some t))); reflexivity.
Qed.

Lemma expense_rows keep : forall col ctx,
  map (fun v => cell_of_opt (expense_code (ba_of v)))
      (select (col_mask keep col) (col_account keep col))
  = map (fun r => cell_of_opt (r_expense_code r)) (fold_rows keep ctx col).
Proof.
  induction col as [|v col IH]; intros ctx; [reflexivity|].
  destruct (row_case_of keep v) as [E | t E F | t code E F].
  - rewrite (@fold_rows_na keep ctx v col E). rewrite <- (IH ctx).
    unfold_cols. rewrite E. reflexivity.
  - rewrite (@fold_rows_data keep ctx v t col E F). simpl. rewrite <- (IH ctx).
    unfold_cols. rewrite E, F. reflexivity.
  - rewrite (@fold_rows_marker keep ctx v t code col E F). rewrite <- IH.
    unfold_cols. rewrite E, F. reflexivity.
Qed.

Lemma detail_rows keep : forall col ctx,
  map (fun v => cell_of_opt (expense_detail (ba_of v)))
      (select (col_mask keep col) (col_account keep col))
  = map (fun r => cell_of_opt (r_expense_detail r)) (fold_rows keep ctx col).
Proof.
  induction col as [|v col IH]; intros ctx; [reflexivity|].
  destruct (row_case_of keep v) as [E | t E F | t code E F].
  - rewrite (@fold_rows_na keep ctx v col E). rewrite <- (IH ctx).
    unfold_cols. rewrite E. reflexivity.
  - rewrite (@fold_rows_data keep ctx v t col E F). simpl. rewrite <- (IH ctx).
    unfold_cols. rewrite E, F. reflexivity.
  - rewrite (@fold_rows_marker keep ctx v t code col E F). rewrite <- IH.
    unfold_cols. rewrite E, F. reflexivity.
Qed.

Lemma col_is_group_rows keep col :
  col_is_group keep col = map (row_is_group keep) col.
Proof.
  unfold col_is_group, col_m, col_s, extract, notna. cbn [fst].
  rewrite !map_map. apply map_ext. intros v.
  unfold row_is_group, is_marker. destruct (normalize v); reflexivity.
Qed.

Lemma row_is_group_false keep v t :
  normalize v = Some t -> row_is_group keep v = false ->
  fst (extract1 (group_pat keep) (Some t)) = None.
Proof.
  unfold row_is_group, is_marker. intros ->.
  destruct (fst (extract1 (group_pat keep) (Some t))); [discriminate | reflexivity].
Qed.

(** The rows before the first marker: each one that is not missing is
    emitted with the context unchanged. *)
Lemma fold_rows_no_marker keep ctx : forall pre post,
  forallb (fun v => negb (row_is_group keep v)) pre = true ->
  fold_rows keep ctx (pre ++ post)
  = map (data_row ctx) (data_texts pre) ++ fold_rows keep ctx post.
Proof.
  induction pre as [|v pre IH]; intros post H; [reflexivity|].
  cbn [forallb] in H. apply andb_true_iff in H as [Hv H].
  apply negb_true_iff in Hv.
  cbn [app]. unfold data_texts. cbn [flat_map].
  destruct (normalize v) as [t|] eqn:E.
  - rewrite (@fold_rows_data keep ctx v t (pre ++ post) E
               (@row_is_group_false keep v t E Hv)).
    rewrite IH by exact H. reflexivity.
  - rewrite (@fold_rows_na keep ctx v (pre ++ post) E). apply IH. exact H.
Qed.

(** The Expense_Code of every row of the fold is a token or is missing. *)
Lemma expense_code_token x :
  token_or_na (cell_of_opt (expense_code x)).
Proof.
  destruct x as [t|]; [|now left]. simpl.
  pose proof (split_tokens t) as H.
  destruct (split t) as [|tok l]; [now left|].
  inversion H as [|? ? [Hne Hns] _]; subst. right. exists tok. auto.
Qed.

Lemma fold_rows_tokens keep : forall col ctx,
  Forall (fun r => token_or_na (cell_of_opt (r_expense_code r)))
         (fold_rows keep ctx col).
Proof.
  induction col as [|v col IH]; intros ctx; [constructor|].
  destruct (row_case_of keep v) as [E | t E F | t code E F].
  - rewrite (@fold_rows_na keep ctx v col E). apply IH.
  - rewrite (@fold_rows_data keep ctx v t col E F). constructor; [|apply IH].
    apply expense_code_token.
  - rewrite (@fold_rows_marker keep ctx v t code col E F). apply IH.
Qed.

Lemma BA_BC : Budget_Account <> Budget_Code. Proof. names_neq. Qed.
Lemma BA_BT : Budget_Account <> Budget_Type. Proof. names_neq. Qed.
Lemma BA_EC : Budget_Account <> Expense_Code. Proof. names_neq. Qed.
Lemma BA_ED : Budget_Account <> Expense_Detail. Proof. names_neq. Qed.

Lemma classify_and_fill_ok keep df col :
  getitem Budget_Account df = Ok col ->
  classify_and_fill keep df = Ok (classified keep col df).
Proof.
  intros H. unfold classify_and_fill. rewrite H. cbn [bind].
  unfold dropna.
  erewrite getitem_set_same; [reflexivity|].
  rewrite !getitem_set_other by (first [exact BA_BT | exact BA_BC]).
  exact H.
Qed.

Lemma split_fields_ok df col :
  getitem Budget_Account df = Ok col ->
  split_fields df = Ok (splitted df col).
Proof.
  intros H. unfold split_fields. rewrite H. cbn [bind].
  unfold drop_column.
  replace (has_column Budget_Account _) with true; [reflexivity|].
  symmetry. eapply getitem_has_column.
  rewrite !getitem_set_other by (first [exact BA_ED | exact BA_EC]).
  exact H.
Qed.

Lemma getitem_classified keep df col :
  getitem Budget_Account df = Ok col ->
  getitem Budget_Account (classified keep col df)
  = Ok (select (col_mask keep col) (col_account keep col)).
Proof.
  intros H. apply getitem_labelled. unfold classified.
  rewrite labelled_select, labelled_set_same.
  replace (has_column Budget_Account _) with true.
  - rewrite !labelled_set_other by (first [exact BA_BT | exact BA_BC]).
    apply getitem_labelled in H. rewrite H. reflexivity.
  - symmetry. eapply getitem_has_column.
    rewrite !getitem_set_other by (first [exact BA_BT | exact BA_BC]). exact H.
Qed.

Lemma col_is_map_select name vals mask df :
  col_is name vals df -> col_is name (select mask vals) (select_rows mask df).
Proof.
  unfold col_is. rewrite labelled_select. intros [Hne Hall]. split.
  - destruct (labelled name df); [contradiction | discriminate].
  - apply Forall_forall. intros x Hx. apply in_map_iff in Hx as (y & <- & Hy).
    rewrite Forall_forall in Hall. now rewrite (Hall y Hy).
Qed.

Lemma pipeline_table keep df col :
  getitem Budget_Account df = Ok col ->
  exists out,
    bind (classify_and_fill keep df) split_fields = Ok out /\
    table_of keep col out /\
    labelled Year out = map (select (col_mask keep col)) (labelled Year df).
Proof.
  intros H. rewrite (@classify_and_fill_ok keep df col H). cbn [bind].
  rewrite (@split_fields_ok _ _ (@getitem_classified keep df col H)).
  eexists. split; [reflexivity|].
  set (cl := classified keep col df).
  set (acc := select (col_mask keep col) (col_account keep col)).
  assert (Hproj : forall name vals,
            In name [Year; Budget_Code; Budget_Type; Expense_Code; Expense_Detail] ->
            name <> Budget_Account ->
            col_is name vals
              (set_column Expense_Detail
                 (map (fun x => cell_of_opt (expense_detail x)) (map ba_of acc))
                 (set_column Expense_Code
                    (map (fun x => cell_of_opt (expense_code x)) (map ba_of acc)) cl)) ->
            col_is name vals (splitted cl acc)).
  { intros name vals Hin Hne Hc. unfold col_is, splitted in *.
    rewrite labelled_project_desired by exact Hin.
    rewrite labelled_drop_other by exact Hne. exact Hc. }
  split; [constructor|].
  - unfold splitted, project, remove_columns, set_column, cl, classified, select_rows.
    cbn [nrows]. apply mask_count.
  - apply Hproj; [simpl; auto | names_neq |].
    apply col_is_set_other; [names_neq|]. apply col_is_set_other; [names_neq|].
    unfold cl, classified.
    rewrite <- (code_rows keep col (None, None)).
    apply col_is_map_select.
    apply col_is_set_other; [names_neq|]. apply col_is_set_other; [names_neq|].
    apply col_is_set.
  - apply Hproj; [simpl; auto | names_neq |].
    apply col_is_set_other; [names_neq|]. apply col_is_set_other; [names_neq|].
    unfold cl, classified.
    rewrite <- (type_rows keep col (None, None)).
    apply col_is_map_select.
    apply col_is_set_other; [names_neq|]. apply col_is_set.
  - apply Hproj; [simpl; auto | names_neq |].
    apply col_is_set_other; [names_neq|].
    rewrite <- (expense_rows keep col (None, None)). fold acc.
    rewrite map_map. apply col_is_set.
  - apply Hproj; [simpl; auto 6 | names_neq |].
    rewrite <- (detail_rows keep col (None, None)). fold acc.
    rewrite map_map. apply col_is_set.
  - unfold splitted. rewrite labelled_project_desired by (simpl; auto).
    rewrite labelled_drop_other by names_neq.
    rewrite !labelled_set_other by names_neq.
    unfold cl, classified. rewrite labelled_select.
    rewrite !labelled_set_other by names_neq. reflexivity.
Qed.

(** The whole conversion, once the year and the header are known. *)
Lemma convert_budget_eq raw keep year df :
  extract_year raw = Ok year -> normalize_header raw year = Ok df ->
  convert_budget raw keep =
  if has_column Budget_Account df then
    match getitem Budget_Account df with
    | Ok col =>
        Ok (splitted (classified keep col df)
                     (select (col_mask keep col) (col_account keep col)))
    | Raise e => Raise e
    end
  else Raise (KeyError missing_column_msg).
Proof.
  intros Hy Hh. unfold convert_budget. rewrite Hy. cbn [bind]. rewrite Hh. cbn [bind].
  unfold require_account. destruct (has_column Budget_Account df); [|reflexivity].
  cbn [bind]. destruct (getitem Budget_Account df) as [col|e] eqn:G.
  - rewrite (@classify_and_fill_ok keep df col G). cbn [bind].
    apply split_fields_ok. apply getitem_classified. exact G.
  - unfold classify_and_fill. rewrite G. reflexivity.
Qed.

Lemma convert_budget_inv raw keep out :
  convert_budget raw keep = Ok out ->
  exists year df col,
    extract_year raw = Ok year /\ normalize_header raw year = Ok df /\
    getitem Budget_Account df = Ok col /\
    table_of keep col out /\
    labelled Year out = map (select (col_mask keep col)) (labelled Year df).
Proof.
  intros H. unfold convert_budget in H.
  destruct (extract_year raw) as [year|] eqn:Hy; [|discriminate]. cbn [bind] in H.
  destruct (normalize_header raw year) as [df|] eqn:Hh; [|discriminate]. cbn [bind] in H.
  unfold require_account in H.
  destruct (has_column Budget_Account df); [|discriminate]. cbn [bind] in H.
  destruct (getitem Budget_Account df) as [col|e] eqn:G.
  - destruct (@pipeline_table keep df col G) as (out' & Ho & Ht & Hyr).
    unfold bind in Ho at 1.
    destruct (classify_and_fill keep df); [|discriminate]. cbn [bind] in H.
    rewrite H in Ho. inversion Ho; subst out'.
    exists year, df, col. auto.
  - unfold classify_and_fill in H. rewrite G in H. discriminate.
Qed.

End PipelineFacts.
Import PipelineFacts.

(* ===================================================================== *)
(** * Facts about the Year Extractor *)
(* ===================================================================== *)

Module YearFacts.

Lemma year_shapeb_shape y : year_shapeb y = true -> year_shape y.
Proof.
  destruct y as [|a [|b [|c [|d [|e y]]]]]; simpl; try discriminate.
  intros H. apply andb_true_iff in H as [H Hd]. apply andb_true_iff in H as [H Hc].
  exists a, b, c, d. repeat split; auto.
  apply orb_true_iff in H as [H | H]; apply andb_true_iff in H as [Ha Hb];
    apply N.eqb_eq in Ha, Hb; auto.
Qed.

Lemma year_shape_shapeb y : year_shape y -> year_shapeb y = true.
Proof.
  intros (a & b & c & d & -> & Hab & Hc & Hd). simpl. rewrite Hc, Hd.
  destruct Hab as [[-> ->] | [-> ->]]; reflexivity.
Qed.

(** The years 1900..2099 print as four characters that match
    [(19|20)\d\d]; 2100 does not. *)
Lemma str_of_int_year y :
  (1900 <= y <= 2099)%Z -> year_shape (str_of_int y).
Proof.
  intros Hy. apply year_shapeb_shape.
  assert (All : forallb (fun n => year_shapeb (str_of_int (1900 + Z.of_nat n)))
                        (seq 0 200) = true) by (vm_compute; reflexivity).
  rewrite forallb_forall in All.
  replace y with (1900 + Z.of_nat (Z.to_nat (y - 1900)))%Z by lia.
  apply All. apply in_seq. lia.
Qed.

Lemma year_2100_not_shape : year_shapeb (str_of_int 2100) = false.
Proof. reflexivity. Qed.

(** A match of the year pattern is a string of the year shape. *)
Lemma den_year_pat pos s pos' s' :
  den year_pat pos s pos' s' -> exists w, s = w ++ s' /\ year_shape w.
Proof.
  unfold year_pat.
  change (u "19") with [49%N; 57%N]. change (u "20") with [50%N; 48%N].
  cbn [den Lit]. intros H.
  destruct H as (p1 & s1 & Hab & p2 & s2 & (c & E1 & Hc & E2) & (d & E3 & Hd & E4)).
  destruct Hab as [Hab | Hab];
    destruct Hab as (p3 & s3 & (a & E5 & Ha & E6) & p4 & s4 & (b & E7 & Hb & E8) & _ & E9);
    apply N.eqb_eq in Ha, Hb; subst;
    [ exists [49%N; 57%N; c; d] | exists [50%N; 48%N; c; d] ];
    (split; [reflexivity|]);
    [ exists 49%N, 57%N, c, d | exists 50%N, 48%N, c, d ]; auto 10.
Qed.

Lemma search_year_shape t m :
  search year_pat t = Some m -> exists w, group 0 m = Some w /\ year_shape w.
Proof.
  intros H. apply search_from_sound in H as (pre & w & s' & _ & Hd & Hg & _).
  apply den_year_pat in Hd as (w' & Hw & Hs).
  apply app_inv_tail in Hw. subst w'. eauto.
Qed.

Lemma search_year_ok t :
  year_ok match search year_pat t with
          | Some m => match group 0 m with Some w => w | None => [] end
          | None => []
          end.
Proof.
  destruct (search year_pat t) as [m|] eqn:E; [|now left].
  destruct (search_year_shape _ E) as (w & -> & Hw). now right.
Qed.

(** What one cell yields. *)
Lemma extract_year_from_value_cases v :
  year_ok (extract_year_from_value v) \/
  exists t, v = CDate 2100 t /\ extract_year_from_value v = u "2100".
Proof.
  unfold extract_year_from_value, year_of_attr.
  destruct (isna v); [left; now left|].
  destruct v; cbn [year_attr]; try (left; apply search_year_ok).
  destruct ((1900 <=? year) && (year <=? 2100))%Z eqn:E; [|left; apply search_year_ok].
  apply andb_true_iff in E as [E1 E2]. apply Z.leb_le in E1, E2.
  destruct (Z.eq_dec year 2100) as [-> | Hne].
  - right. exists text. split; reflexivity.
  - left. right. apply str_of_int_year. lia.
Qed.

Lemma extract_year_from_value_ok v : year_ok_or_2100 (extract_year_from_value v).
Proof.
  destruct (extract_year_from_value_cases v) as [H | (t & _ & ->)].
  - now left.
  - now right.
Qed.

(** What the scan returns is what some cell yields, or the empty string. *)
Lemma scan_cols_from raw r : forall cs y,
  scan_cols raw r cs = Ok (Some y) -> exists v, y = extract_year_from_value v.
Proof.
  induction cs as [|c cs IH]; simpl; intros y H; [discriminate|].
  destruct (iloc raw r c) as [v|]; [|discriminate]. cbn [bind] in H.
  destruct (truthy (extract_year_from_value v)); [|auto].
  inversion H. eauto.
Qed.

Lemma scan_rows_from raw cmax : forall rs y,
  scan_rows raw cmax rs = Ok y -> y = [] \/ exists v, y = extract_year_from_value v.
Proof.
  induction rs as [|r rs IH]; simpl; intros y H.
  - inversion H. now left.
  - destruct (scan_cols raw r (seq 0 cmax)) as [[y'|]|] eqn:E; cbn [bind] in H.
    + inversion H; subst. right. eapply scan_cols_from; eauto.
    + auto.
    + discriminate.
Qed.

Lemma extract_year_from raw y :
  extract_year raw = Ok y -> y = [] \/ exists v, y = extract_year_from_value v.
Proof.
  unfold extract_year.
  destruct (iloc raw 5 0) as [v|].
  - destruct (truthy (extract_year_from_value v)) eqn:E.
    + intros H. inversion H. eauto.
    + apply scan_rows_from.
  - cbn [truthy]. apply scan_rows_from.
Qed.

Lemma extract_year_ok raw y : extract_year raw = Ok y -> year_ok_or_2100 y.
Proof.
  intros H. apply extract_year_from in H as [-> | (v & ->)].
  - left. now left.
  - apply extract_year_from_value_ok.
Qed.

(** On a well-formed sheet, [iloc] reads the cell when there is one. *)
Lemma iloc_cell_at raw r c :
  raw_wf raw ->
  iloc raw r c = match cell_at raw r c with
                 | Some v => Ok v
                 | None => Raise IndexError
                 end.
Proof.
  intros Hwf. unfold iloc, cell_at.
  destruct (nth_error (raw_cols raw) c) as [col|] eqn:E; [|reflexivity].
  assert (Hlen : length col = raw_nrows raw).
  { unfold raw_wf in Hwf. rewrite Forall_forall in Hwf. apply Hwf.
    eapply nth_error_In; eauto. }
  destruct (Nat.ltb_spec r (raw_nrows raw)) as [Hlt | Hge].
  - destruct (nth_error col r); reflexivity.
  - replace (nth_error col r) with (@None cell); [reflexivity|].
    symmetry. apply nth_error_None. lia.
Qed.

Lemma cell_at_in_range raw r c :
  raw_wf raw -> r < raw_nrows raw -> c < length (raw_cols raw) ->
  exists v, cell_at raw r c = Some v.
Proof.
  intros Hwf Hr Hc. unfold cell_at.
  destruct (nth_error (raw_cols raw) c) as [col|] eqn:E.
  - assert (Hlen : length col = raw_nrows raw).
    { unfold raw_wf in Hwf. rewrite Forall_forall in Hwf. apply Hwf.
      eapply nth_error_In; eauto. }
    destruct (nth_error col r) eqn:F; eauto.
    apply nth_error_None in F. lia.
  - apply nth_error_None in E. lia.
Qed.

Lemma scan_cols_find raw r : forall cs,
  raw_wf raw ->
  (forall c, In c cs -> exists v, cell_at raw r c = Some v) ->
  scan_cols raw r cs
  = Ok (option_map extract_year_from_value (find yields_year (cells_of raw r cs))).
Proof.
  intros cs Hwf. induction cs as [|c cs IH]; intros Hin; [reflexivity|].
  simpl. rewrite iloc_cell_at by exact Hwf.
  destruct (Hin c (or_introl eq_refl)) as (v & ->). cbn [bind app find].
  unfold yields_year at 1.
  destruct (truthy (extract_year_from_value v)); [reflexivity|].
  apply IH. intros c' Hc'. apply Hin. now right.
Qed.

Lemma find_app {A} (p : A -> bool) l1 l2 :
  find p (l1 ++ l2) = match find p l1 with
                      | Some x => Some x
                      | None => find p l2
                      end.
Proof.
  induction l1 as [|x l1 IH]; simpl; auto. destruct (p x); auto.
Qed.

Lemma scan_rows_find raw cmax : forall rs,
  raw_wf raw ->
  (forall r c, In r rs -> In c (seq 0 cmax) -> exists v, cell_at raw r c = Some v) ->
  scan_rows raw cmax rs
  = Ok (first_year (flat_map (fun r => cells_of raw r (seq 0 cmax)) rs)).
Proof.
  intros rs Hwf. induction rs as [|r rs IH]; intros Hin; [reflexivity|].
  simpl. rewrite scan_cols_find; auto.
  2:{ intros c Hc. apply Hin; auto. now left. }
  cbn [bind]. unfold first_year. rewrite find_app.
  destruct (find yields_year (cells_of raw r (seq 0 cmax))); [reflexivity|].
  cbn [option_map]. rewrite IH; [reflexivity|].
  intros r' c Hr Hc. apply Hin; auto. now right.
Qed.

(** The program returns what the specification describes. *)
Lemma extract_year_refines raw :
  raw_wf raw -> extract_year raw = Ok (extract_year_spec raw).
Proof.
  intros Hwf. unfold extract_year, extract_year_spec.
  rewrite iloc_cell_at by exact Hwf.
  assert (Hscan : scan_rows raw (Nat.min 6 (snd (shape raw)))
                    (seq 0 (Nat.min 25 (fst (shape raw))))
                  = Ok (first_year (region raw))).
  { rewrite scan_rows_find; [reflexivity | exact Hwf |].
    intros r c Hr Hc. apply in_seq in Hr, Hc. cbn [shape fst snd] in *.
    apply cell_at_in_range; auto; lia. }
  destruct (cell_at raw 5 0) as [v|].
  - unfold yields_year at 1.
    destruct (truthy (extract_year_from_value v)); [reflexivity | exact Hscan].
  - cbn [truthy]. exact Hscan.
Qed.

End YearFacts.
Import YearFacts.

(* ===================================================================== *)
(** * Facts about the Header Normalizer *)
(* ===================================================================== *)

Module HeaderFacts.

Lemma keep_0_8 i : negb (existsb (Nat.eqb i) (seq 0 9)) = (9 <=? i).
Proof. do 9 (destruct i as [|i]; [reflexivity|]). reflexivity. Qed.

Lemma count_from a : forall n,
  count_true (map (fun i => 9 <=? i) (seq a n)) = Nat.max (a + n) 9 - Nat.max a 9.
Proof.
  unfold count_true. induction n as [|n IH] in a |- *; [simpl; lia|].
  cbn [seq map filter].
  destruct (Nat.leb_spec 9 a); cbn [length]; rewrite IH; lia.
Qed.

(** Dropping the labels 0..8 leaves the rows from the tenth on. *)
Lemma count_keep_0_8 n : count_true (keep_mask (seq 0 9) n) = n - 9.
Proof.
  unfold keep_mask.
  rewrite (map_ext _ (fun i => 9 <=? i)) by (intros; apply keep_0_8).
  rewrite count_from. lia.
Qed.

(** Dropping the label 1 keeps the first row. *)
Lemma count_keep_1 m : exists k, count_true (keep_mask [1] (S m)) = S k.
Proof. unfold keep_mask, count_true. simpl. eauto. Qed.

Lemma set_header_nrows raw :
  if raw_nrows raw <=? 9 then set_header raw = Raise IndexError
  else is_ok (set_header raw) = true.
Proof.
  unfold set_header. cbn [drop_index raw_nrows raw_cols].
  rewrite count_keep_0_8.
  destruct (Nat.leb_spec (raw_nrows raw) 9) as [Hle | Hgt].
  - replace (raw_nrows raw - 9) with 0 by lia. reflexivity.
  - destruct (raw_nrows raw - 9) as [|m] eqn:E; [lia|].
    destruct (count_keep_1 m) as (k & ->). reflexivity.
Qed.

Lemma normalize_header_nrows raw year :
  if raw_nrows raw <=? 9 then normalize_header raw year = Raise IndexError
  else is_ok (normalize_header raw year) = true.
Proof.
  pose proof (set_header_nrows raw) as H. unfold normalize_header.
  destruct (raw_nrows raw <=? 9).
  - rewrite H. reflexivity.
  - destruct (set_header raw); [reflexivity | discriminate].
Qed.

(** Renaming gives the label Year to no other column, and takes it from
    none. *)
Lemma rename_label_year n :
  pystr_eqb Year (rename_label RENAME_MAP n) = pystr_eqb Year n.
Proof.
  assert (G : forall d,
             forallb (fun kv => negb (pystr_eqb Year (fst kv))
                                && negb (pystr_eqb Year (snd kv))) d = true ->
             pystr_eqb Year (rename_label d n) = pystr_eqb Year n).
  { induction d as [|[k v] d IH]; simpl; intros H; [reflexivity|].
    apply andb_true_iff in H as [H Hd]. apply andb_true_iff in H as [Hk Hv].
    apply negb_true_iff in Hk, Hv. unfold rename_label in *. simpl.
    destruct (pystr_eqb n k) eqn:E.
    - apply pystr_eqb_eq in E. subst n. congruence.
    - apply IH. exact Hd. }
  apply G. vm_compute. reflexivity.
Qed.

Lemma labelled_year_rename df :
  labelled Year (rename RENAME_MAP df) = labelled Year df.
Proof.
  unfold labelled, rename. cbn [cols].
  induction (cols df) as [|[[n|] vals] l IH]; [reflexivity | | exact IH].
  cbn [map filter fst snd option_map is_label]. rewrite rename_label_year.
  destruct (pystr_eqb Year n); cbn [map snd]; congruence.
Qed.

Lemma normalize_header_year raw year df :
  normalize_header raw year = Ok df ->
  Forall (fun vals => Forall (eq (CStr year)) vals) (labelled Year df) /\
  labelled Year df <> [].
Proof.
  unfold normalize_header. destruct (set_header raw) as [df0|]; [|discriminate].
  cbn [bind]. intros H. inversion H; subst df. rewrite labelled_year_rename.
  destruct (col_is_set Year (repeat (CStr year) (nrows df0)) df0) as [Hne Hall].
  split; [|exact Hne].
  rewrite Forall_forall in *. intros vals Hv. rewrite <- (Hall vals Hv).
  apply Forall_forall. intros x Hx. apply repeat_spec in Hx. congruence.
Qed.

Lemma Forall_select {A} (P : A -> Prop) : forall mask l,
  Forall P l -> Forall P (select mask l).
Proof.
  induction mask as [|b mask IH]; intros l H; [constructor|].
  destruct l as [|x l]; [constructor|]. inversion H; subst.
  simpl. destruct b; auto.
Qed.

(** Every cell of the Year column of a result holds the year extracted. *)
Lemma convert_budget_year raw keep out :
  convert_budget raw keep = Ok out ->
  exists year,
    extract_year raw = Ok year /\
    labelled Year out <> [] /\
    Forall (fun vals => Forall (eq (CStr year)) vals) (labelled Year out).
Proof.
  intros H. apply convert_budget_inv in H as (year & df & col & Hy & Hh & _ & _ & Hl).
  exists year. split; [exact Hy|].
  destruct (normalize_header_year _ _ Hh) as [Hall Hne]. rewrite Hl. split.
  - destruct (labelled Year df); [contradiction | discriminate].
  - apply Forall_forall. intros vals Hv. apply in_map_iff in Hv as (v0 & <- & Hv0).
    apply Forall_select. rewrite Forall_forall in Hall. auto.
Qed.

End HeaderFacts.
Import HeaderFacts.

(* ===================================================================== *)
(** * The properties of the specification *)
(* ===================================================================== *)

(** ** Row Classifier and Field Splitter on the example sequence *)

Lemma c1_fold keep :
  fold_rows keep (None, None) c1_accounts
  = [ mkRow (Some (u "G501")) (Some (u "Group A")) (Some (u "511")) (Some (u "item one"));
      mkRow (Some (u "G501")) (Some (u "Group A")) (Some (u "512")) (Some (u "item two"));
      mkRow (Some (u "G502")) (Some (u "Group B")) (Some (u "521")) (Some (u "item three")) ].
Proof. destruct keep; vm_compute; reflexivity. Qed.

(** C1.  For a frame whose account column holds "G501: Group A",
    "511 item one", "512 item two", "G502: Group B", "521 item three", the
    Row Classifier followed by the Field Splitter returns, with either value
    of the flag, a table of exactly three rows: (G501, Group A, 511, item
    one), (G501, Group A, 512, item two), (G502, Group B, 521, item three).
    No marker row is left, and each row carries the values of the latest
    marker before it. *)
Theorem classifier_splitter_example (keep : bool) (df : DataFrame) :
  getitem Budget_Account df = Ok c1_accounts ->
  exists out,
    bind (classify_and_fill keep df) split_fields = Ok out /\
    nrows out = 3 /\
    col_is Budget_Code (map CStr [u "G501"; u "G501"; u "G502"]) out /\
    col_is Budget_Type (map CStr [u "Group A"; u "Group A"; u "Group B"]) out /\
    col_is Expense_Code (map CStr [u "511"; u "512"; u "521"]) out /\
    col_is Expense_Detail (map CStr [u "item one"; u "item two"; u "item three"]) out.
Proof.
  intros H.
  destruct (@pipeline_table keep df c1_accounts H) as (out & Ho & [Hn Hc Ht He Hd] & _).
  rewrite c1_fold in *.
  exists out. repeat split; try assumption;
    first [ apply Hc | apply Ht | apply He | apply Hd ].
Qed.

Lemma classifier_splitter_example_witness :
  exists out,
    bind (classify_and_fill true c1_frame) split_fields = Ok out /\
    nrows out = 3 /\
    col_is Budget_Code (map CStr [u "G501"; u "G501"; u "G502"]) out /\
    col_is Budget_Type (map CStr [u "Group A"; u "Group A"; u "Group B"]) out /\
    col_is Expense_Code (map CStr [u "511"; u "512"; u "521"]) out /\
    col_is Expense_Detail (map CStr [u "item one"; u "item two"; u "item three"]) out.
Proof. apply (classifier_splitter_example true c1_frame). reflexivity. Defined.

(** The same rows in a whole conversion: nine leading rows, the header, the
    stray row, and the five account cells. *)
Example c1_conversion :
  option_map rows
    (match convert_budget c1_sheet true with Ok out => Some out | Raise _ => None end)
  = Some [ map CStr [[]; u "G501"; u "Group A"; u "511"; u "item one"];
           map CStr [[]; u "G501"; u "Group A"; u "512"; u "item two"];
           map CStr [[]; u "G502"; u "Group B"; u "521"; u "item three"] ].
Proof. vm_compute. reflexivity. Qed.

(** A whole conversion of a sheet of four columns, in both modes: the
    columns that are renamed are kept, in the order of [desired]; the column
    "note" is not. *)
Example budget_sheet_conversion :
  match convert_budget budget_sheet true with
  | Ok out =>
      columns out = map Some [Year; Budget_Code; Budget_Type; Expense_Code;
                              Expense_Detail; u "Budget"; u "Remaining_Balance"] /\
      rows out =
        [ [CStr (u "2025"); CStr (u "G501"); CStr (u "Group A"); CStr (u "511");
           CStr (u "item one"); CInt 100; CInt 10];
          [CStr (u "2025"); CStr (u "G502_1"); CStr (u "Group B"); CStr (u "521");
           CStr (u "item three"); CInt 50; COther (u "5.5")] ]
  | Raise _ => False
  end /\
  match convert_budget budget_sheet false with
  | Ok out =>
      labelled Budget_Code out = [[CStr (u "G501"); CStr (u "G502")]]
  | Raise _ => False
  end.
Proof. split; vm_compute; repeat split. Qed.

(** ** The group marker pattern *)

(** C2, as stated, fails: "A501: Group X" has the shape the specification
    words (an uppercase letter, three digits, a colon, a text), and the
    program does not take it for a marker, with either pattern. *)
Lemma uppercase_code_not_marker :
  marker_shape is_letter_code c2_text /\
  normalize (CStr c2_text) = Some c2_text /\
  row_is_group true (CStr c2_text) = false /\
  row_is_group false (CStr c2_text) = false.
Proof.
  split; [|repeat split; vm_compute; reflexivity].
  exists (u "A501"), [], [], [32%N], (u "Group X").
  split; [reflexivity|]. split.
  { exists 65%N, 53%N, 48%N, 49%N. repeat split; reflexivity. }
  split; [now left|]. repeat split; try reflexivity. discriminate.
Qed.

(** C2, amended.  A row is classified as a group marker exactly when its
    account cell is not missing and its normalized text has the shape CODE,
    optional SUFFIX, a colon with optional whitespace on both sides, TEXT,
    where CODE is the letter G followed by exactly three digits, SUFFIX is
    an underscore and one or more characters that are neither a colon nor
    whitespace, and TEXT is one or more characters without a line feed.
    This holds for both patterns. *)
Theorem marker_iff_g_shape (keep : bool) (v : cell) :
  row_is_group keep v = true <->
  exists t, normalize v = Some t /\ marker_shape is_g_code t.
Proof.
  unfold row_is_group. destruct (normalize v) as [t|] eqn:E.
  - assert (Hend : forall w c, t = w ++ [c] -> isspace c = false).
    { intros w c Ht. unfold normalize in E.
      destruct (astype_string v) as [x|]; [|discriminate].
      simpl in E. inversion E as [E']. rewrite Ht in E'.
      eapply strip_last; eauto. }
    rewrite (@is_marker_iff keep t Hend). split.
    + intros H. exists t. auto.
    + intros (t' & Ht' & H). inversion Ht'. subst. exact H.
  - split; [discriminate|]. intros (t & Ht & _). discriminate.
Qed.

(** ** The missing account column *)

(** C3.  When the frame after header normalization and renaming has no
    column Budget_Account, the conversion raises the KeyError that names
    the missing column and returns no table; when it has one, that error is
    not raised. *)
Theorem missing_account_column (raw : RawSheet) (keep : bool) (df : DataFrame) :
  header_of raw = Ok df ->
  if has_column Budget_Account df
  then raises_missing_column (convert_budget raw keep) = false
  else convert_budget raw keep = Raise (KeyError missing_column_msg).
Proof.
  unfold header_of. intros H.
  destruct (extract_year raw) as [year|] eqn:Hy; [|discriminate]. cbn [bind] in H.
  rewrite (@convert_budget_eq raw keep year df Hy H).
  destruct (has_column Budget_Account df); [|reflexivity].
  rewrite getitem_alt.
  destruct (labelled Budget_Account df) as [|c [|c' l]]; reflexivity.
Qed.

Lemma missing_account_column_witness :
  convert_budget c3_sheet_missing true = Raise (KeyError missing_column_msg) /\
  raises_missing_column (convert_budget c1_sheet true) = false.
Proof.
  split.
  - apply (@missing_account_column c3_sheet_missing true
             {| nrows := 1;
                cols := [(Some (u "Account"), [CStr (u "511 item one")]);
                         (Some Year, [CStr []])] |}).
    vm_compute. reflexivity.
  - apply (@missing_account_column c1_sheet true
             {| nrows := 5;
                cols := [(Some Budget_Account, c1_accounts);
                         (Some Year, repeat (CStr []) 5)] |}).
    vm_compute. reflexivity.
Defined.

(** ** Rows without an Expense_Code *)

(** C4, as stated, fails: an account cell of three spaces is not dropped.
    After the marker the sheet holds that cell, a missing cell and
    "511 item one"; the table has two rows, and the first, that of the three
    spaces, has a missing Expense_Code. *)
Lemma blank_account_row_kept :
  exists out,
    convert_budget c4_sheet true = Ok out /\
    nrows out = 2 /\
    labelled Expense_Code out = [[CNaN; CStr (u "511")]] /\
    labelled Expense_Detail out = [[CStr []; CStr (u "item one")]] /\
    labelled Budget_Code out = [[CStr (u "G501"); CStr (u "G501")]].
Proof. eexists. split; [vm_compute; reflexivity|]. repeat split. Qed.

Lemma normalize_blank w :
  forallb isspace w = true -> normalize (CStr w) = Some [].
Proof.
  intros H. unfold normalize. simpl. f_equal. apply strip_all_space.
  unfold replace_char. rewrite forallb_forall in *. intros x Hx.
  apply in_map_iff in Hx as (y & <- & Hy).
  destruct (N.eqb_spec y 160); [reflexivity | auto].
Qed.

Lemma empty_not_marker keep : fst (extract1 (group_pat keep) (Some [])) = None.
Proof. destruct keep; reflexivity. Qed.

(** C4, amended.  In every table the conversion returns, the Expense_Code
    of a row is a token (not empty, without whitespace) or is missing; the
    columns of the table are those of the sequential fold over the account
    column, in which a row whose account cell is missing is dropped, and a
    row whose account cell is a string of whitespace only (or the empty
    string) is kept, with a missing Expense_Code and an empty
    Expense_Detail.  Neither raises an error: the Row Classifier and the
    Field Splitter return a table whatever the account column holds. *)
Theorem expense_code_token_or_missing (raw : RawSheet) (keep : bool) (out : DataFrame) :
  convert_budget raw keep = Ok out ->
  Forall (fun vals => Forall token_or_na vals) (labelled Expense_Code out) /\
  (exists year df col,
     normalize_header raw year = Ok df /\ getitem Budget_Account df = Ok col /\
     table_of keep col out) /\
  (forall ctx v rest,
     isna v = true ->
     fold_rows keep ctx (v :: rest) = fold_rows keep ctx rest) /\
  (forall ctx w rest,
     forallb isspace w = true ->
     fold_rows keep ctx (CStr w :: rest)
     = mkRow (fst ctx) (snd ctx) None (Some []) :: fold_rows keep ctx rest) /\
  (forall df' col',
     getitem Budget_Account df' = Ok col' ->
     is_ok (bind (classify_and_fill keep df') split_fields) = true).
Proof.
  intros H.
  apply convert_budget_inv in H as (year & df & col & Hy & Hh & Hg & Ht & _).
  split; [|split; [|split; [|split]]].
  - destruct Ht as [_ _ _ [_ Hall] _].
    rewrite Forall_forall in *. intros vals Hv. rewrite <- (Hall vals Hv).
    apply Forall_forall. intros x Hx. apply in_map_iff in Hx as (r & <- & Hr).
    pose proof (fold_rows_tokens keep col (None, None)) as Hf.
    rewrite Forall_forall in Hf. auto.
  - exists year, df, col. auto.
  - intros ctx v rest Hna. apply fold_rows_na.
    unfold normalize, astype_string. now rewrite Hna.
  - intros ctx w rest Hw.
    rewrite (@fold_rows_data keep ctx (CStr w) [] rest (normalize_blank w Hw)
               (empty_not_marker keep)).
    reflexivity.
  - intros df' col' Hg'.
    destruct (@pipeline_table keep df' col' Hg') as (out' & -> & _). reflexivity.
Qed.

Lemma expense_code_token_or_missing_witness :
  Forall (fun vals => Forall token_or_na vals)
    (labelled Expense_Code
       {| nrows := 2;
          cols := [ (Some Year, [CStr []; CStr []]);
                    (Some Budget_Code, [CStr (u "G501"); CStr (u "G501")]);
                    (Some Budget_Type, [CStr (u "Group A"); CStr (u "Group A")]);
                    (Some Expense_Code, [CNaN; CStr (u "511")]);
                    (Some Expense_Detail, [CStr []; CStr (u "item one")]) ] |}).
Proof.
  apply (@expense_code_token_or_missing c4_sheet true).
  vm_compute. reflexivity.
Defined.

(** ** The values of Year *)

(** C5, as stated, fails: a date cell of the year 2100, in the range
    [1900, 2100], gives the Year "2100", which is not empty and does not
    match [(19|20)\d\d]. *)
Lemma year_2100_from_date :
  exists out,
    convert_budget c5_sheet true = Ok out /\
    labelled Year out = [[CStr (u "2100")]] /\
    year_shapeb (u "2100") = false /\
    truthy (u "2100") = true.
Proof. eexists. split; [vm_compute; reflexivity|]. repeat split. Qed.

(** C5, amended.  In every table the conversion returns, every cell of the
    Year column holds the one year extracted from the sheet, which is the
    empty string, or a string of four characters that matches
    [(19|20)\d\d], or the string "2100"; it is what some cell yields when it
    is not empty, and a cell yields "2100" only as a date-like value whose
    year is 2100. *)
Theorem year_values (raw : RawSheet) (keep : bool) (out : DataFrame) :
  convert_budget raw keep = Ok out ->
  exists year,
    extract_year raw = Ok year /\
    labelled Year out <> [] /\
    Forall (fun vals => Forall (eq (CStr year)) vals) (labelled Year out) /\
    year_ok_or_2100 year /\
    (year = [] \/
     exists v, year = extract_year_from_value v /\
               (year_ok year \/ exists t, v = CDate 2100 t)).
Proof.
  intros H. apply convert_budget_year in H as (year & Hy & Hne & Hall).
  exists year. repeat split; auto.
  - eapply extract_year_ok; eauto.
  - apply extract_year_from in Hy as [-> | (v & ->)]; [now left|].
    right. exists v. split; [reflexivity|].
    destruct (extract_year_from_value_cases v) as [Hok | (t & -> & _)]; eauto.
Qed.

Lemma year_values_witness :
  exists year,
    extract_year c5_sheet = Ok year /\
    labelled Year {| nrows := 1;
                     cols := [ (Some Year, [CStr (u "2100")]);
                               (Some Budget_Code, [CNaN]); (Some Budget_Type, [CNaN]);
                               (Some Expense_Code, [CStr (u "511")]);
                               (Some Expense_Detail, [CStr (u "item one")]) ] |} <> [] /\
    Forall (fun vals => Forall (eq (CStr year)) vals)
      (labelled Year {| nrows := 1;
                        cols := [ (Some Year, [CStr (u "2100")]);
                                  (Some Budget_Code, [CNaN]); (Some Budget_Type, [CNaN]);
                                  (Some Expense_Code, [CStr (u "511")]);
                                  (Some Expense_Detail, [CStr (u "item one")]) ] |}) /\
    year_ok_or_2100 year /\
    (year = [] \/
     exists v, year = extract_year_from_value v /\
               (year_ok year \/ exists t, v = CDate 2100 t)).
Proof.
  apply (@year_values c5_sheet true). vm_compute. reflexivity.
Defined.

(** ** The Year Extractor *)



(** ** Sheets with few rows *)

(** C7 fails in the program: the rows 0..8 and the stray row are dropped
    without error, but the header is then read from the first row left, and
    on a sheet of nine rows or fewer there is none: [df.iloc[0]] raises
    IndexError.  A sheet of ten rows or more passes, also when the stray
    row is absent (ten rows exactly). *)
Theorem short_sheet_raises (raw : RawSheet) (year : pystr) :
  (if raw_nrows raw <=? 9
   then normalize_header raw year = Raise IndexError
   else is_ok (normalize_header raw year) = true) /\
  convert_budget c7_sheet true = Raise IndexError /\
  convert_budget c7_sheet false = Raise IndexError.
Proof.
  split; [apply normalize_header_nrows|]. split; reflexivity.
Qed.

(** ** The Field Splitter *)

Lemma rstrip_id w c : isspace c = false -> rstrip (w ++ [c]) = w ++ [c].
Proof.
  intros H. unfold rstrip. rewrite rev_app_distr. simpl. rewrite H.
  simpl. now rewrite rev_involutive.
Qed.

Lemma strip_id c w d :
  isspace c = false -> isspace d = false -> strip (c :: w ++ [d]) = c :: w ++ [d].
Proof.
  intros Hc Hd. unfold strip. rewrite lstrip_nonspace by exact Hc.
  apply (@rstrip_id (c :: w) d Hd).
Qed.

Lemma trimmed_head v c w : strip v = v -> v = c :: w -> isspace c = false.
Proof. intros H ->. eapply strip_head; eauto. Qed.

Lemma split_head c w :
  isspace c = false ->
  split (c :: w) = before_ws (c :: w) :: split (after_ws (c :: w)).
Proof.
  intros H. rewrite split_before_after by exact H. simpl. now rewrite H.
Qed.

(** C8, as stated, fails on the empty value: it is trimmed, it survives (a
    cell of one space is not missing, is no marker, and is not dropped),
    the text before the first whitespace is the empty string, and the
    Expense_Code is missing, not the empty string. *)
Lemma empty_value_has_no_expense_code :
  strip [] = [] /\
  before_ws [] = [] /\
  expense_code (ba_of (CStr [])) = None /\
  fold_rows true (None, None) [CStr (u " ")] = [mkRow None None None (Some [])].
Proof. repeat split. Qed.

(** C8, amended.  For every surviving account value that is trimmed and not
    empty, the Field Splitter sets Expense_Code to the text before the first
    run of whitespace and Expense_Detail to the tokens after it, joined by
    single spaces; a value without whitespace gives the empty
    Expense_Detail.  "511 ค่าใช้จ่ายอื่นๆ" gives "511" and "ค่าใช้จ่ายอื่นๆ"; "511"
    gives "511" and the empty string.  The empty value gives a missing
    Expense_Code and the empty Expense_Detail. *)
Theorem split_trimmed_value (v : pystr) :
  strip v = v -> v <> [] ->
  expense_code (ba_of (CStr v)) = Some (before_ws v) /\
  expense_detail (ba_of (CStr v)) = Some (join (u " ") (split (after_ws v))) /\
  expense_detail (ba_of (CStr v)) = Some (join (u " ") (tl (split v))) /\
  (forallb (fun c => negb (isspace c)) v = true ->
   expense_detail (ba_of (CStr v)) = Some []) /\
  (expense_code (ba_of (CStr (u "511 ค่าใช้จ่ายอื่นๆ"))) = Some (u "511") /\
   expense_detail (ba_of (CStr (u "511 ค่าใช้จ่ายอื่นๆ"))) = Some (u "ค่าใช้จ่ายอื่นๆ")) /\
  (expense_code (ba_of (CStr (u "511"))) = Some (u "511") /\
   expense_detail (ba_of (CStr (u "511"))) = Some []) /\
  (expense_code (ba_of (CStr [])) = None /\
   expense_detail (ba_of (CStr [])) = Some []).
Proof.
  intros Ht Hne.
  destruct v as [|c w]; [contradiction|].
  pose proof (@trimmed_head (c :: w) c w Ht eq_refl) as Hc.
  unfold ba_of, astype_string. cbn [isna str_of_cell option_map].
  rewrite Ht. unfold expense_code, expense_detail. cbn [option_map].
  rewrite (@split_head c w Hc). cbn [hd_error tl].
  repeat split.
  intros Hall. destruct (before_ws_all _ Hall) as [_ ->]. reflexivity.
Qed.

Lemma split_trimmed_value_witness :
  expense_code (ba_of (CStr (u "512 ค่าใช้จ่าย  อื่นๆ"))) = Some (u "512") /\
  expense_detail (ba_of (CStr (u "512 ค่าใช้จ่าย  อื่นๆ"))) = Some (u "ค่าใช้จ่าย อื่นๆ").
Proof.
  pose proof (@split_trimmed_value (u "512 ค่าใช้จ่าย  อื่นๆ") eq_refl) as H.
  assert (Hne : u "512 ค่าใช้จ่าย  อื่นๆ" <> []) by discriminate.
  destruct (H Hne) as (H1 & H2 & _).
  split; [exact H1 | exact H2].
Defined.

(** ** Rows before the first marker *)

(** C9.  In every table the conversion returns, the rows of the account
    column that come before the first group marker and are data rows (not
    missing) are all kept, in order, at the head of the table, and each has
    NA in Budget_Code and in Budget_Type. *)
Theorem rows_before_first_marker (raw : RawSheet) (keep : bool) (out : DataFrame) :
  convert_budget raw keep = Ok out ->
  exists year df col,
    normalize_header raw year = Ok df /\ getitem Budget_Account df = Ok col /\
    forall pre post,
      col = pre ++ post ->
      forallb (fun v => negb (row_is_group keep v)) pre = true ->
      let rest := fold_rows keep (None, None) post in
      nrows out = length (data_texts pre) + length rest /\
      col_is Budget_Code
        (repeat CNaN (length (data_texts pre))
         ++ map (fun r => cell_of_opt (r_budget_code r)) rest) out /\
      col_is Budget_Type
        (repeat CNaN (length (data_texts pre))
         ++ map (fun r => cell_of_opt (r_budget_type r)) rest) out /\
      col_is Expense_Code
        (map (fun t => cell_of_opt (expense_code (Some (strip t)))) (data_texts pre)
         ++ map (fun r => cell_of_opt (r_expense_code r)) rest) out.
Proof.
  intros H.
  apply convert_budget_inv in H as (year & df & col & Hy & Hh & Hg & Ht & _).
  exists year, df, col. repeat split; auto.
  - destruct Ht as [Hn _ _ _ _]. rewrite Hn. subst col.
    rewrite fold_rows_no_marker by assumption.
    rewrite length_app, length_map. reflexivity.
  - destruct Ht as [_ [Hne Hall] _ _ _]. exact Hne.
  - destruct Ht as [_ [Hne Hall] _ _ _]. subst col.
    rewrite fold_rows_no_marker in Hall by assumption.
    rewrite map_app, map_map in Hall. cbn [data_row r_budget_code fst cell_of_opt] in Hall.
    rewrite map_const in Hall. exact Hall.
  - destruct Ht as [_ _ [Hne Hall] _ _]. exact Hne.
  - destruct Ht as [_ _ [Hne Hall] _ _]. subst col.
    rewrite fold_rows_no_marker in Hall by assumption.
    rewrite map_app, map_map in Hall. cbn [data_row r_budget_type snd cell_of_opt] in Hall.
    rewrite map_const in Hall. exact Hall.
  - destruct Ht as [_ _ _ [Hne Hall] _]. exact Hne.
  - destruct Ht as [_ _ _ [Hne Hall] _]. subst col.
    rewrite fold_rows_no_marker in Hall by assumption.
    rewrite map_app, map_map in Hall. exact Hall.
Qed.

Lemma rows_before_first_marker_witness :
  exists year df col,
    normalize_header c9_sheet year = Ok df /\ getitem Budget_Account df = Ok col /\
    forall pre post,
      col = pre ++ post ->
      forallb (fun v => negb (row_is_group true v)) pre = true ->
      let rest := fold_rows true (None, None) post in
      nrows c9_out = length (data_texts pre) + length rest /\
      col_is Budget_Code
        (repeat CNaN (length (data_texts pre))
         ++ map (fun r => cell_of_opt (r_budget_code r)) rest) c9_out /\
      col_is Budget_Type
        (repeat CNaN (length (data_texts pre))
         ++ map (fun r => cell_of_opt (r_budget_type r)) rest) c9_out /\
      col_is Expense_Code
        (map (fun t => cell_of_opt (expense_code (Some (strip t)))) (data_texts pre)
         ++ map (fun r => cell_of_opt (r_expense_code r)) rest) c9_out.
Proof.
  apply (@rows_before_first_marker c9_sheet true c9_out).
  vm_compute. reflexivity.
Defined.

(** ** A code and a colon with nothing after it *)

Lemma first_colon : forall (a a' b b' : pystr),
  a ++ 58%N :: b = a' ++ 58%N :: b' ->
  forallb (fun c => negb (c =? 58)%N) a = true ->
  forallb (fun c => negb (c =? 58)%N) a' = true ->
  a = a' /\ b = b'.
Proof.
  induction a as [|x a IH]; intros a' b b' E Ha Ha'.
  - destruct a' as [|y a']; simpl in *.
    + inversion E. auto.
    + inversion E; subst y. apply andb_true_iff in Ha' as [Hy _]. discriminate.
  - destruct a' as [|y a']; simpl in *.
    + inversion E; subst x. apply andb_true_iff in Ha as [Hx _]. discriminate.
    + inversion E; subst y.
      apply andb_true_iff in Ha as [_ Ha]. apply andb_true_iff in Ha' as [_ Ha'].
      destruct (IH a' b b' H1 Ha Ha') as [-> ->]. auto.
Qed.

Lemma forallb_app_intro {A} (p : A -> bool) l1 l2 :
  forallb p l1 = true -> forallb p l2 = true -> forallb p (l1 ++ l2) = true.
Proof. intros H1 H2. rewrite forallb_app, H1, H2. reflexivity. Qed.

Lemma forallb_impl {A} (p q : A -> bool) l :
  (forall x, p x = true -> q x = true) -> forallb p l = true -> forallb q l = true.
Proof.
  intros Hpq. rewrite !forallb_forall. auto.
Qed.

(** The code, the suffix and the whitespace before the colon hold no colon;
    the code and the suffix hold no whitespace. *)
Lemma g_code_chars code :
  is_g_code code ->
  forallb (fun c => negb (c =? 58)%N) code = true /\
  forallb (fun c => negb (isspace c)) code = true /\
  exists w, code = 71%N :: w.
Proof.
  intros (d1 & d2 & d3 & -> & H1 & H2 & H3).
  destruct (isdecimal_bounds _ H1) as (_ & A1 & _ & B1).
  destruct (isdecimal_bounds _ H2) as (_ & A2 & _ & B2).
  destruct (isdecimal_bounds _ H3) as (_ & A3 & _ & B3).
  apply N.eqb_neq in A1, A2, A3.
  simpl. rewrite A1, A2, A3, B1, B2, B3. repeat split. eauto.
Qed.

Lemma suffix_chars sfx :
  sfx = [] \/ is_suffix sfx ->
  forallb (fun c => negb (c =? 58)%N) sfx = true /\
  forallb (fun c => negb (isspace c)) sfx = true.
Proof.
  intros [-> | (t & -> & _ & Ht)]; [split; reflexivity|].
  simpl. split.
  - eapply forallb_impl; [|exact Ht]. unfold suffix_char. intros x Hx.
    apply andb_true_iff in Hx as [Hx _]. exact Hx.
  - eapply forallb_impl; [|exact Ht]. unfold suffix_char. intros x Hx.
    apply andb_true_iff in Hx as [_ Hx]. exact Hx.
Qed.

Lemma space_chars ws :
  forallb isspace ws = true -> forallb (fun c => negb (c =? 58)%N) ws = true.
Proof.
  apply forallb_impl. intros x Hx. apply negb_true_iff. apply N.eqb_neq.
  now apply isspace_not_colon.
Qed.

Lemma code_colon_not_shape code sfx ws :
  is_g_code code -> sfx = [] \/ is_suffix sfx -> forallb isspace ws = true ->
  ~ marker_shape is_g_code (code ++ sfx ++ ws ++ [58%N]).
Proof.
  intros Hc Hs Hw (code' & sfx' & w1 & w2 & text & E & Hc' & Hs' & H1 & H2 & [Hne _]).
  destruct (g_code_chars Hc) as (C1 & _ & _).
  destruct (g_code_chars Hc') as (C1' & _ & _).
  destruct (suffix_chars Hs) as (S1 & _). destruct (suffix_chars Hs') as (S1' & _).
  assert (E' : (code ++ sfx ++ ws) ++ 58%N :: []
               = (code' ++ sfx' ++ w1) ++ 58%N :: (w2 ++ text)).
  { rewrite <- !app_assoc. exact E. }
  apply first_colon in E' as [_ E'].
  - destruct w2; destruct text; try discriminate. contradiction.
  - repeat apply forallb_app_intro; auto using space_chars.
  - repeat apply forallb_app_intro; auto using space_chars.
Qed.

Lemma before_ws_code_colon a ws :
  forallb (fun c => negb (isspace c)) a = true -> forallb isspace ws = true ->
  before_ws (a ++ ws ++ [58%N])
  = match ws with [] => a ++ [58%N] | _ :: _ => a end.
Proof.
  intros Ha Hw. rewrite before_ws_app by exact Ha.
  destruct ws as [|x ws]; simpl; [reflexivity|].
  simpl in Hw. apply andb_true_iff in Hw as [-> _]. apply app_nil_r.
Qed.

(** The fold over a column that goes on: the rows of what follows are
    folded from the context that the column leaves. *)
Lemma fold_rows_context keep : forall pre ctx,
  exists ctx', forall rest,
    fold_rows keep ctx (pre ++ rest)
    = fold_rows keep ctx pre ++ fold_rows keep ctx' rest.
Proof.
  induction pre as [|v pre IH]; intros ctx; [exists ctx; reflexivity|].
  destruct (row_case_of keep v) as [E | t E F | t code E F].
  - destruct (IH ctx) as (ctx' & H). exists ctx'. intros rest. cbn [app].
    rewrite !(@fold_rows_na keep ctx v _ E). apply H.
  - destruct (IH ctx) as (ctx' & H). exists ctx'. intros rest. cbn [app].
    rewrite !(@fold_rows_data keep ctx v t _ E F). now rewrite H.
  - destruct (IH (Some code,
                  match snd (extract1 (group_pat keep) (Some t)) with
                  | Some ty => Some ty
                  | None => snd ctx
                  end)) as (ctx' & H).
    exists ctx'. intros rest. cbn [app].
    rewrite !(@fold_rows_marker keep ctx v t code _ E F). apply H.
Qed.

(** A code, optional whitespace and a colon: no marker, and the first token
    is the code, with the colon when no whitespace comes before it. *)
Lemma code_colon_fields keep code sfx ws :
  is_g_code code -> sfx = [] \/ is_suffix sfx -> forallb isspace ws = true ->
  let t := code ++ sfx ++ ws ++ [58%N] in
  is_marker keep t = false /\
  expense_code (Some (strip t))
  = Some match ws with
         | [] => code ++ sfx ++ [58%N]
         | _ :: _ => code ++ sfx
         end.
Proof.
  intros Hc Hs Hw t.
  assert (Hend : forall w c, t = w ++ [c] -> isspace c = false).
  { intros w c E. unfold t in E. rewrite !app_assoc in E.
    apply app_inj_tail in E as [_ <-]. reflexivity. }
  split.
  - destruct (is_marker keep t) eqn:M; [|reflexivity].
    apply (@is_marker_iff keep t Hend) in M.
    exfalso. eapply code_colon_not_shape; eauto.
  - destruct (g_code_chars Hc) as (_ & C2 & (w0 & Hw0)).
    destruct (suffix_chars Hs) as (_ & S2).
    assert (Hstrip : strip t = t).
    { unfold t. rewrite Hw0. rewrite !app_assoc.
      rewrite <- app_comm_cons. rewrite <- !app_comm_cons.
      apply strip_id; reflexivity. }
    rewrite Hstrip.
    assert (Ht : t = (code ++ sfx) ++ ws ++ [58%N]).
    { unfold t. now rewrite <- app_assoc. }
    unfold expense_code.
    assert (Hsplit : hd_error (split t) = Some (before_ws t)).
    { unfold t at 1 2. rewrite Hw0. cbn [app].
      rewrite split_head by reflexivity. reflexivity. }
    rewrite Hsplit, Ht.
    rewrite before_ws_code_colon; auto using forallb_app_intro.
    destruct ws; [now rewrite <- app_assoc | reflexivity].
Qed.

(** C10, as stated, fails in its last part: in a whole conversion the row
    "G501:" is kept as a data row under the Budget_Code and Budget_Type of
    the marker before it, and so is "G501 :", but the Expense_Code of
    "G501:" is "G501:", with the colon, and not the code "G501". *)
Lemma code_colon_token_keeps_colon :
  exists out,
    convert_budget c10_sheet true = Ok out /\
    nrows out = 3 /\
    labelled Budget_Code out = [map CStr [u "G500"; u "G500"; u "G500"]] /\
    labelled Budget_Type out = [map CStr [u "Old"; u "Old"; u "Old"]] /\
    labelled Expense_Code out = [map CStr [u "G501:"; u "G501"; u "511"]] /\
    pystr_eqb (u "G501:") (u "G501") = false.
Proof. eexists. split; [vm_compute; reflexivity|]. repeat split. Qed.

(** C10, amended.  Let the account column of the frame given to the Row
    Classifier hold, after the cells [pre], a cell whose normalized text is
    a code (G and three digits, with or without a suffix), optional
    whitespace and a colon, with nothing after the colon, as "G501:" or
    "G501 :".  The cell is no group marker with either pattern, and the Row
    Classifier and the Field Splitter return a table in which: the rows of
    [pre] come first, as without the cell; then the row of the cell, with the
    Budget_Code and Budget_Type that [pre] leaves; then the rows of the cells
    after it, filled from the same Budget_Code and Budget_Type, as if the
    cell were not there.  The Expense_Code of the row is its first token:
    the code (with its suffix) when whitespace comes before the colon, and
    the code with the colon attached when none does. *)
Theorem code_colon_row_is_data
  (keep : bool) (df : DataFrame) (pre : list cell) (v : cell)
  (code sfx ws : pystr) (post : list cell) :
  getitem Budget_Account df = Ok (pre ++ v :: post) ->
  normalize v = Some (code ++ sfx ++ ws ++ [58%N]) ->
  is_g_code code -> sfx = [] \/ is_suffix sfx -> forallb isspace ws = true ->
  row_is_group keep v = false /\
  exists out ctx,
    bind (classify_and_fill keep df) split_fields = Ok out /\
    (forall rest,
       fold_rows keep (None, None) (pre ++ rest)
       = fold_rows keep (None, None) pre ++ fold_rows keep ctx rest) /\
    let head := fold_rows keep (None, None) pre in
    let tail := fold_rows keep ctx post in
    nrows out = length head + S (length tail) /\
    col_is Budget_Code
      (map (fun r => cell_of_opt (r_budget_code r)) head
       ++ cell_of_opt (fst ctx)
       :: map (fun r => cell_of_opt (r_budget_code r)) tail) out /\
    col_is Budget_Type
      (map (fun r => cell_of_opt (r_budget_type r)) head
       ++ cell_of_opt (snd ctx)
       :: map (fun r => cell_of_opt (r_budget_type r)) tail) out /\
    col_is Expense_Code
      (map (fun r => cell_of_opt (r_expense_code r)) head
       ++ CStr match ws with
               | [] => code ++ sfx ++ [58%N]
               | _ :: _ => code ++ sfx
               end
       :: map (fun r => cell_of_opt (r_expense_code r)) tail) out.
Proof.
  intros Hg Hn Hc Hs Hw.
  destruct (@code_colon_fields keep code sfx ws Hc Hs Hw) as [Hm He].
  assert (Hgp : row_is_group keep v = false).
  { unfold row_is_group. now rewrite Hn. }
  split; [exact Hgp|].
  destruct (@pipeline_table keep df _ Hg) as (out & Ho & [Tn Tc Tt Te _] & _).
  destruct (fold_rows_context keep pre (None, None)) as (ctx & Hctx).
  exists out, ctx. split; [exact Ho|]. split; [exact Hctx|].
  assert (Ef : fold_rows keep (None, None) (pre ++ v :: post)
               = fold_rows keep (None, None) pre
                 ++ data_row ctx (code ++ sfx ++ ws ++ [58%N])
                 :: fold_rows keep ctx post).
  { rewrite Hctx. f_equal. apply fold_rows_data; [exact Hn|].
    eapply row_is_group_false; eauto. }
  rewrite Ef in Tn, Tc, Tt, Te. clear Ef.
  rewrite length_app in Tn. rewrite map_app in Tc, Tt, Te.
  cbn [map length data_row r_budget_code r_budget_type r_expense_code] in *.
  rewrite He in Te. cbn [cell_of_opt] in Te.
  cbv zeta. auto.
Qed.

Lemma code_colon_row_is_data_witness :
  row_is_group true (CStr (u "G501:")) = false /\
  exists out ctx,
    bind (classify_and_fill true c10_frame) split_fields = Ok out /\
    (forall rest,
       fold_rows true (None, None) ([CStr (u "G500: Old")] ++ rest)
       = fold_rows true (None, None) [CStr (u "G500: Old")]
         ++ fold_rows true ctx rest) /\
    let head := fold_rows true (None, None) [CStr (u "G500: Old")] in
    let tail := fold_rows true ctx [CStr (u "G501 : "); CStr (u "511 x")] in
    nrows out = length head + S (length tail) /\
    col_is Budget_Code
      (map (fun r => cell_of_opt (r_budget_code r)) head
       ++ cell_of_opt (fst ctx)
       :: map (fun r => cell_of_opt (r_budget_code r)) tail) out /\
    col_is Budget_Type
      (map (fun r => cell_of_opt (r_budget_type r)) head
       ++ cell_of_opt (snd ctx)
       :: map (fun r => cell_of_opt (r_budget_type r)) tail) out /\
    col_is Expense_Code
      (map (fun r => cell_of_opt (r_expense_code r)) head
       ++ CStr (u "G501:")
       :: map (fun r => cell_of_opt (r_expense_code r)) tail) out.
Proof.
  apply (@code_colon_row_is_data true c10_frame
           [CStr (u "G500: Old")] (CStr (u "G501:")) (u "G501") [] []
           [CStr (u "G501 : "); CStr (u "511 x")]).
  - reflexivity.
  - reflexivity.
  - exists 53%N, 48%N, 49%N. repeat split.
  - now left.
  - reflexivity.
Defined.

(* ===================================================================== *)
(** * Further properties of the program *)
(* ===================================================================== *)

(** ** What a marker captures *)

Module CaptureFacts.

Lemma star_greedy p : forall w s pos c k r,
  forallb p w = true -> stops p s ->
  k (pos + length w) s c = Some r ->
  star p pos (w ++ s) c k = Some r.
Proof.
  induction w as [|a w IH]; intros s pos c k r Hw Hs Hk.
  - simpl in *. rewrite Nat.add_0_r in Hk.
    destruct s as [|x s]; simpl; [exact Hk|]. simpl in Hs. now rewrite Hs.
  - simpl in Hw. apply andb_true_iff in Hw as [Ha Hw].
    cbn [app star]. rewrite Ha.
    rewrite (IH s (S pos) c k r Hw Hs); [reflexivity|].
    replace (S pos + length w) with (pos + length (a :: w)) by (simpl; lia).
    exact Hk.
Qed.

Lemma rmatch_code pos code s c k :
  is_g_code code -> rmatch code_re pos (code ++ s) c k = k (pos + 4) s c.
Proof.
  intros (d1 & d2 & d3 & -> & H1 & H2 & H3).
  unfold code_re. cbn [rmatch app]. unfold lit at 1. rewrite N.eqb_refl.
  rewrite H1, H2, H3. f_equal. lia.
Qed.

Lemma rmatch_no_suffix pos s c k :
  match s with [] => True | x :: _ => x <> 95%N end ->
  rmatch (Opt suffix_re) pos s c k = k pos s c.
Proof.
  intros H. unfold suffix_re. cbn [rmatch].
  destruct s as [|x s]; [reflexivity|].
  unfold lit. apply N.eqb_neq in H. rewrite H. reflexivity.
Qed.

Lemma rmatch_suffix pos sfx s c k r :
  is_suffix sfx -> stops suffix_char s ->
  k (pos + length sfx) s c = Some r ->
  rmatch (Opt suffix_re) pos (sfx ++ s) c k = Some r.
Proof.
  intros (t & -> & Hne & Ht) Hs Hk.
  destruct t as [|y t]; [contradiction|].
  simpl in Ht. apply andb_true_iff in Ht as [Hy Ht].
  unfold suffix_re, Plus. cbn [rmatch app]. unfold lit at 1. rewrite N.eqb_refl, Hy.
  rewrite (@star_greedy suffix_char t s (S (S pos)) c k r Ht Hs); [reflexivity|].
  replace (S (S pos) + length t) with (pos + length (95%N :: y :: t)) by (simpl; lia).
  exact Hk.
Qed.

(** The tail [\s*:\s*(.+)$] on a subject that runs to its end: group 2 is
    what follows the colon, without its leading whitespace. *)
Lemma lstrip_split s :
  exists ws, s = ws ++ lstrip s /\ forallb isspace ws = true /\ stops isspace (lstrip s).
Proof.
  induction s as [|x s (ws & E & Hws & Hst)]; simpl.
  - exists []. auto.
  - destruct (isspace x) eqn:Hx.
    + exists (x :: ws). simpl. rewrite Hx, Hws. repeat split; auto. now f_equal.
    + exists []. simpl. auto.
Qed.

Lemma rmatch_tail pos w1 rest :
  forallb isspace w1 = true ->
  lstrip rest <> [] -> forallb dot (lstrip rest) = true ->
  exists p, forall c k r,
    k p [] ((2, lstrip rest) :: c) = Some r ->
    rmatch tail_re pos (w1 ++ 58%N :: rest) c k = Some r.
Proof.
  intros H1 Hne Hdot.
  destruct (lstrip_split rest) as (w2 & E & H2 & Hst).
  destruct (lstrip rest) as [|x txt] eqn:L; [contradiction|].
  simpl in Hdot. apply andb_true_iff in Hdot as [Hx Hdot].
  exists (S (S (pos + length w1) + length w2) + length txt).
  intros c k r Hk.
  unfold tail_re, Plus. cbn [rmatch].
  apply star_greedy; [exact H1 | reflexivity |].
  cbn [rmatch]. unfold lit at 1. rewrite N.eqb_refl.
  rewrite E. apply star_greedy; [exact H2 | exact Hst |].
  cbn [rmatch]. rewrite Hx.
  rewrite <- (app_nil_r txt) at 1.
  apply star_greedy; [exact Hdot | exact I |].
  cbn [rmatch].
  match goal with
  | |- k _ [] ((2, firstn ?n _) :: c) = _ =>
      replace n with (S (length txt)) by lia
  end.
  change (S (length txt)) with (length (x :: txt)).
  rewrite firstn_all. exact Hk.
Qed.

Lemma search_at_start r t m :
  rmatch (Grp 0 r) 0 t [] accept = Some m -> search r t = Some m.
Proof.
  intros H. unfold search. destruct t; simpl in *; now rewrite H.
Qed.

Lemma tail_head_not_underscore w1 rest :
  forallb isspace w1 = true ->
  match w1 ++ 58%N :: rest with [] => True | x :: _ => x <> 95%N end.
Proof.
  destruct w1 as [|x w1]; simpl; [discriminate|].
  intros H. apply andb_true_iff in H as [Hx _]. intros ->. discriminate.
Qed.

Lemma tail_head_stops w1 rest :
  forallb isspace w1 = true -> stops suffix_char (w1 ++ 58%N :: rest).
Proof.
  destruct w1 as [|x w1]; simpl; [reflexivity|].
  intros H. apply andb_true_iff in H as [Hx _].
  unfold suffix_char. rewrite Hx. apply andb_false_r.
Qed.

Lemma g_code_length code : is_g_code code -> length code = 4.
Proof. intros (d1 & d2 & d3 & -> & _). reflexivity. Qed.

Lemma firstn_prefix {A} (a b : list A) n : n = length a -> firstn n (a ++ b) = a.
Proof.
  intros ->. rewrite firstn_app, Nat.sub_diag, firstn_all. simpl. apply app_nil_r.
Qed.

Ltac fold_opt_suffix :=
  match goal with
  | |- match rmatch suffix_re ?p ?s ?c ?k with Some res => Some res | None => _ end
       = ?rhs =>
      change (rmatch (Opt suffix_re) p s c k = rhs)
  end.

Lemma search_marker keep code sfx w1 rest :
  is_g_code code -> sfx = [] \/ is_suffix sfx -> forallb isspace w1 = true ->
  lstrip rest <> [] -> forallb dot (lstrip rest) = true ->
  exists whole,
    search (group_pat keep) (code ++ sfx ++ w1 ++ 58%N :: rest)
    = Some [ (0, whole); (2, lstrip rest);
             (1, if keep then code ++ sfx else code) ].
Proof.
  intros Hc Hs H1 Hne Hdot.
  pose proof (g_code_length Hc) as Hlen.
  destruct (@rmatch_tail (0 + 4 + length sfx) w1 rest H1 Hne Hdot) as (p & Hp).
  exists (firstn (p - 0) (code ++ sfx ++ w1 ++ 58%N :: rest)).
  apply search_at_start.
  destruct keep; unfold group_pat; cbn [rmatch Nat.eqb].
  - rewrite (@rmatch_code 0 code _ [] _ Hc). fold_opt_suffix.
    destruct Hs as [-> | Hs].
    + rewrite rmatch_no_suffix by (now apply tail_head_not_underscore).
      cbn [app length] in *. rewrite Nat.add_0_r in Hp.
      apply Hp. unfold accept.
      rewrite (@firstn_prefix N code _ (0 + 4 - 0)) by lia. now rewrite app_nil_r.
    + eapply rmatch_suffix; [exact Hs | now apply tail_head_stops |].
      apply Hp. unfold accept.
      rewrite (app_assoc code sfx).
      rewrite (@firstn_prefix N (code ++ sfx) _ (0 + 4 + length sfx - 0))
        by (rewrite length_app; lia).
      reflexivity.
  - rewrite (@rmatch_code 0 code _ [] _ Hc).
    rewrite (@firstn_prefix N code _ (0 + 4 - 0)) by lia. fold_opt_suffix.
    destruct Hs as [-> | Hs].
    + rewrite rmatch_no_suffix by (now apply tail_head_not_underscore).
      cbn [app length] in *. rewrite Nat.add_0_r in Hp.
      apply Hp. reflexivity.
    + eapply rmatch_suffix; [exact Hs | now apply tail_head_stops |].
      apply Hp. reflexivity.
Qed.

End CaptureFacts.
Import CaptureFacts.

Module ModeFacts.

Lemma lstrip_nil_all_space s : lstrip s = [] -> forallb isspace s = true.
Proof.
  intros H. destruct (lstrip_spec s) as (ws & E & Hws).
  rewrite H, app_nil_r in E. now subst.
Qed.

Lemma lstrip_app_space ws s : forallb isspace ws = true -> lstrip (ws ++ s) = lstrip s.
Proof.
  induction ws as [|x ws IH]; simpl; auto.
  intros H. apply andb_true_iff in H as [-> H]. auto.
Qed.

Lemma normalize_end v t :
  normalize v = Some t -> forall w c, t = w ++ [c] -> isspace c = false.
Proof.
  unfold normalize. destruct (astype_string v) as [x|]; [|discriminate].
  simpl. intros E w c Ht. inversion E as [E']. rewrite Ht in E'.
  eapply strip_last; eauto.
Qed.

(** A marker text that does not end with whitespace, cut at its first
    colon. *)
Lemma marker_shape_rest t :
  (forall w c, t = w ++ [c] -> isspace c = false) ->
  marker_shape is_g_code t ->
  exists code sfx w1 rest,
    t = code ++ sfx ++ w1 ++ 58%N :: rest /\
    is_g_code code /\ (sfx = [] \/ is_suffix sfx) /\ forallb isspace w1 = true /\
    lstrip rest <> [] /\ forallb dot (lstrip rest) = true.
Proof.
  intros Hend (code & sfx & w1 & w2 & text & E & Hc & Hs & H1 & H2 & [Hne Hdot]).
  exists code, sfx, w1, (w2 ++ text). repeat split; auto.
  - rewrite lstrip_app_space by exact H2. intros L.
    apply lstrip_nil_all_space in L.
    destruct (exists_last Hne) as (text' & c & ->).
    rewrite forallb_app in L. apply andb_true_iff in L as [_ L]. simpl in L.
    rewrite (Hend (code ++ sfx ++ w1 ++ [58%N] ++ w2 ++ text') c) in L; [discriminate|].
    rewrite E. now rewrite <- !app_assoc.
  - rewrite lstrip_app_space by exact H2.
    destruct (lstrip_spec text) as (ws & Et & _).
    rewrite Et in Hdot. rewrite forallb_app in Hdot.
    now apply andb_true_iff in Hdot as [_ Hdot].
Qed.

(** On a normalized text the two patterns agree on what is a marker and on
    the type captured; the code captured without the suffix is the first
    four characters of the code captured with it. *)
Lemma modes_agree v t :
  normalize v = Some t ->
  (fst (extract1 (group_pat true) (Some t)) = None /\
   fst (extract1 (group_pat false) (Some t)) = None) \/
  (exists code sfx ty,
     extract1 (group_pat true) (Some t) = (Some (code ++ sfx), Some ty) /\
     extract1 (group_pat false) (Some t) = (Some code, Some ty) /\
     length code = 4).
Proof.
  intros Hn. pose proof (normalize_end _ Hn) as Hend.
  destruct (is_marker true t) eqn:M.
  - right. apply (@is_marker_iff true t Hend) in M.
    destruct (marker_shape_rest Hend M)
      as (code & sfx & w1 & rest & -> & Hc & Hs & H1 & Hne & Hdot).
    destruct (@search_marker true code sfx w1 rest Hc Hs H1 Hne Hdot) as (wt & St).
    destruct (@search_marker false code sfx w1 rest Hc Hs H1 Hne Hdot) as (wf & Sf).
    exists code, sfx, (lstrip rest). unfold extract1. rewrite St, Sf.
    repeat split. now apply g_code_length.
  - left.
    assert (M' : is_marker false t = false).
    { destruct (is_marker false t) eqn:M'; [|reflexivity].
      apply (@is_marker_iff false t Hend) in M'.
      apply (@is_marker_iff true t Hend) in M'. congruence. }
    unfold is_marker in M, M'.
    destruct (fst (extract1 (group_pat true) (Some t))); [discriminate|].
    destruct (fst (extract1 (group_pat false) (Some t))); [discriminate|].
    auto.
Qed.

End ModeFacts.
Import ModeFacts.

(** X1.  For a text made of a code (G and three digits), an optional
    suffix, optional whitespace, a colon and a rest that holds, after its
    leading whitespace, at least one character and no line feed: with the
    suffix kept the Budget_Code captured is the code with its suffix,
    without it the code alone; in both modes the Budget_Type captured is
    the rest without its leading whitespace. *)
Theorem marker_captures (code sfx w1 rest : pystr) :
  is_g_code code -> sfx = [] \/ is_suffix sfx -> forallb isspace w1 = true ->
  lstrip rest <> [] -> forallb dot (lstrip rest) = true ->
  extract1 (group_pat true) (Some (code ++ sfx ++ w1 ++ 58%N :: rest))
  = (Some (code ++ sfx), Some (lstrip rest)) /\
  extract1 (group_pat false) (Some (code ++ sfx ++ w1 ++ 58%N :: rest))
  = (Some code, Some (lstrip rest)).
Proof.
  intros Hc Hs H1 Hne Hdot.
  destruct (@search_marker true code sfx w1 rest Hc Hs H1 Hne Hdot) as (wt & St).
  destruct (@search_marker false code sfx w1 rest Hc Hs H1 Hne Hdot) as (wf & Sf).
  unfold extract1. rewrite St, Sf. split; reflexivity.
Qed.

Lemma marker_captures_witness :
  extract1 (group_pat true) (Some (u "G501_1 :  Sub A"))
  = (Some (u "G501_1"), Some (u "Sub A")) /\
  extract1 (group_pat false) (Some (u "G501_1 :  Sub A"))
  = (Some (u "G501"), Some (u "Sub A")).
Proof.
  apply (@marker_captures (u "G501") (u "_1") [32%N] (u "  Sub A")).
  - exists 53%N, 48%N, 49%N. repeat split.
  - right. exists (u "1"). repeat split. discriminate.
  - reflexivity.
  - discriminate.
  - reflexivity.
Defined.

Module FlagFacts.

Lemma fold_modes : forall col ct,
  fold_rows false (option_map (firstn 4) (fst ct), snd ct) col
  = map short_code (fold_rows true ct col).
Proof.
  induction col as [|v col IH]; intros ct; [reflexivity|].
  destruct (normalize v) as [t|] eqn:E.
  - destruct (modes_agree v E) as [[Ft Ff] | (code & sfx & ty & Et & Ef & Hlen)].
    + rewrite (@fold_rows_data true ct v t col E Ft).
      rewrite (@fold_rows_data false _ v t col E Ff).
      cbn [map]. rewrite IH. reflexivity.
    + rewrite (@fold_rows_marker true ct v t (code ++ sfx) col E
                 (f_equal fst Et)).
      rewrite (@fold_rows_marker false _ v t code col E (f_equal fst Ef)).
      rewrite Et, Ef. cbn [snd]. rewrite <- IH. cbn [fst snd option_map].
      rewrite firstn_prefix by (symmetry; exact Hlen). reflexivity.
  - rewrite !fold_rows_na by exact E. apply IH.
Qed.

Lemma cols_modes : forall col last,
  col_mask true col = col_mask false col /\
  col_account true col = col_account false col /\
  col_type true last col = col_type false last col.
Proof.
  induction col as [|v col IH]; intros last; [repeat split|].
  destruct (normalize v) as [t|] eqn:E.
  - destruct (modes_agree v E) as [[Ft Ff] | (code & sfx & ty & Et & Ef & Hlen)].
    + destruct (IH last) as (I1 & I2 & I3).
      unfold_cols. rewrite E, Ft, Ff.
      cbn [map fst snd where_ ffill_from select negb isna cell_of_opt].
      rewrite I1, I2, I3. repeat split.
    + destruct (IH (Some ty)) as (I1 & I2 & I3).
      unfold_cols. rewrite E, Et, Ef.
      cbn [map fst snd where_ ffill_from select negb isna cell_of_opt].
      rewrite I1, I2, I3. repeat split.
  - destruct (IH last) as (I1 & I2 & I3).
    unfold_cols. rewrite E.
    cbn [map fst snd where_ ffill_from select negb isna cell_of_opt extract1].
    rewrite I1, I2, I3. repeat split.
Qed.

Lemma has_column_agree n df1 df2 :
  labelled n df1 = labelled n df2 -> has_column n df1 = has_column n df2.
Proof.
  intros H. destruct (has_column n df1) eqn:E1; destruct (has_column n df2) eqn:E2; auto.
  - apply has_column_labelled in E1. rewrite H in E1.
    apply has_column_labelled in E1. congruence.
  - apply has_column_labelled in E2. rewrite <- H in E2.
    apply has_column_labelled in E2. congruence.
Qed.

Lemma agree_refl_set x y df :
  agree (set_column Budget_Code x df) (set_column Budget_Code y df).
Proof. intros name Hne. now rewrite !labelled_set_other. Qed.

Lemma agree_set n v df1 df2 :
  n <> Budget_Code -> agree df1 df2 -> agree (set_column n v df1) (set_column n v df2).
Proof.
  intros Hn H name Hne.
  destruct (list_eq_dec N.eq_dec name n) as [-> | Hd].
  - rewrite !labelled_set_same.
    rewrite (has_column_agree n df1 df2 (H n Hn)), (H n Hn). reflexivity.
  - rewrite !labelled_set_other by exact Hd. auto.
Qed.

Lemma agree_select mask df1 df2 :
  agree df1 df2 -> agree (select_rows mask df1) (select_rows mask df2).
Proof. intros H name Hne. rewrite !labelled_select. now rewrite H. Qed.

Lemma labelled_removed name df : labelled name (remove_columns name df) = [].
Proof.
  unfold labelled, remove_columns. cbn [cols].
  induction (cols df) as [|nc l IH]; simpl; auto.
  destruct (is_label name (fst nc)) eqn:E; simpl; [exact IH|].
  rewrite E. exact IH.
Qed.

Lemma agree_remove n df1 df2 :
  agree df1 df2 -> agree (remove_columns n df1) (remove_columns n df2).
Proof.
  intros H name Hne.
  destruct (list_eq_dec N.eq_dec name n) as [-> | Hd].
  - now rewrite !labelled_removed.
  - rewrite !labelled_drop_other by exact Hd. auto.
Qed.

Lemma agree_project ds df1 df2 :
  agree df1 df2 -> agree (project ds df1) (project ds df2).
Proof. intros H name Hne. rewrite !labelled_project. now rewrite H. Qed.

Lemma nrows_splitted df col : nrows (splitted df col) = nrows df.
Proof. reflexivity. Qed.

End FlagFacts.
Import FlagFacts.

(** X2.  The flag changes the Budget_Code column and nothing else: for the
    same frame the Row Classifier and the Field Splitter return, in the two
    modes, tables with the same rows kept and the same columns under every
    other label, and each Budget_Code without the suffix is the first four
    characters of the Budget_Code with it. *)
Theorem flag_changes_budget_code_only (df : DataFrame) (col : list cell) :
  getitem Budget_Account df = Ok col ->
  exists out_keep out_drop codes,
    bind (classify_and_fill true df) split_fields = Ok out_keep /\
    bind (classify_and_fill false df) split_fields = Ok out_drop /\
    nrows out_keep = nrows out_drop /\
    (forall name, name <> Budget_Code ->
       labelled name out_keep = labelled name out_drop) /\
    col_is Budget_Code (map cell_of_opt codes) out_keep /\
    col_is Budget_Code
      (map (fun c => cell_of_opt (option_map (firstn 4) c)) codes) out_drop.
Proof.
  intros H.
  destruct (@pipeline_table true df col H) as (ot & Pt & Tt & _).
  destruct (@pipeline_table false df col H) as (od & Pd & Td & _).
  exists ot, od, (map r_budget_code (fold_rows true (None, None) col)).
  assert (FM : fold_rows false (None, None) col
               = map short_code (fold_rows true (None, None) col))
    by exact (fold_modes col (None, None)).
  repeat split; try assumption.
  - destruct Tt as [Nt _ _ _ _]. destruct Td as [Nd _ _ _ _].
    rewrite Nt, Nd, FM. now rewrite length_map.
  - rewrite (@classify_and_fill_ok true df col H) in Pt.
    rewrite (@classify_and_fill_ok false df col H) in Pd. cbn [bind] in Pt, Pd.
    rewrite (@split_fields_ok _ _ (@getitem_classified true df col H)) in Pt.
    rewrite (@split_fields_ok _ _ (@getitem_classified false df col H)) in Pd.
    inversion Pt; subst ot. inversion Pd; subst od.
    destruct (cols_modes col None) as (M1 & M2 & M3).
    unfold classified. rewrite <- M1, <- M2, <- M3.
    unfold splitted. generalize (select (col_mask true col) (col_account true col)).
    intros acc. apply agree_project. apply agree_remove.
    apply agree_set; [names_neq|]. apply agree_set; [names_neq|].
    apply agree_select.
    apply agree_set; [names_neq|]. apply agree_set; [names_neq|].
    apply agree_refl_set.
  - destruct Tt as [_ [Hne _] _ _ _]. exact Hne.
  - destruct Tt as [_ [_ Hall] _ _ _]. now rewrite map_map.
  - destruct Td as [_ [Hne _] _ _ _]. exact Hne.
  - destruct Td as [_ [_ Hall] _ _ _]. rewrite FM in Hall.
    rewrite !map_map in *. exact Hall.
Qed.

Lemma flag_changes_budget_code_only_witness :
  exists out_keep out_drop codes,
    bind (classify_and_fill true c1_frame) split_fields = Ok out_keep /\
    bind (classify_and_fill false c1_frame) split_fields = Ok out_drop /\
    nrows out_keep = nrows out_drop /\
    (forall name, name <> Budget_Code ->
       labelled name out_keep = labelled name out_drop) /\
    col_is Budget_Code (map cell_of_opt codes) out_keep /\
    col_is Budget_Code
      (map (fun c => cell_of_opt (option_map (firstn 4) c)) codes) out_drop.
Proof.
  apply (@flag_changes_budget_code_only c1_frame c1_accounts). reflexivity.
Defined.

Module TableFacts.

Lemma fold_rows_app keep : forall pre ctx post,
  exists ctx',
    fold_rows keep ctx (pre ++ post)
    = fold_rows keep ctx pre ++ fold_rows keep ctx' post.
Proof.
  induction pre as [|v pre IH]; intros ctx post; [exists ctx; reflexivity|].
  cbn [app].
  destruct (row_case_of keep v) as [E | t E F | t code E F].
  - rewrite !(@fold_rows_na keep ctx v _ E). apply IH.
  - rewrite !(@fold_rows_data keep ctx v t _ E F).
    destruct (IH ctx post) as (ctx' & ->). exists ctx'. reflexivity.
  - rewrite !(@fold_rows_marker keep ctx v t code _ E F). apply IH.
Qed.

Lemma col_mask_kept keep col : col_mask keep col = kept_mask keep col.
Proof.
  unfold kept_mask. induction col as [|v col IH]; [reflexivity|].
  cbn [map]. rewrite <- IH. clear IH.
  unfold row_is_group, is_marker.
  destruct (row_case_of keep v) as [E | t E F | t code E F];
    unfold_cols; rewrite E; try rewrite F;
    cbn [map fst snd where_ select negb isna cell_of_opt extract1];
    (assert (Hi : isna v = negb match normalize v with Some _ => true | None => false end)
       by (unfold normalize, astype_string; destruct (isna v); reflexivity));
    rewrite Hi, E; reflexivity.
Qed.

Lemma labelled_project_copied name df :
  In name copied -> labelled name (project desired df) = labelled name df.
Proof.
  intros H. rewrite labelled_project.
  simpl in H. repeat (destruct H as [<- | H]; [vm_compute flat_map; apply app_nil_r|]).
  contradiction.
Qed.

Lemma copied_not_computed name :
  In name copied ->
  name <> Budget_Account /\ name <> Budget_Code /\ name <> Budget_Type /\
  name <> Expense_Code /\ name <> Expense_Detail.
Proof.
  intros H. simpl in H.
  repeat (destruct H as [<- | H]; [repeat split; names_neq|]). contradiction.
Qed.

Lemma columns_project ds df :
  columns (project ds df)
  = map Some (flat_map (fun d => repeat d (length (labelled d df))) ds).
Proof.
  unfold project, columns. cbn [cols].
  assert (One : forall d,
             map fst (filter (fun nc => is_label d (fst nc)) (cols df))
             = repeat (Some d) (length (labelled d df))).
  { intros d. unfold labelled. induction (cols df) as [|nc l IH]; simpl; auto.
    destruct (is_label d (fst nc)) eqn:E; simpl; [|exact IH].
    apply is_label_eq in E. rewrite E. now rewrite IH. }
  induction ds as [|d ds IH]; simpl; auto.
  destruct (has_column d df) eqn:E; simpl.
  - rewrite !map_app, IH, One, map_repeat. reflexivity.
  - rewrite IH.
    replace (labelled d df) with (@nil (list cell)); [reflexivity|].
    destruct (labelled d df) eqn:L; auto.
    assert (has_column d df = true) by (apply has_column_labelled; rewrite L; discriminate).
    congruence.
Qed.

Lemma length_labelled_set name n v df :
  length (labelled name (set_column n v df))
  = if pystr_eqb name n then Nat.max 1 (length (labelled name df))
    else length (labelled name df).
Proof.
  destruct (pystr_eqb name n) eqn:E.
  - apply pystr_eqb_eq in E. subst n. rewrite labelled_set_same.
    destruct (has_column name df) eqn:Hc.
    + rewrite length_map. apply has_column_labelled in Hc.
      destruct (labelled name df); [contradiction | simpl; lia].
    + replace (labelled name df) with (@nil (list cell)); [reflexivity|].
      destruct (labelled name df) eqn:L; auto.
      assert (has_column name df = true)
        by (apply has_column_labelled; rewrite L; discriminate).
      congruence.
  - rewrite labelled_set_other; [reflexivity|].
    intros ->. rewrite pystr_eqb_refl in E. discriminate.
Qed.

Lemma length_final d keep col df e c :
  d <> Budget_Account ->
  length (labelled d
            (remove_columns Budget_Account
               (set_column Expense_Detail e
                  (set_column Expense_Code c (classified keep col df)))))
  = width df d.
Proof.
  intros Hd. rewrite labelled_drop_other by exact Hd.
  rewrite !length_labelled_set. unfold classified.
  rewrite labelled_select, length_map, !length_labelled_set.
  rewrite (pystr_eqb_neq Hd).
  unfold width, derived. cbn [existsb].
  destruct (pystr_eqb d Expense_Detail), (pystr_eqb d Expense_Code),
    (pystr_eqb d Budget_Type), (pystr_eqb d Budget_Code); cbn [orb]; lia.
Qed.

Lemma in_flat_repeat (k : pystr -> nat) name ds :
  In name (flat_map (fun d => repeat d (k d)) ds) -> In name ds.
Proof.
  intros H. apply in_flat_map in H as (d & Hd & Hr).
  apply repeat_spec in Hr. now subst.
Qed.

End TableFacts.
Import TableFacts.

(** X3.  The rows between a marker and the next one carry that marker's
    captured code and type, whatever came before it, earlier markers
    included; the marker itself gives no row. *)
Theorem rows_after_marker
  (keep : bool) (df : DataFrame) (pre : list cell) (v : cell) (t code ty : pystr)
  (data : list cell) :
  getitem Budget_Account df = Ok (pre ++ v :: data) ->
  normalize v = Some t ->
  extract1 (group_pat keep) (Some t) = (Some code, Some ty) ->
  forallb (fun x => negb (row_is_group keep x)) data = true ->
  exists out,
    bind (classify_and_fill keep df) split_fields = Ok out /\
    let head := fold_rows keep (None, None) pre in
    let n := length (data_texts data) in
    nrows out = length head + n /\
    col_is Budget_Code
      (map (fun r => cell_of_opt (r_budget_code r)) head ++ repeat (CStr code) n) out /\
    col_is Budget_Type
      (map (fun r => cell_of_opt (r_budget_type r)) head ++ repeat (CStr ty) n) out /\
    col_is Expense_Code
      (map (fun r => cell_of_opt (r_expense_code r)) head
       ++ map (fun x => cell_of_opt (expense_code (Some (strip x)))) (data_texts data))
      out.
Proof.
  intros Hg Hn He Hd.
  destruct (@pipeline_table keep df _ Hg) as (out & Ho & [Tn Tc Tt Te _] & _).
  exists out. split; [exact Ho|].
  destruct (fold_rows_app keep pre (None, None) (v :: data)) as (ctx' & Ef).
  assert (Em : fold_rows keep ctx' (v :: data)
               = map (data_row (Some code, Some ty)) (data_texts data)).
  { rewrite (@fold_rows_marker keep ctx' v t code data Hn (f_equal fst He)).
    rewrite He. cbn [snd].
    rewrite <- (app_nil_r data) at 1.
    rewrite fold_rows_no_marker by exact Hd. apply app_nil_r. }
  rewrite Ef, Em in *. clear Ef Em.
  rewrite length_app, !map_app, !map_map, length_map in *.
  cbn [data_row r_budget_code r_budget_type r_expense_code fst snd cell_of_opt] in *.
  rewrite !map_const in *.
  cbv zeta. auto.
Qed.

Lemma rows_after_marker_witness :
  exists out,
    bind (classify_and_fill true c1_frame) split_fields = Ok out /\
    let head := fold_rows true (None, None)
                  (map CStr [u "G501: Group A"; u "511 item one"; u "512 item two"]) in
    let n := length (data_texts [CStr (u "521 item three")]) in
    nrows out = length head + n /\
    col_is Budget_Code
      (map (fun r => cell_of_opt (r_budget_code r)) head ++ repeat (CStr (u "G502")) n)
      out /\
    col_is Budget_Type
      (map (fun r => cell_of_opt (r_budget_type r)) head
       ++ repeat (CStr (u "Group B")) n) out /\
    col_is Expense_Code
      (map (fun r => cell_of_opt (r_expense_code r)) head
       ++ map (fun x => cell_of_opt (expense_code (Some (strip x))))
              (data_texts [CStr (u "521 item three")]))
      out.
Proof.
  apply (@rows_after_marker true c1_frame
           (map CStr [u "G501: Group A"; u "511 item one"; u "512 item two"])
           (CStr (u "G502: Group B")) (u "G502: Group B") (u "G502") (u "Group B")
           [CStr (u "521 item three")]);
    reflexivity.
Defined.

(** X4.  A row is kept exactly when its account cell is not missing and is
    no marker, and the columns the program does not compute (Year and the
    five renamed amounts) come out with the cells of the kept rows, in
    order and unchanged. *)
Theorem kept_rows_copied
  (keep : bool) (df : DataFrame) (col : list cell) (name : pystr) :
  getitem Budget_Account df = Ok col ->
  In name copied ->
  exists out,
    bind (classify_and_fill keep df) split_fields = Ok out /\
    nrows out = count_true (kept_mask keep col) /\
    labelled name out = map (select (kept_mask keep col)) (labelled name df).
Proof.
  intros Hg Hin.
  rewrite (@classify_and_fill_ok keep df col Hg). cbn [bind].
  rewrite (@split_fields_ok _ _ (@getitem_classified keep df col Hg)).
  eexists. split; [reflexivity|].
  destruct (@copied_not_computed name Hin) as (N1 & N2 & N3 & N4 & N5).
  rewrite <- col_mask_kept. split; [reflexivity|].
  unfold splitted. rewrite labelled_project_copied by exact Hin.
  rewrite labelled_drop_other by exact N1.
  rewrite !labelled_set_other by assumption.
  unfold classified. rewrite labelled_select.
  rewrite !labelled_set_other by assumption. reflexivity.
Qed.

Lemma kept_rows_copied_witness :
  exists out,
    bind (classify_and_fill true c1_frame) split_fields = Ok out /\
    nrows out = 3 /\
    labelled (u "Budget") out = [[CInt 100; CInt 200; CInt 300]].
Proof.
  apply (@kept_rows_copied true c1_frame c1_accounts (u "Budget")).
  - reflexivity.
  - right. left. reflexivity.
Defined.

(** X5.  The labels of the table returned are labels of [desired], in the
    order of [desired]: a computed label (Budget_Code, Budget_Type,
    Expense_Code, Expense_Detail) once, or as many times as the frame had it;
    any other label of [desired] as many times as the frame had it.
    Budget_Account and every label outside [desired] are gone. *)
Theorem output_columns (keep : bool) (df : DataFrame) (col : list cell) :
  getitem Budget_Account df = Ok col ->
  exists out,
    bind (classify_and_fill keep df) split_fields = Ok out /\
    columns out = map Some (flat_map (fun d => repeat d (width df d)) desired) /\
    has_column Budget_Account out = false /\
    (forall l, In l (columns out) -> exists name, l = Some name /\ In name desired).
Proof.
  intros Hg.
  rewrite (@classify_and_fill_ok keep df col Hg). cbn [bind].
  rewrite (@split_fields_ok _ _ (@getitem_classified keep df col Hg)).
  eexists. split; [reflexivity|].
  assert (Hc : columns (splitted (classified keep col df)
                          (select (col_mask keep col) (col_account keep col)))
               = map Some (flat_map (fun d => repeat d (width df d)) desired)).
  { unfold splitted. rewrite columns_project.
    unfold desired. cbn [flat_map].
    rewrite !length_final by names_neq. reflexivity. }
  rewrite Hc.
  assert (Hin : forall l,
            In l (map Some (flat_map (fun d => repeat d (width df d)) desired)) ->
            exists name, l = Some name /\ In name desired).
  { intros l Hl. apply in_map_iff in Hl as (name & <- & Hn).
    exists name. split; [reflexivity|]. eapply in_flat_repeat; exact Hn. }
  split; [reflexivity|]. split; [|exact Hin].
  unfold has_column. rewrite Hc.
  destruct (existsb _ _) eqn:E; [|reflexivity].
  apply existsb_exists in E as (x & Hx & Ex).
  apply is_label_eq in Ex. subst x. apply Hin in Hx as (name & Hs & Hx).
  injection Hs as <-.
  exfalso. simpl in Hx.
  repeat (destruct Hx as [Hx | Hx]; [vm_compute in Hx; discriminate|]).
  exact Hx.
Qed.

Lemma output_columns_witness :
  exists out,
    bind (classify_and_fill true c1_frame) split_fields = Ok out /\
    columns out
    = map Some [Budget_Code; Budget_Type; Expense_Code; Expense_Detail; u "Budget"] /\
    has_column Budget_Account out = false /\
    (forall l, In l (columns out) -> exists name, l = Some name /\ In name desired).
Proof.
  apply (@output_columns true c1_frame c1_accounts). reflexivity.
Defined.

Module LayoutFacts.

Lemma strip_idempotent s : strip (strip s) = strip s.
Proof.
  destruct (strip s) as [|c w] eqn:E; [reflexivity|].
  pose proof (strip_head _ E) as Hc.
  assert (Hne : c :: w <> []) by discriminate.
  destruct (exists_last Hne) as (w' & d & Ew).
  assert (Hd : isspace d = false) by (eapply strip_last; rewrite E; exact Ew).
  unfold strip at 1. rewrite lstrip_nonspace by exact Hc.
  rewrite Ew. now apply rstrip_id.
Qed.

Lemma select_from k : forall n a (l : list cell),
  length l = n ->
  select (map (fun i => k <=? i) (seq a n)) l = skipn (k - a) l.
Proof.
  induction n as [|n IH]; intros a l Hl.
  - destruct l; [|discriminate]. now destruct (k - a).
  - destruct l as [|x l]; [discriminate|]. injection Hl as Hl.
    cbn [seq map select]. rewrite (IH (S a) l Hl).
    destruct (Nat.leb_spec k a) as [Hle | Hgt].
    + replace (k - a) with 0 by lia. replace (k - S a) with 0 by lia. reflexivity.
    + replace (k - a) with (S (k - S a)) by lia. reflexivity.
Qed.

Lemma select_0_8 n (l : list cell) :
  length l = n -> select (keep_mask (seq 0 9) n) l = skipn 9 l.
Proof.
  intros Hl. unfold keep_mask.
  rewrite (map_ext _ (fun i => 9 <=? i)) by (intros; apply keep_0_8).
  now rewrite select_from.
Qed.

Lemma select_all_true : forall (mask : list bool) (l : list cell),
  forallb (fun b => b) mask = true -> length mask = length l -> select mask l = l.
Proof.
  induction mask as [|b mask IH]; intros l Hm Hl.
  - destruct l; [reflexivity | discriminate].
  - destruct l as [|x l]; [discriminate|]. simpl in *.
    apply andb_true_iff in Hm as [-> Hm]. f_equal. apply IH; auto.
Qed.

Lemma keep_1_tail a n :
  2 <= a ->
  forallb (fun b => b) (map (fun i => negb (existsb (Nat.eqb i) [1])) (seq a n)) = true.
Proof.
  intros Ha. apply forallb_forall. intros b Hb.
  apply in_map_iff in Hb as (i & <- & Hi). apply in_seq in Hi.
  simpl. destruct (Nat.eqb_spec i 1); [lia | reflexivity].
Qed.

(** Dropping the label 1 removes the second row, if there is one. *)
Lemma select_1 n (l : list cell) :
  length l = n ->
  select (keep_mask [1] n) l = drop_second l.
Proof.
  intros Hl. unfold keep_mask.
  destruct l as [|x [|y r]]; subst n; [reflexivity | reflexivity |].
  cbn [length seq map select existsb Nat.eqb orb negb drop_second].
  f_equal. apply select_all_true.
  - now apply keep_1_tail.
  - now rewrite length_map, length_seq.
Qed.

Lemma count_keep_1_exact n :
  count_true (keep_mask [1] n) = match n with S (S m) => S m | _ => n end.
Proof.
  unfold keep_mask, count_true. destruct n as [|[|m]]; [reflexivity | reflexivity |].
  cbn [seq map existsb Nat.eqb orb negb filter length]. f_equal.
  assert (H := keep_1_tail m (le_n 2)).
  assert (G : forall mask, forallb (fun b : bool => b) mask = true ->
                           length (filter (fun b : bool => b) mask) = length mask).
  { induction mask as [|b mask IH]; simpl; auto.
    intros Hb. apply andb_true_iff in Hb as [-> Hb]. simpl. now rewrite IH. }
  rewrite G by exact H. now rewrite length_map, length_seq.
Qed.

Lemma hd_skipn (d : cell) : forall k l, hd d (skipn k l) = nth k l d.
Proof.
  induction k as [|k IH]; intros l; destruct l; simpl; auto.
Qed.

Lemma combine_map {A B C} (f : A -> B) (g : A -> C) (l : list A) :
  combine (map f l) (map g l) = map (fun x => (f x, g x)) l.
Proof. induction l; simpl; congruence. Qed.

(** The second trim of the labels changes none of them. *)
Lemma header_label_strip v : option_map strip (header_label v) = header_label v.
Proof.
  unfold header_label. destruct (isna v); [reflexivity|].
  cbn [option_map]. now rewrite strip_idempotent.
Qed.

Lemma set_header_layout raw :
  raw_wf raw -> 10 <= raw_nrows raw -> set_header raw = Ok (header_frame raw).
Proof.
  intros Hwf Hn. unfold set_header. cbn [drop_index raw_nrows raw_cols].
  rewrite count_keep_0_8, count_keep_1_exact.
  assert (Hcol : forall col, In col (raw_cols raw) ->
            select (keep_mask [1] (raw_nrows raw - 9))
                   (select (keep_mask (seq 0 9) (raw_nrows raw)) col)
            = drop_second (skipn 9 col)).
  { intros col Hc. unfold raw_wf in Hwf. rewrite Forall_forall in Hwf.
    rewrite select_0_8 by (now apply Hwf).
    apply select_1. rewrite length_skipn, (Hwf col Hc). reflexivity. }
  assert (Hmap : map (select (keep_mask [1] (raw_nrows raw - 9)))
                   (map (select (keep_mask (seq 0 9) (raw_nrows raw))) (raw_cols raw))
                 = map (fun col => drop_second (skipn 9 col)) (raw_cols raw)).
  { rewrite map_map. apply map_ext_in. exact Hcol. }
  rewrite Hmap. clear Hmap Hcol.
  destruct (raw_nrows raw - 9) as [|[|m]] eqn:E; [lia | |].
  - unfold header_frame. replace (raw_nrows raw - 11) with 0 by lia.
    f_equal. f_equal. rewrite !map_map, combine_map.
    apply map_ext_in. intros col Hc.
    unfold raw_wf in Hwf. rewrite Forall_forall in Hwf. specialize (Hwf col Hc).
    rewrite header_label_strip, <- hd_skipn.
    replace (skipn 11 col) with (skipn 2 (skipn 9 col)) by (now rewrite skipn_skipn).
    destruct (skipn 9 col) as [|x [|y r]]; reflexivity.
  - unfold header_frame. replace (raw_nrows raw - 11) with m by lia.
    f_equal. f_equal. rewrite !map_map, combine_map.
    apply map_ext_in. intros col Hc.
    rewrite header_label_strip, <- hd_skipn.
    replace (skipn 11 col) with (skipn 2 (skipn 9 col)) by (now rewrite skipn_skipn).
    destruct (skipn 9 col) as [|x [|y r]]; reflexivity.
Qed.

End LayoutFacts.
Import LayoutFacts.

(** X6.  On a sheet of ten rows or more the Header Normalizer takes its
    labels from row 9 and its data from the rows 11 on; the rows 0..8 and the
    row 10 have no part in the frame.  A blank cell of row 9 leaves its
    column with the missing value as label, which no renaming changes; any
    other cell gives its text, trimmed once (the second trim of the program
    changes nothing) and renamed.  The Year is one more column, or replaces
    the columns so labelled. *)
Theorem header_layout (raw : RawSheet) (year : pystr) :
  raw_wf raw -> 10 <= raw_nrows raw ->
  normalize_header raw year
  = Ok (rename RENAME_MAP
          (set_column Year (repeat (CStr year) (raw_nrows raw - 11))
             (header_frame raw))).
Proof.
  intros Hwf Hn. unfold normalize_header.
  rewrite (set_header_layout Hwf Hn). reflexivity.
Qed.

Lemma header_layout_witness :
  normalize_header blank_header_sheet (u "2025")
  = Ok {| nrows := 1;
          cols := [ (Some Budget_Account, [CStr (u "511 item one")]);
                    (None, [CInt 5]);
                    (Some (u "7"), [CInt 6]);
                    (Some Year, [CStr (u "2025")]) ] |}.
Proof.
  apply (@header_layout blank_header_sheet (u "2025")).
  - repeat constructor.
  - apply Nat.leb_le. reflexivity.
Defined.

Module OutcomeFacts.

Lemma pystr_eqb_sym a b : pystr_eqb a b = pystr_eqb b a.
Proof.
  destruct (pystr_eqb b a) eqn:E.
  - apply pystr_eqb_eq in E. subst. apply pystr_eqb_refl.
  - destruct (pystr_eqb a b) eqn:F; [|reflexivity].
    apply pystr_eqb_eq in F. subst. now rewrite pystr_eqb_refl in E.
Qed.

(** The labels that the renaming turns into Budget_Account. *)
Lemma account_label n :
  pystr_eqb Budget_Account (rename_label RENAME_MAP n) = is_account_header n.
Proof.
  unfold rename_label, RENAME_MAP, is_account_header. cbn [dict_get].
  repeat match goal with
         | |- context [pystr_eqb n ?k] =>
             lazymatch k with
             | Budget_Account => fail
             | _ => destruct (pystr_eqb n k) eqn:?E
             end
         end;
    try (match goal with
         | H : pystr_eqb n _ = true |- _ => apply pystr_eqb_eq in H; subst n
         end; vm_compute; reflexivity).
  cbn [orb]. apply pystr_eqb_sym.
Qed.

(** A blank header cell names no account column, as a label or as a text. *)
Lemma account_header_label v :
  is_account_label (header_label v) = is_account_header (strip (str_of_cell v)).
Proof. destruct v; reflexivity. Qed.

Lemma labelled_rename_account df :
  labelled Budget_Account (rename RENAME_MAP df)
  = map snd (filter (fun nc => is_account_label (fst nc)) (cols df)).
Proof.
  unfold labelled, rename. cbn [cols].
  induction (cols df) as [|[[n|] vals] l IH]; [reflexivity | | exact IH].
  cbn [map filter fst snd option_map is_label is_account_label].
  rewrite account_label. destruct (is_account_header n); cbn [map snd]; congruence.
Qed.

Lemma filter_set_other (p : label -> bool) name vals df :
  p (Some name) = false ->
  map snd (filter (fun nc => p (fst nc)) (cols (set_column name vals df)))
  = map snd (filter (fun nc => p (fst nc)) (cols df)).
Proof.
  intros Hp. unfold set_column. cbn [cols].
  destruct (has_column name df).
  - induction (cols df) as [|nc l IH]; simpl; auto.
    destruct (is_label name (fst nc)) eqn:E.
    + apply is_label_eq in E. cbn [fst]. rewrite E, Hp. exact IH.
    + destruct (p (fst nc)); simpl; congruence.
  - rewrite filter_app. cbn [filter fst]. rewrite Hp. now rewrite app_nil_r.
Qed.

Lemma labelled_account_header raw vals :
  labelled Budget_Account
    (rename RENAME_MAP (set_column Year vals (header_frame raw)))
  = map (skipn 11) (account_columns raw).
Proof.
  rewrite labelled_rename_account.
  rewrite (@filter_set_other is_account_label Year vals (header_frame raw))
    by reflexivity.
  unfold header_frame, account_columns. cbn [cols].
  induction (raw_cols raw) as [|col l IH]; [reflexivity|].
  cbn [map filter fst]. rewrite account_header_label.
  destruct (is_account_header _); cbn [map snd]; congruence.
Qed.

(** The result of a conversion, by the number of rows and of account
    columns of the sheet. *)
Lemma convert_budget_cases raw keep :
  raw_wf raw -> 10 <= raw_nrows raw ->
  let df := rename RENAME_MAP
              (set_column Year
                 (repeat (CStr (extract_year_spec raw)) (raw_nrows raw - 11))
                 (header_frame raw)) in
  convert_budget raw keep =
  match account_columns raw with
  | [] => Raise (KeyError missing_column_msg)
  | [c] => Ok (splitted (classified keep (skipn 11 c) df)
                 (select (col_mask keep (skipn 11 c))
                         (col_account keep (skipn 11 c))))
  | _ => Raise AttributeError
  end.
Proof.
  intros Hwf Hn df.
  assert (Hh : normalize_header raw (extract_year_spec raw) = Ok df).
  { unfold normalize_header. rewrite (set_header_layout Hwf Hn). reflexivity. }
  rewrite (@convert_budget_eq raw keep _ df (extract_year_refines Hwf) Hh).
  rewrite getitem_alt.
  pose proof (has_column_labelled Budget_Account df) as Hc.
  assert (Hl : labelled Budget_Account df = map (skipn 11) (account_columns raw))
    by apply labelled_account_header.
  rewrite Hl in *.
  destruct (account_columns raw) as [|c [|c' l]]; cbn [map] in *.
  - destruct (has_column Budget_Account df); [|reflexivity].
    exfalso. now apply (proj1 Hc).
  - replace (has_column Budget_Account df) with true; [reflexivity|].
    symmetry. apply Hc. discriminate.
  - replace (has_column Budget_Account df) with true; [reflexivity|].
    symmetry. apply Hc. discriminate.
Qed.

Lemma convert_budget_short raw keep :
  raw_wf raw -> raw_nrows raw <= 9 -> convert_budget raw keep = Raise IndexError.
Proof.
  intros Hwf Hle.
  pose proof (normalize_header_nrows raw (extract_year_spec raw)) as H.
  replace (raw_nrows raw <=? 9) with true in H by (symmetry; now apply Nat.leb_le).
  unfold convert_budget. rewrite (extract_year_refines Hwf). cbn [bind].
  rewrite H. reflexivity.
Qed.

End OutcomeFacts.
Import OutcomeFacts.

(** X7.  What a conversion of a well-formed sheet ends in depends on two
    numbers only, the rows of the sheet and the columns whose header cell
    (row 9), trimmed, is the Thai account label or Budget_Account: it returns
    a table exactly with ten rows or more and one such column; it raises
    IndexError exactly below ten rows, the KeyError of the program exactly
    with ten rows or more and no such column, and AttributeError exactly with
    ten rows or more and several such columns.  The flag has no part in it. *)
Theorem conversion_outcomes (raw : RawSheet) (keep : bool) :
  raw_wf raw ->
  match convert_budget raw keep with
  | Ok _ => 10 <= raw_nrows raw /\ length (account_columns raw) = 1
  | Raise IndexError => raw_nrows raw < 10
  | Raise (KeyError msg) =>
      msg = missing_column_msg /\ 10 <= raw_nrows raw /\ account_columns raw = []
  | Raise AttributeError =>
      10 <= raw_nrows raw /\ 2 <= length (account_columns raw)
  end.
Proof.
  intros Hwf.
  destruct (Nat.leb_spec (raw_nrows raw) 9) as [Hle | Hgt].
  - rewrite (@convert_budget_short raw keep Hwf Hle). lia.
  - rewrite (@convert_budget_cases raw keep Hwf Hgt).
    destruct (account_columns raw) as [|c [|c' l]]; cbn [length].
    + repeat split; auto.
    + split; [exact Hgt | reflexivity].
    + split; [exact Hgt | lia].
Qed.

Lemma conversion_outcomes_witness :
  match convert_budget budget_sheet true with
  | Ok _ => 10 <= raw_nrows budget_sheet /\ length (account_columns budget_sheet) = 1
  | Raise IndexError => raw_nrows budget_sheet < 10
  | Raise (KeyError msg) =>
      msg = missing_column_msg /\ 10 <= raw_nrows budget_sheet /\
      account_columns budget_sheet = []
  | Raise AttributeError =>
      10 <= raw_nrows budget_sheet /\ 2 <= length (account_columns budget_sheet)
  end.
Proof.
  apply (@conversion_outcomes budget_sheet true). repeat constructor.
Defined.

Module ShapeFacts.

Lemma length_where : forall (s : sseries) mask,
  length (where_ s mask) = Nat.min (length s) (length mask).
Proof.
  induction s as [|x s IH]; intros [|b mask]; simpl; auto.
Qed.

Lemma length_ffill_from : forall (s : sseries) last,
  length (ffill_from last s) = length s.
Proof.
  induction s as [|[v|] s IH]; intros last; simpl; auto.
Qed.

Lemma length_col_code keep last col : length (col_code keep last col) = length col.
Proof.
  unfold col_code, col_is_group, col_m, extract, notna, col_s. cbn [fst].
  rewrite length_ffill_from, length_where, !length_map. lia.
Qed.

Lemma length_col_type keep last col : length (col_type keep last col) = length col.
Proof.
  unfold col_type, col_is_group, col_m, extract, notna, col_s. cbn [fst snd].
  rewrite length_ffill_from, length_where, !length_map. lia.
Qed.

Lemma length_col_account keep col : length (col_account keep col) = length col.
Proof.
  unfold col_account, col_is_group, col_m, extract, notna, col_s. cbn [fst].
  rewrite length_map, length_where, !length_map. lia.
Qed.

Lemma length_col_mask keep col : length (col_mask keep col) = length col.
Proof. unfold col_mask. now rewrite length_map, length_col_account. Qed.

Lemma length_select {A} : forall (mask : list bool) (l : list A),
  length mask = length l -> length (select mask l) = count_true mask.
Proof.
  unfold count_true.
  induction mask as [|b mask IH]; intros [|x l] H; try discriminate; [reflexivity|].
  injection H as H. simpl. destruct b; simpl; rewrite IH; auto.
Qed.

Lemma count_true_le mask : count_true mask <= length mask.
Proof. apply filter_length_le. Qed.

Lemma wf_header_frame raw : raw_wf raw -> df_wf (header_frame raw).
Proof.
  unfold raw_wf, df_wf, header_frame. cbn [cols nrows].
  rewrite !Forall_forall. intros H nc Hin.
  apply in_map_iff in Hin as (col & <- & Hc). cbn [snd].
  rewrite length_skipn, (H col Hc). reflexivity.
Qed.

Lemma wf_set_column name vals df :
  df_wf df -> length vals = nrows df -> df_wf (set_column name vals df).
Proof.
  unfold df_wf, set_column. cbn [cols nrows]. intros H Hv.
  destruct (has_column name df).
  - rewrite Forall_forall in *. intros nc Hin.
    apply in_map_iff in Hin as (nc' & <- & Hc).
    destruct (is_label name (fst nc')); [exact Hv | now apply H].
  - apply Forall_app. split; [exact H | now constructor].
Qed.

Lemma wf_rename d df : df_wf df -> df_wf (rename d df).
Proof.
  unfold df_wf, rename. cbn [cols nrows]. rewrite !Forall_forall.
  intros H nc Hin. apply in_map_iff in Hin as (nc' & <- & Hc). cbn [snd].
  now apply H.
Qed.

Lemma wf_select_rows mask df :
  df_wf df -> length mask = nrows df -> df_wf (select_rows mask df).
Proof.
  unfold df_wf, select_rows. cbn [cols nrows]. rewrite !Forall_forall.
  intros H Hm nc Hin. apply in_map_iff in Hin as (nc' & <- & Hc). cbn [snd].
  apply length_select. rewrite Hm. symmetry. now apply H.
Qed.

Lemma wf_remove_columns name df : df_wf df -> df_wf (remove_columns name df).
Proof.
  unfold df_wf, remove_columns. cbn [cols nrows]. rewrite !Forall_forall.
  intros H nc Hin. apply filter_In in Hin as [Hin _]. now apply H.
Qed.

Lemma wf_project ds df : df_wf df -> df_wf (project ds df).
Proof.
  unfold df_wf, project. cbn [cols nrows]. rewrite !Forall_forall.
  intros H nc Hin. apply in_flat_map in Hin as (d & _ & Hin).
  apply filter_In in Hin as [Hin _]. now apply H.
Qed.

Lemma wf_classified keep col df :
  df_wf df -> length col = nrows df -> df_wf (classified keep col df).
Proof.
  intros H Hc. unfold classified.
  apply wf_select_rows; [|now rewrite length_col_mask].
  apply wf_set_column; [|now rewrite length_col_account].
  apply wf_set_column; [|now rewrite length_map, length_col_type].
  apply wf_set_column; [exact H | now rewrite length_map, length_col_code].
Qed.

Lemma wf_splitted df col :
  df_wf df -> length col = nrows df -> df_wf (splitted df col).
Proof.
  intros H Hc. unfold splitted.
  apply wf_project, wf_remove_columns.
  apply wf_set_column; [|now rewrite !length_map].
  apply wf_set_column; [exact H | now rewrite !length_map].
Qed.

End ShapeFacts.
Import ShapeFacts.

(** X8.  The table of a conversion of a well-formed sheet is rectangular,
    every column has one cell for each of its rows, and it has no more rows
    than the sheet has below its row 10. *)
Theorem output_rectangular (raw : RawSheet) (keep : bool) (out : DataFrame) :
  raw_wf raw -> convert_budget raw keep = Ok out ->
  df_wf out /\ nrows out <= raw_nrows raw - 11.
Proof.
  intros Hwf H.
  destruct (Nat.leb_spec (raw_nrows raw) 9) as [Hle | Hgt].
  { rewrite (@convert_budget_short raw keep Hwf Hle) in H. discriminate. }
  rewrite (@convert_budget_cases raw keep Hwf Hgt) in H.
  destruct (account_columns raw) as [|c [|c' l]] eqn:E; try discriminate.
  assert (Hc : length (skipn 11 c) = raw_nrows raw - 11).
  { assert (Hin : In c (account_columns raw)) by (rewrite E; now left).
    apply filter_In in Hin as [Hin _].
    unfold raw_wf in Hwf. rewrite Forall_forall in Hwf.
    now rewrite length_skipn, (Hwf c Hin). }
  injection H as <-. split.
  - apply wf_splitted.
    + apply wf_classified; [|exact Hc].
      apply wf_rename, wf_set_column; [now apply wf_header_frame|].
      now rewrite repeat_length.
    + rewrite length_select by (now rewrite length_col_mask, length_col_account).
      reflexivity.
  - rewrite nrows_splitted. unfold classified, select_rows. cbn [nrows].
    rewrite <- Hc, <- (length_col_mask keep (skipn 11 c)). apply count_true_le.
Qed.

Lemma output_rectangular_witness :
  exists out,
    convert_budget budget_sheet true = Ok out /\
    df_wf out /\ nrows out <= raw_nrows budget_sheet - 11.
Proof.
  eexists. split; [reflexivity|].
  apply (@output_rectangular budget_sheet true _).
  - repeat constructor.
  - reflexivity.
Defined.

Module TokenFacts.

(** The year pattern matches at a position when the four characters there
    read as a year; the match is these four characters. *)
Lemma year_at pos s :
  rmatch (Grp 0 year_pat) pos s [] accept
  = if year_shapeb (firstn 4 s) then Some [(0, firstn 4 s); (1, firstn 2 s)]
    else None.
Proof.
  unfold year_pat.
  change (u "19") with [49%N; 57%N]. change (u "20") with [50%N; 48%N].
  cbn [rmatch Lit]. unfold lit, accept.
  destruct s as [|a [|b [|c [|d rest]]]]; cbn [firstn year_shapeb].
  - reflexivity.
  - destruct (a =? 49)%N, (a =? 50)%N; reflexivity.
  - replace (S (S pos) - pos) with 2 by lia. cbn [firstn].
    destruct (a =? 49)%N, (b =? 57)%N, (a =? 50)%N, (b =? 48)%N; reflexivity.
  - replace (S (S pos) - pos) with 2 by lia. cbn [firstn].
    destruct (a =? 49)%N, (b =? 57)%N, (a =? 50)%N, (b =? 48)%N;
      cbn [andb orb]; destruct (isdecimal c); reflexivity.
  - replace (S (S pos) - pos) with 2 by lia.
    replace (S (S (S (S pos))) - pos) with 4 by lia. cbn [firstn].
    destruct (a =? 49)%N, (b =? 57)%N, (a =? 50)%N, (b =? 48)%N;
      cbn [andb orb]; destruct (isdecimal c), (isdecimal d); reflexivity.
Qed.

Lemma search_from_leftmost : forall s pos,
  match search_from year_pat pos s with
  | Some m => match group 0 m with Some w => w | None => [] end
  | None => []
  end = leftmost_year s.
Proof.
  induction s as [|c s IH]; intros pos.
  - cbn [search_from]. rewrite year_at. reflexivity.
  - cbn [search_from leftmost_year]. rewrite year_at.
    destruct (year_shapeb (firstn 4 (c :: s))); [reflexivity|]. apply IH.
Qed.

Lemma leftmost_year_cases : forall s,
  (leftmost_year s = [] /\
   forall i, year_shapeb (firstn 4 (skipn i s)) = false) \/
  (exists pre y post,
     s = pre ++ y ++ post /\ year_shape y /\
     (forall i, i < length pre -> year_shapeb (firstn 4 (skipn i s)) = false) /\
     leftmost_year s = y).
Proof.
  induction s as [|c s IH].
  - left. split; [reflexivity|]. intros i. now destruct i.
  - cbn [leftmost_year].
    destruct (year_shapeb (firstn 4 (c :: s))) eqn:E.
    + right. exists [], (firstn 4 (c :: s)), (skipn 4 (c :: s)).
      split; [symmetry; apply firstn_skipn|].
      split; [now apply year_shapeb_shape|].
      split; [|reflexivity]. intros i Hi. inversion Hi.
    + destruct IH as [[H0 Hall] | (pre & y & post & -> & Hy & Hpre & Hl)].
      * left. split; [exact H0|]. intros [|i]; [exact E | apply Hall].
      * right. exists (c :: pre), y, post.
        split; [reflexivity|]. split; [exact Hy|]. split; [|exact Hl].
        intros [|i] Hi; [exact E|]. apply Hpre. simpl in Hi. lia.
Qed.

End TokenFacts.
Import TokenFacts.

(** X9.  What a text cell yields as a year: the leftmost four characters of
    the text that read [19dd] or [20dd], wherever they stand (inside a longer
    run of digits as well), and the empty string exactly when no four
    consecutive characters of the text read so. *)
Theorem year_token_leftmost (s : pystr) :
  (extract_year_from_value (CStr s) = [] /\
   forall i, year_shapeb (firstn 4 (skipn i s)) = false) \/
  (exists pre y post,
     s = pre ++ y ++ post /\ year_shape y /\
     (forall i, i < length pre -> year_shapeb (firstn 4 (skipn i s)) = false) /\
     extract_year_from_value (CStr s) = y).
Proof.
  assert (E : extract_year_from_value (CStr s) = leftmost_year s)
    by apply (search_from_leftmost s 0).
  rewrite E. apply leftmost_year_cases.
Qed.

Module RegionFacts.

Lemma cell_at_crop raw r c :
  r < 25 -> c < 6 -> cell_at (crop raw) r c = cell_at raw r c.
Proof.
  intros Hr Hc. unfold cell_at, crop. cbn [raw_cols].
  rewrite nth_error_map, nth_error_firstn.
  replace (c <? 6) with true by (symmetry; now apply Nat.ltb_lt).
  destruct (nth_error (raw_cols raw) c) as [col|]; [|reflexivity].
  cbn [option_map]. rewrite nth_error_firstn.
  replace (r <? 25) with true by (symmetry; now apply Nat.ltb_lt). reflexivity.
Qed.

Lemma flat_map_ext_in {A B} (f g : A -> list B) l :
  (forall x, In x l -> f x = g x) -> flat_map f l = flat_map g l.
Proof.
  induction l as [|x l IH]; intros H; [reflexivity|].
  simpl. rewrite H by now left. rewrite IH; [reflexivity|].
  intros y Hy. apply H. now right.
Qed.

Lemma region_crop raw : region (crop raw) = region raw.
Proof.
  unfold region.
  replace (Nat.min 25 (raw_nrows (crop raw))) with (Nat.min 25 (raw_nrows raw))
    by (unfold crop; cbn [raw_nrows]; lia).
  replace (Nat.min 6 (length (raw_cols (crop raw))))
    with (Nat.min 6 (length (raw_cols raw)))
    by (unfold crop; cbn [raw_cols]; rewrite length_map, length_firstn; lia).
  apply flat_map_ext_in. intros r Hr. apply in_seq in Hr.
  apply flat_map_ext_in. intros c Hc. apply in_seq in Hc.
  rewrite cell_at_crop by lia. reflexivity.
Qed.

Lemma extract_year_spec_crop raw :
  extract_year_spec (crop raw) = extract_year_spec raw.
Proof.
  unfold extract_year_spec.
  rewrite region_crop, cell_at_crop by lia. reflexivity.
Qed.

End RegionFacts.
Import RegionFacts.

(** X10.  The year depends on the top-left corner of the sheet only: two
    well-formed sheets with the same first 25 rows of the same first 6
    columns give the same year, whatever their other cells hold. *)
Theorem year_from_top_left (raw1 raw2 : RawSheet) :
  raw_wf raw1 -> raw_wf raw2 -> crop raw1 = crop raw2 ->
  extract_year raw1 = extract_year raw2.
Proof.
  intros H1 H2 E.
  rewrite (extract_year_refines H1), (extract_year_refines H2).
  rewrite <- (extract_year_spec_crop raw1), <- (extract_year_spec_crop raw2).
  now rewrite E.
Qed.

Lemma year_from_top_left_witness :
  extract_year
    (sheet1 (repeat CNaN 3 ++ [CStr (u "FY 2025")] ++ repeat CNaN 21 ++
             [CStr (u "1999")]))
  = extract_year
      (sheet1 (repeat CNaN 3 ++ [CStr (u "FY 2025")] ++ repeat CNaN 21 ++
               [CInt 2031; CStr (u "2040")])).
Proof.
  apply (@year_from_top_left
           (sheet1 (repeat CNaN 3 ++ [CStr (u "FY 2025")] ++ repeat CNaN 21 ++
                    [CStr (u "1999")]))
           (sheet1 (repeat CNaN 3 ++ [CStr (u "FY 2025")] ++ repeat CNaN 21 ++
                    [CInt 2031; CStr (u "2040")]))).
  - repeat constructor.
  - repeat constructor.
  - reflexivity.
Defined.

Module SplitFacts.

Lemma after_ws_app a b :
  forallb (fun c => negb (isspace c)) a = true -> after_ws (a ++ b) = after_ws b.
Proof.
  induction a as [|c a IH]; simpl; auto.
  intros H. apply andb_true_iff in H as [Hc H].
  apply negb_true_iff in Hc. rewrite Hc. now apply IH.
Qed.

Lemma split_token t : is_token t -> split t = [t].
Proof.
  intros [Hne Hall]. destruct t as [|c t]; [contradiction|].
  cbn [forallb] in Hall. apply andb_true_iff in Hall as [Hc Hall].
  apply negb_true_iff in Hc. rewrite split_before_after by exact Hc.
  destruct (before_ws_all _ Hall) as [-> ->]. reflexivity.
Qed.

Lemma split_token_app t sp rest :
  is_token t -> isspace sp = true -> split (t ++ sp :: rest) = t :: split rest.
Proof.
  intros [Hne Hall] Hsp. destruct t as [|c t]; [contradiction|].
  cbn [forallb] in Hall. apply andb_true_iff in Hall as [Hc Hall].
  apply negb_true_iff in Hc. cbn [app]. rewrite split_before_after by exact Hc.
  rewrite before_ws_app, after_ws_app by exact Hall.
  cbn [before_ws after_ws]. rewrite Hsp, app_nil_r.
  now rewrite split_space by exact Hsp.
Qed.

Lemma split_join : forall toks,
  Forall is_token toks -> split (join (u " ") toks) = toks.
Proof.
  induction toks as [|t toks IH]; intros H; [reflexivity|].
  inversion H as [|? ? Ht Hts]; subst.
  destruct toks as [|t2 toks].
  - cbn [join]. now apply split_token.
  - change (join (u " ") (t :: t2 :: toks))
      with (t ++ 32%N :: join (u " ") (t2 :: toks)).
    rewrite split_token_app by (auto; reflexivity). now rewrite IH.
Qed.

End SplitFacts.
Import SplitFacts.

(** X11.  The Field Splitter loses no token of a value and keeps their
    order: the Expense_Detail splits again into the tokens after the first,
    and the Expense_Code, a space and the Expense_Detail split into the
    tokens of the value; only the whitespace between and around the tokens is
    not kept.  A value without a token, and no other, has no Expense_Code. *)
Theorem splitter_keeps_tokens (t : pystr) :
  exists detail,
    expense_detail (Some t) = Some detail /\
    split detail = tl (split t) /\
    match expense_code (Some t) with
    | Some code => split (code ++ u " " ++ detail) = split t
    | None => split t = [] /\ detail = []
    end.
Proof.
  unfold expense_detail, expense_code. cbn [option_map].
  exists (join (u " ") (tl (split t))).
  pose proof (split_tokens t) as Htok.
  destruct (split t) as [|code toks] eqn:E; cbn [tl hd_error].
  - repeat split.
  - inversion Htok as [|? ? Hc Hts]; subst.
    assert (Hj : split (join (u " ") toks) = toks) by now apply split_join.
    split; [reflexivity|]. split; [exact Hj|].
    change (code ++ u " " ++ join (u " ") toks)
      with (code ++ 32%N :: join (u " ") toks).
    rewrite split_token_app by (auto; reflexivity). now rewrite Hj.
Qed.

(** X12.  The reader takes xlrd exactly for the names that end in [.xls],
    and openpyxl for every other name, with or without an extension: a name
    that ends in [.xls] does not end in [.xlsx], so the second test of line
    61 never decides. *)
Theorem engine_by_extension (name : pystr) :
  read_excel_any_engine name
  = (if endswith name (u ".xls") then xlrd else openpyxl) /\
  endswith name (u ".xls") && endswith name (u ".xlsx") = false.
Proof.
  assert (H : endswith name (u ".xls") && endswith name (u ".xlsx") = false).
  { unfold endswith.
    change (rev (u ".xls")) with [115%N; 108%N; 120%N; 46%N].
    change (rev (u ".xlsx")) with [120%N; 115%N; 108%N; 120%N; 46%N].
    destruct (rev name) as [|c l]; [reflexivity|].
    cbn [startswith].
    destruct (N.eqb_spec c 115) as [-> | _]; [|reflexivity].
    cbn [N.eqb Pos.eqb andb]. apply andb_false_r. }
  split; [|exact H].
  unfold read_excel_any_engine.
  destruct (endswith name (u ".xls")); [|reflexivity].
  cbn [andb] in *. now rewrite H.
Qed.
